(** * Resource checker: discovery, reconciliation and report

    A shallow embedding of [main.py] (with [config/settings.py]) and the
    properties of its discovery and reporting engine.

    Conventions of the model.
    - A Python [str] is a Rocq [string], one [ascii] per character (the
      code points below 256).
    - Python dictionaries that are iterated ([resource_results], the
      ['paths'] mapping, the hierarchy) are association lists in insertion
      order, updated in place the way a [dict] is.  [path_counts], which is
      only ever looked up, is a [gmap]; [covered_dirs] is a [gset].
    - The operating system and the network are the fields of a [World];
      every call that leaves the process is recorded in a log, and Python
      exceptions are the [Raise] outcome of a computation. *)

From Stdlib Require Import ZArith String Ascii.
From stdpp Require Import base option list strings gmap pretty sorting.

Set Warnings "-register-all".

Open Scope string_scope.
Open Scope Z_scope.
Open Scope list_scope.

(* ===================================================================== *)
(** ** Python string primitives *)
(* ===================================================================== *)

Module Py.

Definition chr (n : nat) : ascii := ascii_of_nat n.
Definition backslash : ascii := "\"%char.
Definition tab : string := String (chr 9) "".

(** [s.split(sep)] for a one-character separator: never empty. *)
Fixpoint split (sep : ascii) (s : string) : list string :=
  match s with
  | EmptyString => [""]
  | String c s' =>
      if Ascii.eqb c sep then "" :: split sep s'
      else match split sep s' with
           | [] => [String c ""]
           | w :: ws => String c w :: ws
           end
  end.

(** [sep.join(parts)]. *)
Fixpoint join (sep : string) (parts : list string) : string :=
  match parts with
  | [] => ""
  | p :: ps =>
      match ps with
      | [] => p
      | _ :: _ => p +:+ sep +:+ join sep ps
      end
  end.

(** [c in s] for a character. *)
Fixpoint has_char (c : ascii) (s : string) : bool :=
  match s with
  | EmptyString => false
  | String c' s' => Ascii.eqb c' c || has_char c s'
  end.

(** [s.startswith(p)]. *)
Fixpoint startswith (p s : string) : bool :=
  match p, s with
  | EmptyString, _ => true
  | String a p', String b s' => Ascii.eqb a b && startswith p' s'
  | String _ _, EmptyString => false
  end.

(** [sub in s]. *)
Fixpoint contains (sub s : string) : bool :=
  startswith sub s ||
  match s with
  | EmptyString => false
  | String _ s' => contains sub s'
  end.

Definition rev_string (s : string) : string :=
  string_of_list_ascii (rev (list_ascii_of_string s)).

(** [s.endswith(p)]. *)
Definition endswith (p s : string) : bool :=
  startswith (rev_string p) (rev_string s).

(** [c.isspace()] on the code points below 256. *)
Definition isspace (c : ascii) : bool :=
  let n := nat_of_ascii c in
  ((9 <=? n) && (n <=? 13) || (28 <=? n) && (n <=? 32)
   || (n =? 133) || (n =? 160))%nat.

Fixpoint lstrip (s : string) : string :=
  match s with
  | EmptyString => ""
  | String c s' => if isspace c then lstrip s' else s
  end.

Definition rstrip (s : string) : string := rev_string (lstrip (rev_string s)).

(** [s.strip()]. *)
Definition strip (s : string) : string := rstrip (lstrip s).

(** The line boundaries of [str.splitlines] below 256, ["\r"] apart. *)
Definition is_linebreak (c : ascii) : bool :=
  let n := nat_of_ascii c in
  ((n =? 10) || (n =? 11) || (n =? 12) || (n =? 28) || (n =? 29)
   || (n =? 30) || (n =? 133))%nat.

(** [splitlines_from cur s]: [cur] is the line being read, reversed. *)
Fixpoint splitlines_from (cur : list ascii) (s : string) : list string :=
  match s with
  | EmptyString =>
      match cur with
      | [] => []
      | _ :: _ => [string_of_list_ascii (rev cur)]
      end
  | String c s' =>
      if (nat_of_ascii c =? 13)%nat then
        string_of_list_ascii (rev cur) ::
          match s' with
          | String c' s'' =>
              if (nat_of_ascii c' =? 10)%nat then splitlines_from [] s''
              else splitlines_from [] s'
          | EmptyString => []
          end
      else if is_linebreak c then
        string_of_list_ascii (rev cur) :: splitlines_from [] s'
      else splitlines_from (c :: cur) s'
  end.

(** [s.splitlines()]. *)
Definition splitlines (s : string) : list string := splitlines_from [] s.

(** [s.find(sub, start)] for [0 <= start]: the lowest index at or after
    [start] where [sub] occurs, [-1] when there is none. *)
Fixpoint find_from (sub s : string) (pos : Z) (skip : nat) : Z :=
  match skip with
  | S k =>
      match s with
      | EmptyString => -1
      | String _ s' => find_from sub s' (pos + 1) k
      end
  | O =>
      if startswith sub s then pos
      else match s with
           | EmptyString => -1
           | String _ s' => find_from sub s' (pos + 1) O
           end
  end.

Definition find (sub s : string) (start : Z) : Z :=
  find_from sub s 0 (Z.to_nat start).

Definition len (s : string) : Z := Z.of_nat (String.length s).

(** An index of a slice, clamped as Python does. *)
Definition clamp (n i : Z) : Z :=
  if i <? 0 then Z.max 0 (n + i) else Z.min n i.

(** [s[start:stop]]. *)
Definition slice (s : string) (start stop : Z) : string :=
  let n := len s in
  let a := clamp n start in
  let b := clamp n stop in
  String.substring (Z.to_nat a) (Z.to_nat (b - a)) s.

(** [' ' * n]. *)
Fixpoint spaces (n : nat) : string :=
  match n with
  | O => ""
  | S k => String " " (spaces k)
  end.

(** [str(b)] for a [bool]. *)
Definition str_bool (b : bool) : string := if b then "True" else "False".

End Py.

(* ===================================================================== *)
(** ** Python dictionaries in insertion order *)
(* ===================================================================== *)

Section Dict.
Context {K V : Type} `{EqDecision K}.

(** [d.get(k)]: the value of the one entry of key [k]. *)
Fixpoint dict_get (k : K) (d : list (K * V)) : option V :=
  match d with
  | [] => None
  | (k', v) :: d' => if decide (k = k') then Some v else dict_get k d'
  end.

(** [d[k] = v]: an existing key keeps its position, a new key goes last. *)
Fixpoint dict_set (k : K) (v : V) (d : list (K * V)) : list (K * V) :=
  match d with
  | [] => [(k, v)]
  | (k', v') :: d' =>
      if decide (k = k') then (k, v) :: d' else (k', v') :: dict_set k v d'
  end.

(** [d[k] = f(d[k])] for a key that is present. *)
Fixpoint dict_alter (f : V -> V) (k : K) (d : list (K * V)) : list (K * V) :=
  match d with
  | [] => []
  | (k', v') :: d' =>
      if decide (k = k') then (k', f v') :: d' else (k', v') :: dict_alter f k d'
  end.

Definition dict_keys (d : list (K * V)) : list K := d.*1.

End Dict.

(* ===================================================================== *)
(** ** Outcomes, exceptions and the log of outside calls *)
(* ===================================================================== *)

(** The exception classes the code can meet; each carries [str(e)]. *)
Inductive exn :=
| RequestException (msg : string)
| CalledProcessError (msg : string)
| OSError (msg : string)
| IndexError (msg : string)
| KeyError (msg : string)
| TypeError (msg : string)
| AttributeError (msg : string)
| ParserRejectedMarkup (msg : string).

Definition exn_str (e : exn) : string :=
  match e with
  | RequestException m | CalledProcessError m | OSError m | IndexError m
  | KeyError m | TypeError m | AttributeError m | ParserRejectedMarkup m => m
  end.

Definition is_RequestException (e : exn) : bool :=
  match e with RequestException _ => true | _ => false end.

Definition is_CalledProcessError (e : exn) : bool :=
  match e with CalledProcessError _ => true | _ => false end.

Inductive outcome (A : Type) :=
| Ok (a : A)
| Raise (e : exn).
Arguments Ok {A} a.
Arguments Raise {A} e.

(** What leaves the process. *)
Inductive event :=
| HttpGet (url : string)
| ShellRun (cmd : string)
| ProcRun (argv : list string).

(** A computation: the calls it made, in order, and how it ended. *)
Definition M (A : Type) : Type := list event * outcome A.

Definition raise {A} (e : exn) : M A := ([], Raise e).
Definition emit (ev : event) : M unit := ([ev], Ok tt).
Definition lift {A} (o : outcome A) : M A := ([], o).

#[global] Instance M_ret : MRet M := fun A a => ([], Ok a).

#[global] Instance M_bind : MBind M := fun A B f m =>
  match m with
  | (l, Ok a) => let '(l', r) := f a in (l ++ l', r)
  | (l, Raise e) => (l, Raise e)
  end.

(** [try: m  except <class>: handler] where [catches] tells the class. *)
Definition try_except {A} (m : M A) (catches : exn -> bool) (handler : exn -> M A) : M A :=
  match m with
  | (l, Ok a) => (l, Ok a)
  | (l, Raise e) =>
      if catches e then let '(l', r) := handler e in (l ++ l', r)
      else (l, Raise e)
  end.

(** [for x in xs: s = body x s]. *)
Fixpoint for_each {A S} (xs : list A) (body : A -> S -> M S) (s : S) : M S :=
  match xs with
  | [] => mret s
  | x :: xs' => s' ← body x s; for_each xs' body s'
  end.

Definition log_of {A} (m : M A) : list event := m.1.
Definition result_of {A} (m : M A) : outcome A := m.2.
Definition returns {A} (m : M A) : bool :=
  match m.2 with Ok _ => true | Raise _ => false end.

(* ===================================================================== *)
(** ** Decoded JSON and its formatting *)
(* ===================================================================== *)

(** The objects [response.json()] yields.  A float carries its [repr]. *)
Inductive json :=
| JNull
| JBool (b : bool)
| JInt (n : Z)
| JFloat (repr : string)
| JStr (s : string)
| JList (items : list json)
| JDict (entries : list (string * json)).

Definition hex_digit (n : nat) : ascii :=
  match n with
  | 0 => "0" | 1 => "1" | 2 => "2" | 3 => "3" | 4 => "4" | 5 => "5"
  | 6 => "6" | 7 => "7" | 8 => "8" | 9 => "9" | 10 => "a" | 11 => "b"
  | 12 => "c" | 13 => "d" | 14 => "e" | _ => "f"
  end%nat%char.

(** One character of [repr(s)] inside the quotes [q]. *)
Definition repr_char (q c : ascii) : string :=
  let n := nat_of_ascii c in
  if Ascii.eqb c "\" then "\\"
  else if Ascii.eqb c q then String "\" (String q "")
  else if (n =? 10)%nat then "\n"
  else if (n =? 13)%nat then "\r"
  else if (n =? 9)%nat then "\t"
  else if ((n <? 32) || (n =? 127) || (128 <=? n) && (n <=? 160) || (n =? 173))%nat
       then String "\" (String "x" (String (hex_digit (n / 16)) (String (hex_digit (n mod 16)) "")))
  else String c "".

Fixpoint repr_chars (q : ascii) (s : string) : string :=
  match s with
  | EmptyString => ""
  | String c s' => repr_char q c +:+ repr_chars q s'
  end.

Definition double_quote : ascii := Py.chr 34.

(** [repr(s)] for a [str]. *)
Definition repr_str (s : string) : string :=
  let q := if Py.has_char "'" s && negb (Py.has_char double_quote s)
           then double_quote else "'"%char in
  String q (repr_chars q s +:+ String q "").

(** [repr(j)]. *)
Fixpoint py_repr (j : json) : string :=
  match j with
  | JNull => "None"
  | JBool b => Py.str_bool b
  | JInt n => pretty n
  | JFloat r => r
  | JStr s => repr_str s
  | JList items => "[" +:+ Py.join ", " (map py_repr items) +:+ "]"
  | JDict entries =>
      "{" +:+ Py.join ", "
                (map (fun kv => match kv with
                                | (k, v) => repr_str k +:+ ": " +:+ py_repr v
                                end) entries) +:+ "}"
  end.

(** [str(j)], what an f-string field prints. *)
Definition py_str (j : json) : string :=
  match j with
  | JStr s => s
  | _ => py_repr j
  end.

(** [type(j).__name__]. *)
Definition type_name (j : json) : string :=
  match j with
  | JNull => "NoneType"
  | JBool _ => "bool"
  | JInt _ => "int"
  | JFloat _ => "float"
  | JStr _ => "str"
  | JList _ => "list"
  | JDict _ => "dict"
  end.

(** [j[0]]. *)
Definition subscript0 (j : json) : outcome json :=
  match j with
  | JList (x :: _) => Ok x
  | JList [] => Raise (IndexError "list index out of range")
  | JDict _ => Raise (KeyError "0")
  | JStr (String c _) => Ok (JStr (String c ""))
  | JStr EmptyString => Raise (IndexError "string index out of range")
  | JNull | JBool _ | JInt _ | JFloat _ =>
      Raise (TypeError ("'" +:+ type_name j +:+ "' object is not subscriptable"))
  end.

(** [j.get(key, dflt)]. *)
Definition py_get (j : json) (key : string) (dflt : json) : outcome json :=
  match j with
  | JDict entries => Ok (default dflt (dict_get key entries))
  | JList _ | JStr _ | JNull | JBool _ | JInt _ | JFloat _ =>
      Raise (AttributeError ("'" +:+ type_name j +:+ "' object has no attribute 'get'"))
  end.

(* ===================================================================== *)
(** ** The host: operating system, file system and network *)
(* ===================================================================== *)

(** [platform.system()]: the code only asks whether it is ["Windows"]. *)
Inductive platform := Windows | Posix.

(** How a child process ended: it exited with status 0 and this combined
    output; it exited with another status, which [check_output] turns into
    a [CalledProcessError] of this [str(e)]; or [subprocess] raised
    something else ([FileNotFoundError], [PermissionError], a decoding
    error, ...). *)
Inductive proc_result :=
| Exited0 (output : string)
| ExitedNonZero (msg : string)
| Failed (e : exn).

(** What [response.json()] comes to: the decoded body, or a
    [requests.JSONDecodeError] (a [RequestException]) of this [str(e)]. *)
Inductive json_result :=
| Decoded (j : json)
| NotJson (msg : string).

(** A [requests.Response]. *)
Record response := {
  status_code : Z;
  text : string;
  json_body : json_result;
}.

Inductive http_result :=
| HttpResponse (r : response)
| HttpFailed (msg : string).

Record World := {
  SYSTEM_PLATFORM : platform;
  (** [os.environ.get(name)] *)
  environ : string -> option string;
  (** the child started by [check_output(cmd, shell=True)] *)
  shell : string -> proc_result;
  (** the child started by [check_output([command, arg])] *)
  spawn : string -> string -> proc_result;
  (** [os.access(path, os.X_OK)] *)
  os_access_X_OK : string -> bool;
  (** [os.path.isfile(path)] *)
  os_path_isfile : string -> bool;
  (** [os.path.dirname(path)] *)
  os_path_dirname : string -> string;
  (** [glob(os.path.join(dir_pattern, "**", resource), recursive=True)] *)
  glob_recursive : string -> string -> list string;
  (** [BeautifulSoup(markup, 'html.parser')]: [None] when the tree is
      built, [Some msg] when [bs4] raises [ParserRejectedMarkup] with that
      [str(e)] *)
  parse_html : string -> option string;
  (** the server's answer to [requests.get(url)] *)
  http : string -> http_result;
}.

(** [os.pathsep]. *)
Definition pathsep (w : World) : ascii :=
  match SYSTEM_PLATFORM w with
  | Windows => ";"%char
  | Posix => ":"%char
  end.

(** [os.environ.get(name, dflt)]. *)
Definition environ_get (w : World) (name dflt : string) : string :=
  default dflt (environ w name).

(** [subprocess.check_output] on a finished child. *)
Definition check_output (r : proc_result) : outcome string :=
  match r with
  | Exited0 output => Ok output
  | ExitedNonZero msg => Raise (CalledProcessError msg)
  | Failed e => Raise e
  end.

(** [requests.get(url)]. *)
Definition requests_get (w : World) (url : string) : M response :=
  _ ← emit (HttpGet url);
  match http w url with
  | HttpResponse r => mret r
  | HttpFailed msg => raise (RequestException msg)
  end.

(** [BeautifulSoup(markup, 'html.parser')], for the exception it may
    raise: the tree itself is never read. *)
Definition BeautifulSoup (w : World) (markup : string) : outcome unit :=
  match parse_html w markup with
  | None => Ok tt
  | Some msg => Raise (ParserRejectedMarkup msg)
  end.

(** [response.json()]. *)
Definition response_json (r : response) : M json :=
  match json_body r with
  | Decoded j => mret j
  | NotJson msg => raise (RequestException msg)
  end.

(* ===================================================================== *)
(** ** config/settings.py *)
(* ===================================================================== *)

(** A resource table: name, then version flag and reference URL. *)
Definition resource_table : Type := list (string * (string * string)).

Definition RESOURCES : resource_table :=
  [ ("node", ("--version", "https://nodejs.org/en/")) ].

Definition STANDARD_INSTALL_DIRS : list string :=
  [ "C:\Program Files";
    "C:\Program Files (x86)";
    "C:\Users\*\AppData\Local";
    "/usr/bin";
    "/usr/local/bin";
    "/opt" ].

(* ===================================================================== *)
(** ** main.py: discovery *)
(* ===================================================================== *)

Definition log_environment_variables (w : World) : list (string * string) :=
  [ ("PATH", environ_get w "PATH" "Not Set");
    ("JAVA_HOME", environ_get w "JAVA_HOME" "Not Set");
    ("PYTHON_HOME", environ_get w "PYTHON_HOME" "Not Set") ].

Definition is_executable (w : World) (file_path : string) : bool :=
  match SYSTEM_PLATFORM w with
  | Windows =>
      os_path_isfile w file_path &&
      (Py.endswith ".exe" file_path || Py.endswith ".cmd" file_path
       || Py.endswith ".bat" file_path)
  | Posix => os_access_X_OK w file_path
  end.

Definition run_command (w : World) (cmd : string) : M (list string) :=
  try_except
    (_ ← emit (ShellRun cmd);
     output ← lift (check_output (shell w cmd));
     mret (Py.splitlines (Py.strip output)))
    is_CalledProcessError
    (fun _ => mret []).

Definition search_in_standard_dirs (w : World) (dirs : list string) (resource : string)
  : list string :=
  flat_map (fun dir_pattern => List.filter (os_access_X_OK w) (glob_recursive w dir_pattern resource))
           dirs.

Definition list_uncovered_path_dirs (w : World) (covered_dirs : gset string) : list string :=
  let path_dirs := Py.split (pathsep w) (environ_get w "PATH" "") in
  List.filter (fun d => negb (bool_decide (d = "")) && bool_decide (d ∉ covered_dirs)) path_dirs.

Definition find_executable_paths (w : World) (command : string) : M (list string) :=
  let cmd :=
    match SYSTEM_PLATFORM w with
    | Windows => "where " +:+ command
    | Posix => "which -a " +:+ command
    end in
  run_command w cmd.

Definition get_version (w : World) (command version_args : string) : M string :=
  try_except
    (_ ← emit (ProcRun [command; version_args]);
     output ← lift (check_output (spawn w command version_args));
     match Py.splitlines (Py.strip output) with
     | line :: _ => mret line
     | [] => raise (IndexError "list index out of range")
     end)
    (fun _ => true)
    (fun e => mret ("Error: " +:+ exn_str e)).

Definition release_marker : string :=
  "<span class=" +:+ String double_quote ("release-number" +:+ String double_quote ">").

(** The value is a [json] because the registry branch hands back whatever
    the ['version'] field holds; every other branch builds a [str].  The
    [BeautifulSoup] tree built in the homepage branch is never read, but
    building it can raise. *)
Definition get_latest_version (w : World) (url : string) : M json :=
  try_except
    (response ← requests_get w url;
     if status_code response =? 200 then
       if Py.contains "nodejs" url then
         response ← requests_get w "https://nodejs.org/dist/index.json";
         body ← response_json response;
         response_data ← lift (subscript0 body);
         version ← lift (py_get response_data "version" (JStr "Unknown version"));
         date ← lift (py_get response_data "date" (JStr "Unknown version"));
         mret (JStr (py_str version +:+ " (" +:+ py_str date +:+ ")"))
       else if Py.contains "python" url then
         let start := Py.find release_marker (text response) 0 + Py.len release_marker in
         _ ← lift (BeautifulSoup w (text response));
         let stop := Py.find "</span>" (text response) start in
         mret (JStr (Py.strip (Py.slice (text response) start stop)))
       else if Py.contains "npmjs" url then
         response ← requests_get w "https://registry.npmjs.org/npm/latest";
         body ← response_json response;
         lift (py_get body "version" (JStr "Unknown version"))
       else mret (JStr "Latest version info not found")
     else mret (JStr ("Failed to fetch version from " +:+ url)))
    is_RequestException
    (fun e => mret (JStr ("Error fetching data: " +:+ exn_str e))).

Definition get_path_details (w : World) (path version_args : string)
  : M (bool * option string) :=
  let executable := is_executable w path in
  version ← (if executable then v ← get_version w path version_args; mret (Some v)
             else mret None);
  mret (executable, version).

(** One discovered path: [{"Executable": .., "Version": .., "InPath": ..}]. *)
Record path_details := {
  Executable : bool;
  Version : option string;
  InPath : bool;
}.

(** [{'latest_version': .., 'url': ..}]. *)
Record online_details := {
  latest_version : json;
  url : string;
}.

(** [{'online_details': .., 'paths': ..}]. *)
Record resource_details := {
  online : online_details;
  paths : list (string * path_details);
}.

Definition resource_results : Type := list (string * resource_details).

(** [resource_results[resource]['paths'][path] = d]. *)
Definition set_path (resource path : string) (d : path_details) (rr : resource_results)
  : resource_results :=
  dict_alter (fun e => {| online := online e; paths := dict_set path d (paths e) |})
             resource rr.

(** The one-character strings of [s]: what iterating a [str] yields. *)
Definition chars (s : string) : list string :=
  map (fun c => String c "") (list_ascii_of_string s).

(** [s.update(iterable)]. *)
Definition set_update (s : gset string) (xs : list string) : gset string :=
  s ∪ list_to_set xs.

(** The body of the loop over [RESOURCES.items()]. *)
Definition get_resources_body (w : World) (dirs : list string) (search_standard_dirs : bool)
    (item : string * (string * string)) (acc : resource_results * gset string)
  : M (resource_results * gset string) :=
  let '(resource, (version_args, url)) := item in
  let '(results, covered_dirs) := acc in
  lv ← get_latest_version w url;
  paths ← find_executable_paths w resource;
  let extra_paths :=
    if search_standard_dirs then search_in_standard_dirs w dirs resource else [] in
  let results :=
    dict_set resource
      {| online := {| latest_version := lv; url := url |}; paths := [] |} results in
  results ← for_each paths (fun path results =>
      '(executable, version) ← get_path_details w path version_args;
      mret (set_path resource path
              {| Executable := executable; Version := version; InPath := true |} results))
    results;
  for_each extra_paths (fun path '(results, covered_dirs) =>
      '(executable, version) ← get_path_details w path version_args;
      mret (set_path resource path
              {| Executable := executable; Version := version; InPath := false |} results,
            set_update covered_dirs (chars (os_path_dirname w path))))
    (results, covered_dirs).

Definition get_resources (w : World) (table : resource_table) (dirs : list string)
    (search_standard_dirs : bool) : M (resource_results * gset string) :=
  for_each table (get_resources_body w dirs search_standard_dirs) ([], ∅).

(* ===================================================================== *)
(** ** main.py: hierarchy and report *)
(* ===================================================================== *)

(** The nested dictionary of path segments. *)
Inductive tree := Node (items : list (string * tree)).

Definition items_of (t : tree) : list (string * tree) :=
  match t with Node items => items end.

(** [current.setdefault(k, {})] followed by [f] on the dictionary it
    returns: the entry of [k] is changed where it stands, or added last. *)
Fixpoint setdefault_then (k : string) (f : tree -> tree) (items : list (string * tree))
  : list (string * tree) :=
  match items with
  | [] => [(k, f (Node []))]
  | (k', sub) :: rest =>
      if decide (k = k') then (k', f sub) :: rest
      else (k', sub) :: setdefault_then k f rest
  end.

(** [for part in parts: current = current.setdefault(part, {})]. *)
Fixpoint insert_parts (parts : list string) (current : tree) : tree :=
  match parts with
  | [] => current
  | part :: parts' =>
      Node (setdefault_then part (insert_parts parts') (items_of current))
  end.

(** [sorted(d.items())]: by key, in the order of the code points. *)
Fixpoint insert_sorted {A} (x : string * A) (l : list (string * A)) : list (string * A) :=
  match l with
  | [] => [x]
  | y :: l' => if String.leb x.1 y.1 then x :: y :: l' else y :: insert_sorted x l'
  end.

Fixpoint sorted_items {A} (l : list (string * A)) : list (string * A) :=
  match l with
  | [] => []
  | x :: l' => insert_sorted x (sorted_items l')
  end.

(** The key under which [print_hierarchy] looks a node up. *)
Definition lookup_key (key : string) (subdir : tree) : string :=
  Py.join "\" (key :: dict_keys (items_of subdir)).

Definition hierarchy_line (path_counts : gmap string Z) (indent : nat)
    (key : string) (subdir : tree) : string :=
  let count := default 0 (path_counts !! lookup_key key subdir) in
  Py.spaces indent +:+ key +:+ " (" +:+ pretty count +:+ ")\".

(** The lines [print_hierarchy] appends to the report.  Each entry's
    block (its own line, then its subtree) is computed where the entry
    stands and the blocks are emitted in sorted key order; that this is
    the source's loop over [sorted(current.items())] is
    [print_hierarchy_unfold]. *)
Fixpoint print_hierarchy (current : tree) (path_counts : gmap string Z) (indent : nat)
  : list string :=
  match current with
  | Node items =>
      concat (sorted_items
                (map (fun kv => match kv with
                                | (key, subdir) =>
                                    (key, hierarchy_line path_counts indent key subdir
                                          :: print_hierarchy subdir path_counts (indent + 2)%nat)
                                end) items)).*2
  end.

(** [range(1, n + 1)]. *)
Definition range1 (n : nat) : list nat := seq 1 n.

(** The innermost loop of [build_path_counts], for one path. *)
Definition count_path (path : string) (path_counts : gmap string Z) : gmap string Z :=
  let parts := Py.split Py.backslash path in
  foldl (fun pc i =>
           let sub_path := Py.join "\" (take i parts) in
           <[sub_path := default 0 (pc !! sub_path) + 1]> pc)
        path_counts (range1 (length parts)).

Definition build_path_counts (results : resource_results) : gmap string Z :=
  foldl (fun pc entry => foldl (fun pc path => count_path path pc) pc (dict_keys (paths entry.2)))
        ∅ results.

(** The hierarchy [generate_report] builds for one resource. *)
Definition build_hierarchy (ps : list (string * path_details)) : tree :=
  foldl (fun hierarchy entry =>
           if bool_decide (InPath entry.2 = false)
           then insert_parts (Py.split Py.backslash entry.1) hierarchy
           else hierarchy)
        (Node []) ps.

Definition str_version (v : option string) : string :=
  match v with Some s => s | None => "None" end.

Definition header_line (resource : string) (details : resource_details) : string :=
  resource +:+ ": " +:+ (if bool_decide (length (paths details) = 0%nat) then "No paths found" else "").

Definition path_lines (entry : string * path_details) : list string :=
  if bool_decide (Executable entry.2 = true) then
    [ Py.tab +:+ "Path: " +:+ entry.1;
      Py.tab +:+ Py.tab +:+ Py.tab +:+ "Executable: " +:+ Py.str_bool (Executable entry.2);
      Py.tab +:+ Py.tab +:+ Py.tab +:+ "Version: " +:+ str_version (Version entry.2);
      Py.tab +:+ Py.tab +:+ Py.tab +:+ "In-Path Variable: " +:+ Py.str_bool (InPath entry.2) ]
  else [].

(** The lines of one resource's section.  The source walks the paths
    once, appending the ["Path:"] block of an executable entry and
    inserting an [InPath = False] entry into the hierarchy; the hierarchy
    is printed after that walk, so the two are written apart here. *)
Definition resource_section (path_counts : gmap string Z) (item : string * resource_details)
  : list string :=
  let '(resource, details) := item in
  [ header_line resource details;
    Py.tab +:+ "Latest Available Version: " +:+ py_str (latest_version (online details))
      +:+ "  -  " +:+ url (online details) ]
  ++ flat_map path_lines (paths details)
  ++ print_hierarchy (build_hierarchy (paths details)) path_counts 2
  ++ [ "" ].

Definition generate_report (w : World) (results : resource_results) (covered_dirs : gset string)
  : list string :=
  let path_counts := build_path_counts results in
  let uncovered_dirs := list_uncovered_path_dirs w covered_dirs in
  flat_map (resource_section path_counts) results
  ++ (if bool_decide (uncovered_dirs = []) then []
      else "Uncovered PATH Directories:" :: map (fun d => "  " +:+ d) uncovered_dirs)
  ++ [ "" ]
  ++ [ "Environment Variables:" ]
  ++ map (fun kv => "  " +:+ kv.1 +:+ ": " +:+ kv.2) (log_environment_variables w).

(* ===================================================================== *)
(** ** Vocabulary of the properties *)
(* ===================================================================== *)

(** The live [PATH] entries: the value split at the platform separator. *)
Definition path_entries (w : World) : list string :=
  Py.split (pathsep w) (environ_get w "PATH" "").

(** What the body of [get_version]'s [try] block comes to. *)
Definition probe (w : World) (command version_args : string) : outcome string :=
  match check_output (spawn w command version_args) with
  | Ok output =>
      match Py.splitlines (Py.strip output) with
      | line :: _ => Ok line
      | [] => Raise (IndexError "list index out of range")
      end
  | Raise e => Raise e
  end.

(** The string [get_version] hands back. *)
Definition version_string (w : World) (command version_args : string) : string :=
  match probe w command version_args with
  | Ok line => line
  | Raise e => "Error: " +:+ exn_str e
  end.

(** The attributes recorded for a path found in the given phase. *)
Definition details_of (w : World) (version_args : string) (in_path : bool) (path : string)
  : path_details :=
  {| Executable := is_executable w path;
     Version := if is_executable w path then Some (version_string w path version_args)
                else None;
     InPath := in_path |}.

(** The ['paths'] mapping after one phase over [ps], starting from [d]. *)
Definition fold_paths (w : World) (version_args : string) (in_path : bool)
    (ps : list string) (d : list (string * path_details)) : list (string * path_details) :=
  foldl (fun d path => dict_set path (details_of w version_args in_path path) d) d ps.

(** The paths the two searches report for a resource ([[]] when the
    locator raised). *)
Definition located (w : World) (resource : string) : list string :=
  match result_of (find_executable_paths w resource) with
  | Ok ps => ps
  | Raise _ => []
  end.

Definition extra_found (w : World) (dirs : list string) (search_standard_dirs : bool)
    (resource : string) : list string :=
  if search_standard_dirs then search_in_standard_dirs w dirs resource else [].

(** The probes one phase over [ps] starts: one per executable path. *)
Definition probe_log (w : World) (version_args : string) (ps : list string) : list event :=
  flat_map (fun p => if is_executable w p then [ProcRun [p; version_args]] else []) ps.

(** The covered set after the standard-directory phase over [extra]. *)
Definition covered_by (w : World) (extra : list string) (covered_dirs : gset string)
  : gset string :=
  foldl (fun c p => set_update c (chars (os_path_dirname w p))) covered_dirs extra.

(** The entry [get_resources] records for a resource. *)
Definition entry_of (w : World) (version_args url : string) (lv : json)
    (ps extra : list string) : resource_details :=
  {| online := {| latest_version := lv; url := url |};
     paths := fold_paths w version_args false extra (fold_paths w version_args true ps []) |}.

Definition is_HttpGet (ev : event) : Prop :=
  match ev with HttpGet _ => True | _ => False end.

(** What may appear in the log of a run on host [w]: a probe is only
    ever started on a path that passed the executability check. *)
Definition allowed_event (w : World) (ev : event) : Prop :=
  match ev with
  | ProcRun [command; _] => is_executable w command = true
  | ProcRun _ => False
  | HttpGet _ | ShellRun _ => True
  end.

(** An entry of the result set is the one its resource's iteration made. *)
Definition made_for (w : World) (table : resource_table) (dirs : list string) (b : bool)
    (r : string) (det : resource_details) : Prop :=
  exists args u lv l1 l2,
    (r, (args, u)) ∈ table
    /\ get_latest_version w u = (l1, Ok lv)
    /\ find_executable_paths w r = (l2, Ok (located w r))
    /\ det = entry_of w args u lv (located w r) (extra_found w dirs b r).

(** The key order of a dictionary after the keys [ps] are assigned in
    turn, starting from the key order [ks]: a key already present stays
    where it is, a new one goes last. *)
Definition first_seen (ps : list string) (ks : list string) : list string :=
  foldl (fun ks p => if decide (p ∈ ks) then ks else ks ++ [p]) ks ps.

(** The same host with another behaviour of the probed executables. *)
Definition with_spawn (w : World) (sp : string -> string -> proc_result) : World :=
  {| SYSTEM_PLATFORM := SYSTEM_PLATFORM w;
     environ := environ w;
     shell := shell w;
     spawn := sp;
     os_access_X_OK := os_access_X_OK w;
     os_path_isfile := os_path_isfile w;
     os_path_dirname := os_path_dirname w;
     glob_recursive := glob_recursive w;
     parse_html := parse_html w;
     http := http w |}.

(** A result set without its version strings. *)
Definition shape (rr : resource_results)
  : list (string * (online_details * list (string * (bool * bool)))) :=
  map (fun item => (item.1, (online item.2,
         map (fun e => (e.1, (Executable e.2, InPath e.2))) (paths item.2)))) rr.

(** Two computations ended alike: both raised the same exception, or
    both returned and the values are related. *)
Definition ending {S} (R : S -> S -> Prop) (a b : outcome S) : Prop :=
  match a, b with
  | Ok x, Ok y => R x y
  | Raise e1, Raise e2 => e1 = e2
  | _, _ => False
  end.

(** Results of one shape and the same covered set. *)
Definition same_state (a b : resource_results * gset string) : Prop :=
  shape a.1 = shape b.1 /\ a.2 = b.2.

Definition same_ending (a b : outcome (resource_results * gset string)) : Prop :=
  ending same_state a b.

(** The order [sorted] puts the items of a dictionary in. *)
Definition key_le {A} (x y : string * A) : Prop := String.leb x.1 y.1 = true.

(** The subtree reached from [t] along the chain of segments [c]. *)
Fixpoint walk (c : list string) (t : tree) : option tree :=
  match c with
  | [] => Some t
  | k :: c' =>
      match dict_get k (items_of t) with
      | Some sub => walk c' sub
      | None => None
      end
  end.

(** [c] is a root-to-node chain of [t]. *)
Definition has_chain (c : list string) (t : tree) : bool :=
  bool_decide (is_Some (walk c t)).

Definition is_leaf (t : tree) : bool :=
  match t with Node [] => true | Node (_ :: _) => false end.

(** [c] is a root-to-leaf chain of [t]. *)
Definition leaf_chain (c : list string) (t : tree) : bool :=
  match c, walk c t with
  | _ :: _, Some sub => is_leaf sub
  | _, _ => false
  end.

(** The segments of a path, as the code cuts them. *)
Definition segments (path : string) : list string := Py.split Py.backslash path.

(** [s] cut at every character that [is_sep] accepts. *)
Fixpoint split_where (is_sep : ascii -> bool) (s : string) : list string :=
  match s with
  | EmptyString => [""]
  | String c s' =>
      if is_sep c then "" :: split_where is_sep s'
      else match split_where is_sep s' with
           | [] => [String c ""]
           | w :: ws => String c w :: ws
           end
  end.

(** The separators of a platform: [/] everywhere, and the backslash on
    Windows. *)
Definition is_separator (pl : platform) (c : ascii) : bool :=
  match pl with
  | Windows => Ascii.eqb c Py.backslash || Ascii.eqb c "/"
  | Posix => Ascii.eqb c "/"
  end.

(** The segments of a path under the platform's own rules: the non-empty
    names between its separators, [opt], [foo], [bin], [node] for
    [/opt/foo/bin/node]. *)
Definition platform_segments (pl : platform) (path : string) : list string :=
  List.filter (fun name => negb (String.eqb name "")) (split_where (is_separator pl) path).

(** Every discovered path entry, resource by resource. *)
Definition discovered (rr : resource_results) : list string :=
  flat_map (fun item => dict_keys (paths item.2)) rr.

(** How many discovered entries have the segments of [s] as a prefix of
    their own. *)
Definition prefix_count (s : string) (rr : resource_results) : nat :=
  length (filter (fun p => segments s `prefix_of` segments p) (discovered rr)).


(** [path_counts[k] = path_counts.get(k, 0) + 1]. *)
Definition bump (pc : gmap string Z) (k : string) : gmap string Z :=
  <[k := default 0 (pc !! k) + 1]> pc.

(** The keys [build_path_counts] increments for one path. *)
Definition prefix_keys (path : string) : list string :=
  (fun i => Py.join "\" (take i (segments path))) <$> range1 (length (segments path)).

(* ===================================================================== *)
(** ** Concrete hosts and inputs *)
(* ===================================================================== *)

Definition nl : string := String (Py.chr 10) "".

Definition plain_page : response :=
  {| status_code := 200; text := "<html></html>";
     json_body := NotJson "Expecting value: line 1 column 1 (char 0)" |}.

Definition json_page (j : json) : response :=
  {| status_code := 200; text := ""; json_body := Decoded j |}.

Definition node_index : json :=
  JList [ JDict [ ("version", JStr "v22.1.0"); ("date", JStr "2024-04-24") ] ].

(** [posixpath.dirname]. *)
Fixpoint posix_dirname_rev (r : string) : string :=
  match r with
  | EmptyString => ""
  | String c r' => if Ascii.eqb c "/" then r else posix_dirname_rev r'
  end.

Fixpoint strip_slashes (r : string) : string :=
  match r with
  | EmptyString => ""
  | String c r' => if Ascii.eqb c "/" then strip_slashes r' else r
  end.

Definition posix_dirname (p : string) : string :=
  let head := posix_dirname_rev (Py.rev_string p) in
  match strip_slashes head with
  | EmptyString => Py.rev_string head
  | String _ _ as h => Py.rev_string h
  end.

(** A POSIX host: [node] is on [PATH] twice, once without the execute
    bit; [PATH] has a doubled separator. *)
Definition linux_host : World :=
  {| SYSTEM_PLATFORM := Posix;
     environ := fun name =>
       if String.eqb name "PATH" then Some "/usr/bin::/usr/local/bin" else None;
     shell := fun cmd =>
       if String.eqb cmd "which -a node"
       then Exited0 ("/usr/bin/node" +:+ nl +:+ "/usr/local/bin/node" +:+ nl)
       else ExitedNonZero ("Command '" +:+ cmd +:+ "' returned non-zero exit status 1.");
     spawn := fun command _ =>
       if String.eqb command "/usr/bin/node" then Exited0 ("v18.16.0" +:+ nl)
       else Failed (OSError "[Errno 13] Permission denied");
     os_access_X_OK := fun p => String.eqb p "/usr/bin/node";
     os_path_isfile := fun _ => true;
     os_path_dirname := posix_dirname;
     glob_recursive := fun dir_pattern _ =>
       if String.eqb dir_pattern "/usr/bin" then ["/usr/bin/node"] else [];
     parse_html := fun _ => None;
     http := fun u =>
       if String.eqb u "https://nodejs.org/dist/index.json"
       then HttpResponse (json_page node_index)
       else HttpResponse plain_page |}.

(** The same host when the release index answers with an empty list. *)
Definition empty_index_host : World :=
  {| SYSTEM_PLATFORM := Posix;
     environ := environ linux_host;
     shell := shell linux_host;
     spawn := spawn linux_host;
     os_access_X_OK := os_access_X_OK linux_host;
     os_path_isfile := os_path_isfile linux_host;
     os_path_dirname := os_path_dirname linux_host;
     glob_recursive := glob_recursive linux_host;
     parse_html := parse_html linux_host;
     http := fun u =>
       if String.eqb u "https://nodejs.org/dist/index.json"
       then HttpResponse (json_page (JList []))
       else HttpResponse plain_page |}.

(** A host where nothing is installed. *)
Definition bare_host : World :=
  {| SYSTEM_PLATFORM := Posix;
     environ := fun _ => None;
     shell := fun cmd =>
       ExitedNonZero ("Command '" +:+ cmd +:+ "' returned non-zero exit status 1.");
     spawn := fun _ _ => Failed (OSError "[Errno 2] No such file or directory");
     os_access_X_OK := fun _ => false;
     os_path_isfile := fun _ => false;
     os_path_dirname := posix_dirname;
     glob_recursive := fun _ _ => [];
     parse_html := fun _ => None;
     http := fun _ => HttpFailed "Name or service not known" |}.

Definition found (executable : bool) (version : option string) (in_path : bool) : path_details :=
  {| Executable := executable; Version := version; InPath := in_path |}.

Definition no_details : online_details :=
  {| latest_version := JStr "Latest version info not found"; url := "" |}.

(** One resource with two installations under different directories, as
    the standard-directory search of a Windows host records them (no
    [.exe] suffix, so not executable there). *)
Definition two_installs : resource_results :=
  [ ("node", {| online := no_details;
                paths := [ ("C:\a\node", found false None false);
                           ("C:\b\node", found false None false) ] |}) ].

(** One resource whose name is also the name of a directory that holds it:
    the recursive pattern matches both. *)
Definition nested_install : list (string * path_details) :=
  [ ("C:\tools\node", found false None false);
    ("C:\tools\node\node", found false None false) ].

(** Two resources that resolve to the same file. *)
Definition shared_path : resource_results :=
  [ ("git", {| online := no_details;
               paths := [ ("C:\Git\cmd\git.exe", found true (Some "git version 2.44.0") true) ] |});
    ("Git", {| online := no_details;
               paths := [ ("C:\Git\cmd\git.exe", found true (Some "git version 2.44.0") true) ] |}) ].

(** A host whose registry answers with a number in the version field. *)
Definition numeric_registry_host : World :=
  {| SYSTEM_PLATFORM := Posix;
     environ := environ bare_host;
     shell := shell bare_host;
     spawn := spawn bare_host;
     os_access_X_OK := os_access_X_OK bare_host;
     os_path_isfile := os_path_isfile bare_host;
     os_path_dirname := os_path_dirname bare_host;
     glob_recursive := glob_recursive bare_host;
     parse_html := parse_html bare_host;
     http := fun u =>
       if String.eqb u "https://registry.npmjs.org/npm/latest"
       then HttpResponse (json_page (JDict [("version", JInt 10)]))
       else HttpResponse plain_page |}.

(** The runs the examples below look at. *)
Definition results_of (m : M (resource_results * gset string)) : resource_results :=
  match m.2 with
  | Ok (rr, _) => rr
  | Raise _ => []
  end.

Definition covered_of (m : M (resource_results * gset string)) : gset string :=
  match m.2 with
  | Ok (_, covered_dirs) => covered_dirs
  | Raise _ => ∅
  end.

Definition linux_run : M (resource_results * gset string) :=
  get_resources linux_host RESOURCES STANDARD_INSTALL_DIRS true.

Definition bare_run : M (resource_results * gset string) :=
  get_resources bare_host RESOURCES STANDARD_INSTALL_DIRS false.

Definition linux_node : resource_details :=
  {| online := {| latest_version := JStr "v22.1.0 (2024-04-24)";
                  url := "https://nodejs.org/en/" |};
     paths := [ ("/usr/bin/node", found true (Some "v18.16.0") false);
                ("/usr/local/bin/node", found false None true) ] |}.

Definition linux_plain_run : M (resource_results * gset string) :=
  get_resources linux_host RESOURCES STANDARD_INSTALL_DIRS false.

Definition linux_plain_node : resource_details :=
  {| online := {| latest_version := JStr "v22.1.0 (2024-04-24)";
                  url := "https://nodejs.org/en/" |};
     paths := [ ("/usr/bin/node", found true (Some "v18.16.0") true);
                ("/usr/local/bin/node", found false None true) ] |}.

Definition bare_node : resource_details :=
  {| online := {| latest_version := JStr "Error fetching data: Name or service not known";
                  url := "https://nodejs.org/en/" |};
     paths := [] |}.

(* ===================================================================== *)
(** ** Vocabulary of the further properties *)
(* ===================================================================== *)

(** A character at which [str.splitlines] cuts. *)
Definition is_break (c : ascii) : bool :=
  (nat_of_ascii c =? 13)%nat || Py.is_linebreak c.

(** A string without any line boundary. *)
Definition single_line (s : string) : Prop :=
  Forall (fun c => is_break c = false) (list_ascii_of_string s).

(** A string of whitespace only (the empty one included). *)
Definition blank (s : string) : Prop :=
  Forall (fun c => Py.isspace c = true) (list_ascii_of_string s).

(** A string that begins with a character that is no whitespace. *)
Definition starts_solid (s : string) : Prop :=
  match s with
  | EmptyString => False
  | String c _ => Py.isspace c = false
  end.

(** A host on which no child process can be started. *)
Definition no_shell_host : World :=
  {| SYSTEM_PLATFORM := Posix;
     environ := environ bare_host;
     shell := fun _ => Failed (OSError "[Errno 12] Cannot allocate memory");
     spawn := spawn bare_host;
     os_access_X_OK := os_access_X_OK bare_host;
     os_path_isfile := os_path_isfile bare_host;
     os_path_dirname := os_path_dirname bare_host;
     glob_recursive := glob_recursive bare_host;
     parse_html := parse_html bare_host;
     http := http bare_host |}.


(** The requests [get_latest_version] makes after the first one. *)
Definition second_request (w : World) (url : string) : list event :=
  match http w url with
  | HttpResponse r =>
      if status_code r =? 200 then
        if Py.contains "nodejs" url then [HttpGet "https://nodejs.org/dist/index.json"]
        else if Py.contains "python" url then []
        else if Py.contains "npmjs" url then [HttpGet "https://registry.npmjs.org/npm/latest"]
        else []
      else []
  | HttpFailed _ => []
  end.

(** A host that serves a download page with a release number. *)
Definition python_page : string :=
  "<p>Latest: " +:+ release_marker +:+ " Python 3.12.3 " +:+ "</span></p>".

Definition python_host : World :=
  {| SYSTEM_PLATFORM := Posix;
     environ := environ bare_host;
     shell := shell bare_host;
     spawn := spawn bare_host;
     os_access_X_OK := os_access_X_OK bare_host;
     os_path_isfile := os_path_isfile bare_host;
     os_path_dirname := os_path_dirname bare_host;
     glob_recursive := glob_recursive bare_host;
     parse_html := fun markup =>
       if Py.contains "<![" markup
       then Some "The markup you provided was rejected by the parser."
       else None;
     http := fun u =>
       if String.eqb u "https://www.python.org/downloads/"
       then HttpResponse {| status_code := 200; text := python_page;
                            json_body := NotJson "Expecting value: line 1 column 1 (char 0)" |}
       else if String.eqb u "https://www.python.org/psf/"
       then HttpResponse {| status_code := 200;
                            text := python_page +:+ "<![x]>";
                            json_body := NotJson "Expecting value: line 1 column 1 (char 0)" |}
       else if String.eqb u "https://www.python.org/about/"
       then HttpResponse {| status_code := 200; text := "<html><body>About</body></html>";
                            json_body := NotJson "Expecting value: line 1 column 1 (char 0)" |}
       else if String.eqb u "https://nodejs.org/dist/index.json"
       then HttpResponse {| status_code := 404; text := "";
                            json_body := Decoded (JList [JDict [("date", JStr "2024-04-24")]]) |}
       else if String.eqb u "https://nodejs.org/en/"
       then HttpResponse plain_page
       else HttpResponse {| status_code := 503; text := ""; json_body := NotJson "" |} |}.

(** A probe that the table and the searches on host [w] account for. *)
Definition accounted_event (w : World) (table : resource_table) (dirs : list string)
    (b : bool) (ev : event) : Prop :=
  match ev with
  | ProcRun argv =>
      exists r args u p,
        (r, (args, u)) ∈ table
        /\ argv = [p; args]
        /\ is_executable w p = true
        /\ (p ∈ located w r \/ p ∈ extra_found w dirs b r)
  | HttpGet _ | ShellRun _ => True
  end.

(** The number of nodes of a hierarchy (the root is no node). *)
Fixpoint tree_size (t : tree) : nat :=
  match t with
  | Node items =>
      sum_list (map (fun kv => match kv with (_, sub) => S (tree_size sub) end) items)
  end.

(** A hierarchy of leaves only, one per key. *)
Definition leaves (keys : list string) : list (string * tree) :=
  (fun k => (k, Node [])) <$> keys.

(** The keys [generate_report] enters into the hierarchy, in the order in
    which they are first met. *)
Definition hierarchy_paths (ps : list (string * path_details)) : list string :=
  first_seen (filter (fun e => InPath e.2 = false) ps).*1 [].

(** The line [print_hierarchy] gives a leaf at the top of a hierarchy. *)
Definition leaf_line (pc : gmap string Z) (n : nat) (path : string) : string :=
  Py.spaces n +:+ path +:+ " (" +:+ pretty (default 0 (pc !! path)) +:+ ")\".

(* ===================================================================== *)
(** ** resource_checker.py *)
(* ===================================================================== *)

(** The single-file version of the program.  Its helper functions are
    those of [main.py] word for word; its table, [get_resources] and
    [generate_report] differ and are given here. *)
Module ResourceChecker.

Definition RESOURCES : resource_table :=
  [ ("node", ("--version", "https://nodejs.org/en/"));
    ("npm", ("--version", "https://www.npmjs.com/"));
    ("Java", ("-version", "https://www.oracle.com/java/technologies/javase-jdk11-downloads.html"));
    ("Python", ("--version", "https://www.python.org/downloads/"));
    ("Git", ("--version", "https://git-scm.com/"));
    ("Hi", ("--version", "https://git-scm.com/")) ].

(** The body of the loop over [RESOURCES.items()]: [extra_paths] is the
    empty list. *)
Definition get_resources_body (w : World) (item : string * (string * string))
    (acc : resource_results * gset string) : M (resource_results * gset string) :=
  let '(resource, (version_args, url)) := item in
  let '(results, covered_dirs) := acc in
  lv ← get_latest_version w url;
  paths ← find_executable_paths w resource;
  let extra_paths : list string := [] in
  let results :=
    dict_set resource
      {| online := {| latest_version := lv; url := url |}; paths := [] |} results in
  results ← for_each paths (fun path results =>
      '(executable, version) ← get_path_details w path version_args;
      mret (set_path resource path
              {| Executable := executable; Version := version; InPath := true |} results))
    results;
  for_each extra_paths (fun path '(results, covered_dirs) =>
      '(executable, version) ← get_path_details w path version_args;
      mret (set_path resource path
              {| Executable := executable; Version := version; InPath := false |} results,
            set_update covered_dirs (chars (os_path_dirname w path))))
    (results, covered_dirs).

Definition get_resources (w : World) (table : resource_table)
  : M (resource_results * gset string) :=
  for_each table (get_resources_body w) ([], ∅).

(** The four lines every path gets. *)
Definition path_block (entry : string * path_details) : list string :=
  [ Py.tab +:+ "Path: " +:+ entry.1;
    Py.tab +:+ Py.tab +:+ Py.tab +:+ "Executable: " +:+ Py.str_bool (Executable entry.2);
    Py.tab +:+ Py.tab +:+ Py.tab +:+ "Version: " +:+ str_version (Version entry.2);
    Py.tab +:+ Py.tab +:+ Py.tab +:+ "In-Path Variable: " +:+ Py.str_bool (InPath entry.2) ].

Definition resource_section (item : string * resource_details) : list string :=
  let '(resource, details) := item in
  [ header_line resource details;
    Py.tab +:+ "Latest Available Version: " +:+ py_str (latest_version (online details))
      +:+ "  -  " +:+ url (online details) ]
  ++ flat_map path_block (paths details)
  ++ [ "" ].

Definition generate_report (w : World) (results : resource_results) (covered_dirs : gset string)
  : list string :=
  let uncovered_dirs := list_uncovered_path_dirs w covered_dirs in
  flat_map resource_section results
  ++ (if bool_decide (uncovered_dirs = []) then []
      else "Uncovered PATH Directories:" :: map (fun d => "  " +:+ d) uncovered_dirs)
  ++ [ "" ]
  ++ [ "Environment Variables:" ]
  ++ map (fun kv => "  " +:+ kv.1 +:+ ": " +:+ kv.2) (log_environment_variables w).

End ResourceChecker.

(* ===================================================================== *)
(** ** main.py: the entry point and the update prompt *)
(* ===================================================================== *)

(** The report [main] builds and hands to [save_report]: the resources of
    the table, without the standard-directory search. *)
Definition main_report (w : World) : M (list string) :=
  '(results, covered_dirs) ← get_resources w RESOURCES STANDARD_INSTALL_DIRS false;
  mret (generate_report w results covered_dirs).

(** The text [save_report] writes: ["\n".join(report)]. *)
Definition save_report_text (report : list string) : string :=
  Py.join nl report.

(** [c.lower()] on the code points below 256. *)
Definition lower_char (c : ascii) : ascii :=
  let n := nat_of_ascii c in
  if ((65 <=? n) && (n <=? 90) || (192 <=? n) && (n <=? 214)
      || (216 <=? n) && (n <=? 222))%nat
  then ascii_of_nat (n + 32)
  else c.

(** [s.lower()]. *)
Fixpoint py_lower (s : string) : string :=
  match s with
  | EmptyString => ""
  | String c s' => String (lower_char c) (py_lower s')
  end.

(** What [prompt_for_update] does at the terminal. *)
Inductive console_event :=
| Asked (prompt : string)
| Ran (argv : list string)
| Printed (line : string).

(** The command [prompt_for_update] has for a resource name, if any. *)
Definition update_command (resource_name : string) : option (list string) :=
  let name := py_lower resource_name in
  if String.eqb name "node" then Some ["npm"; "install"; "-g"; "npm"]
  else if String.eqb name "python"
       then Some ["python"; "-m"; "pip"; "install"; "--upgrade"; "pip"]
  else if String.eqb name "git" then Some ["git"; "self-update"]
  else if String.eqb name "npm" then Some ["npm"; "install"; "-g"; "npm"]
  else None.

(** [prompt_for_update]: [answer] is the line [input] returns and [run]
    tells how the child started by [subprocess.run(argv, check=True)]
    ends. *)
Definition prompt_for_update (answer : string) (run : list string -> proc_result)
    (resource_name : string) : list console_event * outcome unit :=
  let asked := Asked ("Would you like to update " +:+ resource_name +:+ "? (y/n): ") in
  if String.eqb (py_lower answer) "y" then
    match update_command resource_name with
    | Some argv =>
        match check_output (run argv) with
        | Ok _ =>
            ([asked; Ran argv;
              Printed (resource_name +:+ " has been updated successfully.")], Ok tt)
        | Raise e => ([asked; Ran argv], Raise e)
        end
    | None =>
        ([asked; Printed (resource_name +:+ " has been updated successfully.")], Ok tt)
    end
  else ([asked; Printed (resource_name +:+ " update skipped.")], Ok tt).

(** A terminal session in which every update command fails. *)
Definition failing_run (argv : list string) : proc_result :=
  ExitedNonZero ("Command '" +:+ py_repr (JList (JStr <$> argv))
                 +:+ "' returned non-zero exit status 1.").

(* ===================================================================== *)
(** * Properties *)
(* ===================================================================== *)

(** ** Strings *)

Example split_windows : Py.split Py.backslash "C:\tools\node.exe" = ["C:"; "tools"; "node.exe"].
Proof. reflexivity. Qed.

Example split_posix : Py.split Py.backslash "/usr/bin/node" = ["/usr/bin/node"].
Proof. reflexivity. Qed.

Example split_doubled : Py.split ":" "/bin::/usr/bin:" = ["/bin"; ""; "/usr/bin"; ""].
Proof. reflexivity. Qed.

Example join_three : Py.join "\" ["C:"; "tools"; "node.exe"] = "C:\tools\node.exe".
Proof. reflexivity. Qed.

Example strip_lines :
  Py.splitlines (Py.strip (" /usr/bin/node" +:+ String (Py.chr 10) ("/bin/node" +:+ String (Py.chr 10) "")))
  = ["/usr/bin/node"; "/bin/node"].
Proof. reflexivity. Qed.

Example splitlines_empty : Py.splitlines "" = [].
Proof. reflexivity. Qed.

Example slice_negative : Py.slice "abcdef" 2 (-1) = "cde".
Proof. reflexivity. Qed.

Example find_examples :
  Py.find "cd" "abcdcd" 0 = 2 /\ Py.find "cd" "abcdcd" 3 = 4 /\ Py.find "x" "abc" 0 = -1.
Proof. repeat split; reflexivity. Qed.

Lemma split_nonempty sep s : Py.split sep s <> [].
Proof.
  destruct s as [|c s]; simpl; [done|].
  destruct (Ascii.eqb c sep); [done|].
  by destruct (Py.split sep s).
Qed.

Lemma join_cons sep p q ps :
  Py.join sep (p :: q :: ps) = p +:+ sep +:+ Py.join sep (q :: ps).
Proof. reflexivity. Qed.

Lemma join_split sep s : Py.join (String sep "") (Py.split sep s) = s.
Proof.
  induction s as [|c s IH]; [done|].
  cbn [Py.split]. destruct (Ascii.eqb_spec c sep) as [->|Hne].
  - pose proof (split_nonempty sep s) as Hs.
    destruct (Py.split sep s) as [|q qs] eqn:E; [done|].
    rewrite join_cons, IH. reflexivity.
  - destruct (Py.split sep s) as [|q qs] eqn:E; [by destruct (split_nonempty sep s)|].
    destruct qs as [|q' qs].
    + simpl in *. by rewrite IH.
    + rewrite join_cons in *. simpl. by rewrite <- IH.
Qed.

Lemma split_no_sep sep s : Forall (fun p => Py.has_char sep p = false) (Py.split sep s).
Proof.
  induction s as [|c s IH]; simpl; [by repeat constructor|].
  destruct (Ascii.eqb_spec c sep) as [->|Hne].
  - by constructor.
  - destruct (Py.split sep s) as [|q qs]; [|inversion IH; subst]; constructor; simpl; try done.
    + by rewrite (proj2 (Ascii.eqb_neq c sep) Hne).
    + by rewrite (proj2 (Ascii.eqb_neq c sep) Hne).
Qed.

Lemma split_sep_free sep p : Py.has_char sep p = false -> Py.split sep p = [p].
Proof.
  induction p as [|c p IH]; simpl; [done|].
  intros [Hc Hp]%orb_false_iff. rewrite Hc, (IH Hp). reflexivity.
Qed.

Lemma split_append sep p s :
  Py.has_char sep p = false ->
  Py.split sep (p +:+ String sep s) = p :: Py.split sep s.
Proof.
  induction p as [|c p IH]; simpl.
  - intros _. by rewrite Ascii.eqb_refl.
  - intros [Hc Hp]%orb_false_iff. rewrite Hc, (IH Hp). reflexivity.
Qed.

Lemma split_join sep parts :
  parts <> [] ->
  Forall (fun p => Py.has_char sep p = false) parts ->
  Py.split sep (Py.join (String sep "") parts) = parts.
Proof.
  induction parts as [|p ps IH]; [done|].
  intros _ Hall. inversion Hall as [|? ? Hp Hps]; subst.
  destruct ps as [|q qs].
  - simpl. by apply split_sep_free.
  - rewrite join_cons.
    change (String sep "" +:+ Py.join (String sep "") (q :: qs))
      with (String sep (Py.join (String sep "") (q :: qs))).
    rewrite split_append by done. f_equal. by apply IH.
Qed.

(** ** Running the discovery steps *)

Ltac run_m := unfold mbind, M_bind, mret, M_ret, try_except, emit, lift, raise; simpl.

Lemma bind_ok {A B} (l : list event) (a : A) (f : A -> M B) :
  ((l, Ok a) ≫= f) = (l ++ (f a).1, (f a).2).
Proof. run_m. by destruct (f a). Qed.

Lemma bind_raise {A B} (l : list event) (e : exn) (f : A -> M B) :
  ((l, Raise e) ≫= f) = (l, Raise e).
Proof. reflexivity. Qed.

Lemma get_version_run (w : World) (command version_args : string) :
  get_version w command version_args
  = ([ProcRun [command; version_args]], Ok (version_string w command version_args)).
Proof.
  unfold get_version, version_string, probe. run_m.
  destruct (check_output (spawn w command version_args)) as [out|e]; simpl; [|done].
  by destruct (Py.splitlines (Py.strip out)).
Qed.

Lemma get_path_details_run (w : World) (path version_args : string) :
  get_path_details w path version_args
  = (probe_log w version_args [path],
     Ok (is_executable w path, Version (details_of w version_args true path))).
Proof.
  unfold get_path_details, probe_log. simpl.
  destruct (is_executable w path); [|done].
  rewrite get_version_run. reflexivity.
Qed.

Lemma for_each_total {A S} (body : A -> S -> M S) (lg : A -> list event)
    (step : S -> A -> S) (xs : list A) (s : S) :
  (forall x s, body x s = (lg x, Ok (step s x))) ->
  for_each xs body s = (flat_map lg xs, Ok (foldl step s xs)).
Proof.
  intros Hbody. revert s. induction xs as [|x xs IH]; intros s; [done|].
  cbn [for_each]. rewrite Hbody, bind_ok, IH. reflexivity.
Qed.

Lemma path_loop (w : World) (r args : string) (inp : bool) (ps : list string)
    (rr : resource_results) :
  for_each ps (fun path results =>
      '(executable, version) ← get_path_details w path args;
      mret (set_path r path
              {| Executable := executable; Version := version; InPath := inp |} results))
    rr
  = (probe_log w args ps,
     Ok (foldl (fun rr p => set_path r p (details_of w args inp p) rr) rr ps)).
Proof.
  apply for_each_total. intros p s.
  rewrite get_path_details_run, bind_ok. simpl. by rewrite !app_nil_r.
Qed.

Lemma extra_loop (w : World) (r args : string) (extra : list string)
    (rr : resource_results) (cov : gset string) :
  for_each extra (fun path '(results, covered_dirs) =>
      '(executable, version) ← get_path_details w path args;
      mret (set_path r path
              {| Executable := executable; Version := version; InPath := false |} results,
            set_update covered_dirs (chars (os_path_dirname w path))))
    (rr, cov)
  = (probe_log w args extra,
     Ok (foldl (fun rr p => set_path r p (details_of w args false p) rr) rr extra,
         covered_by w extra cov)).
Proof.
  rewrite (for_each_total _
             (fun p => if is_executable w p then [ProcRun [p; args]] else [])
             (fun s p => (set_path r p (details_of w args false p) s.1,
                          set_update s.2 (chars (os_path_dirname w p))))).
  - f_equal. f_equal. unfold covered_by. revert rr cov.
    induction extra as [|p ps IH]; intros rr cov; [done|]. simpl. by rewrite IH.
  - intros p [s c]. rewrite get_path_details_run, bind_ok. simpl. by rewrite !app_nil_r.
Qed.

(** ** Dictionaries *)

Section DictFacts.
Context {K V : Type} `{EqDecision K}.
Implicit Types (k : K) (v : V) (d : list (K * V)).

Lemma dict_get_set_eq k v d : dict_get k (dict_set k v d) = Some v.
Proof.
  induction d as [|[k' v'] d IH]; simpl.
  - by rewrite decide_True.
  - destruct (decide (k = k')) as [->|Hne]; simpl.
    + by rewrite decide_True.
    + by rewrite decide_False.
Qed.

Lemma dict_get_set_ne k k' v d : k <> k' -> dict_get k' (dict_set k v d) = dict_get k' d.
Proof.
  intros Hne. induction d as [|[k0 v0] d IH]; simpl.
  - by rewrite decide_False.
  - destruct (decide (k = k0)) as [->|Hk]; simpl.
    + by rewrite !decide_False.
    + destruct (decide (k' = k0)); [done|exact IH].
Qed.

Lemma dict_alter_set (f : V -> V) k v d :
  dict_alter f k (dict_set k v d) = dict_set k (f v) d.
Proof.
  induction d as [|[k' v'] d IH]; simpl.
  - by rewrite decide_True.
  - destruct (decide (k = k')) as [->|Hne]; simpl.
    + by rewrite decide_True.
    + by rewrite decide_False, IH.
Qed.

Lemma dict_set_elem k v d (x : K * V) :
  x ∈ dict_set k v d -> x = (k, v) \/ x ∈ d.
Proof.
  induction d as [|[k' v'] d IH]; simpl.
  - intros ->%list_elem_of_singleton. by left.
  - destruct (decide (k = k')) as [->|Hne].
    + intros [->|Hin]%elem_of_cons; [by left|right; by right].
    + intros [->|Hin]%elem_of_cons; [right; by left|].
      destruct (IH Hin); [by left|right; by right].
Qed.

Lemma dict_set_new_elem k v d : (k, v) ∈ dict_set k v d.
Proof.
  induction d as [|[k' v'] d IH]; simpl; [by left|].
  destruct (decide (k = k')); [by left|by right].
Qed.

Lemma dict_get_elem k v d : dict_get k d = Some v -> (k, v) ∈ d.
Proof.
  induction d as [|[k' v'] d IH]; simpl; [done|].
  destruct (decide (k = k')) as [->|Hne].
  - intros [= ->]. by left.
  - intros H. right. by apply IH.
Qed.

Lemma dict_get_None k d : dict_get k d = None <-> k ∉ dict_keys d.
Proof.
  unfold dict_keys. induction d as [|[k' v'] d IH]; simpl.
  - split; [intros _; by apply not_elem_of_nil|done].
  - rewrite not_elem_of_cons. destruct (decide (k = k')) as [->|Hne].
    + split; [done|]. by intros [? _].
    + rewrite IH. tauto.
Qed.

Lemma dict_keys_set_old k v d :
  k ∈ dict_keys d -> dict_keys (dict_set k v d) = dict_keys d.
Proof.
  unfold dict_keys. induction d as [|[k' v'] d IH]; simpl.
  - by intros ?%elem_of_nil.
  - destruct (decide (k = k')) as [->|Hne]; [done|].
    intros [?|Hin]%elem_of_cons; [done|]. csimpl. f_equal. by apply IH.
Qed.

Lemma dict_keys_set_new k v d :
  k ∉ dict_keys d -> dict_keys (dict_set k v d) = dict_keys d ++ [k].
Proof.
  unfold dict_keys. induction d as [|[k' v'] d IH]; simpl; [done|].
  rewrite not_elem_of_cons. intros [Hne Hnin].
  rewrite decide_False by done. csimpl. f_equal. by apply IH.
Qed.

Lemma dict_keys_set k v d :
  dict_keys (dict_set k v d)
  = dict_keys d ++ (if decide (k ∈ dict_keys d) then [] else [k]).
Proof.
  destruct (decide (k ∈ dict_keys d)).
  - by rewrite dict_keys_set_old, app_nil_r.
  - by rewrite dict_keys_set_new.
Qed.

Lemma dict_keys_set_NoDup k v d : NoDup (dict_keys d) -> NoDup (dict_keys (dict_set k v d)).
Proof.
  intros Hnd. rewrite dict_keys_set. destruct (decide _); [by rewrite app_nil_r|].
  apply NoDup_app. split; [done|]. split; [|apply NoDup_singleton].
  intros x Hx ->%list_elem_of_singleton. done.
Qed.

End DictFacts.

(** ** One iteration of [get_resources] *)

Lemma foldl_set_path (r : string) (D : string -> path_details) (ps : list string)
    (e0 : resource_details) (rr : resource_results) :
  foldl (fun rr p => set_path r p (D p) rr) (dict_set r e0 rr) ps
  = dict_set r {| online := online e0;
                  paths := foldl (fun d p => dict_set p (D p) d) (paths e0) ps |} rr.
Proof.
  revert e0. induction ps as [|p ps IH]; intros e0; simpl.
  - by destruct e0.
  - unfold set_path at 2. rewrite dict_alter_set. by rewrite IH.
Qed.

Lemma get_resources_body_run (w : World) (dirs : list string) (b : bool)
    (r args u : string) (rr : resource_results) (cov : gset string) :
  get_resources_body w dirs b (r, (args, u)) (rr, cov)
  = match get_latest_version w u with
    | (l1, Raise e) => (l1, Raise e)
    | (l1, Ok lv) =>
        match find_executable_paths w r with
        | (l2, Raise e) => (l1 ++ l2, Raise e)
        | (l2, Ok ps) =>
            (l1 ++ l2 ++ probe_log w args ps
                ++ probe_log w args (extra_found w dirs b r),
             Ok (dict_set r (entry_of w args u lv ps (extra_found w dirs b r)) rr,
                 covered_by w (extra_found w dirs b r) cov))
        end
    end.
Proof.
  unfold get_resources_body.
  destruct (get_latest_version w u) as [l1 [lv|e]]; [|done].
  rewrite bind_ok.
  destruct (find_executable_paths w r) as [l2 [ps|e]]; [|done].
  rewrite bind_ok. cbn [fst snd].
  rewrite path_loop, bind_ok. cbn [fst snd].
  fold (extra_found w dirs b r).
  rewrite extra_loop. cbn [fst snd].
  rewrite !foldl_set_path. reflexivity.
Qed.

(** ** The whole of [get_resources] *)

Lemma for_each_cons {A S} (x : A) (xs : list A) (body : A -> S -> M S) (s : S) :
  for_each (x :: xs) body s = (body x s ≫= for_each xs body).
Proof. reflexivity. Qed.

Lemma run_command_log (w : World) (cmd : string) :
  log_of (run_command w cmd) = [ShellRun cmd].
Proof.
  unfold run_command, log_of. run_m.
  destruct (check_output (shell w cmd)) as [out|e]; simpl; [done|].
  by destruct (is_CalledProcessError e).
Qed.

Lemma requests_get_log (w : World) (u : string) :
  log_of (requests_get w u) = [HttpGet u].
Proof. unfold requests_get, log_of. run_m. by destruct (http w u). Qed.

Lemma get_latest_version_log (w : World) (u : string) :
  Forall is_HttpGet (log_of (get_latest_version w u)).
Proof.
  unfold get_latest_version, requests_get, response_json, log_of. run_m.
  destruct (http w u) as [r|msg]; simpl; [|by repeat constructor].
  destruct (status_code r =? 200); simpl; [|by repeat constructor].
  destruct (Py.contains "nodejs" u); simpl.
  { destruct (http w _) as [r'|msg']; simpl; [|by repeat constructor].
    destruct (json_body r') as [j|]; simpl; [|by repeat constructor].
    destruct (subscript0 j) as [d|e]; simpl.
    - destruct (py_get d "version" _) as [v|e]; simpl.
      + destruct (py_get d "date" _) as [v'|e]; simpl; [by repeat constructor|].
        destruct (is_RequestException e); by repeat constructor.
      + destruct (is_RequestException e); by repeat constructor.
    - destruct (is_RequestException e); by repeat constructor. }
  destruct (Py.contains "python" u); simpl.
  { unfold BeautifulSoup. destruct (parse_html w (text r)); by repeat constructor. }
  destruct (Py.contains "npmjs" u); simpl; [|by repeat constructor].
  destruct (http w _) as [r'|msg']; simpl; [|by repeat constructor].
  destruct (json_body r') as [j|]; simpl; [|by repeat constructor].
  destruct (py_get j "version" _) as [v|e]; simpl; [by repeat constructor|].
  destruct (is_RequestException e); by repeat constructor.
Qed.

Lemma probe_log_allowed (w : World) (args : string) (ps : list string) :
  Forall (allowed_event w) (probe_log w args ps).
Proof.
  unfold probe_log. induction ps as [|p ps IH]; simpl; [constructor|].
  apply Forall_app. split; [|done].
  destruct (is_executable w p) eqn:E; by repeat constructor.
Qed.

Lemma get_resources_body_log (w : World) (dirs : list string) (b : bool)
    (item : string * (string * string)) (acc : resource_results * gset string) :
  Forall (allowed_event w) (log_of (get_resources_body w dirs b item acc)).
Proof.
  destruct item as [r [args u]], acc as [rr cov]. rewrite get_resources_body_run.
  pose proof (get_latest_version_log w u) as H1.
  pose proof (run_command_log w
                (match SYSTEM_PLATFORM w with
                 | Windows => "where " +:+ r
                 | Posix => "which -a " +:+ r
                 end)) as H2.
  fold (find_executable_paths w r) in H2. unfold log_of in *.
  assert (Forall (allowed_event w) (get_latest_version w u).1) as H1'.
  { eapply Forall_impl; [exact H1|]. by intros [| |]. }
  destruct (get_latest_version w u) as [l1 [lv|e]]; [|done].
  destruct (find_executable_paths w r) as [l2 [ps|e]]; simpl in *; subst l2.
  - rewrite !Forall_app. repeat split; try done; try apply probe_log_allowed.
    by repeat constructor.
  - rewrite !Forall_app. split; [done|]. by repeat constructor.
Qed.

Lemma for_each_log {A S} (P : event -> Prop) (body : A -> S -> M S) (xs : list A) (s : S) :
  (forall x s, Forall P (log_of (body x s))) ->
  Forall P (log_of (for_each xs body s)).
Proof.
  intros Hbody. revert s. induction xs as [|x xs IH]; intros s; [constructor|].
  rewrite for_each_cons. specialize (Hbody x s). unfold log_of in *.
  destruct (body x s) as [l [s'|e]]; [|done].
  rewrite bind_ok. simpl. apply Forall_app. split; [done|apply IH].
Qed.

Lemma for_each_inv {A S} (I : S -> Prop) (body : A -> S -> M S) (xs : list A) :
  (forall x s l s', x ∈ xs -> I s -> body x s = (l, Ok s') -> I s') ->
  forall s l s', I s -> for_each xs body s = (l, Ok s') -> I s'.
Proof.
  induction xs as [|x xs IH]; intros Hbody s l s' Hs.
  - by intros [= _ <-].
  - rewrite for_each_cons.
    destruct (body x s) as [l1 [s1|e]] eqn:E; [|done].
    rewrite bind_ok. simpl. destruct (for_each xs body s1) as [l2 r2] eqn:E2.
    simpl. intros [= _ ->].
    eapply IH; [| |exact E2].
    + intros. eapply Hbody; [by right| |]; done.
    + eapply Hbody; [by left| |]; done.
Qed.

Lemma get_resources_entries (w : World) (table : resource_table) (dirs : list string)
    (b : bool) (l : list event) (rr : resource_results) (cov : gset string) :
  get_resources w table dirs b = (l, Ok (rr, cov)) ->
  forall r det, (r, det) ∈ rr -> made_for w table dirs b r det.
Proof.
  unfold get_resources.
  apply (for_each_inv
           (fun s : resource_results * gset string =>
              forall r det, (r, det) ∈ s.1 -> made_for w table dirs b r det)).
  - intros [r [args u]] [rr0 cov0] l1 [rr1 cov1] Hin Hinv. rewrite get_resources_body_run.
    destruct (get_latest_version w u) as [la [lv|e]] eqn:Ela; [|done].
    destruct (find_executable_paths w r) as [lb [ps|e]] eqn:Elb; [|done].
    intros [= _ <- _]. simpl. intros r' det' [[= -> ->]|Hold]%dict_set_elem.
    + exists args, u, lv, la, lb. unfold located, result_of. rewrite Elb. simpl. done.
    + by apply Hinv.
  - simpl. by intros r det ?%elem_of_nil.
Qed.

Lemma get_resources_log (w : World) (table : resource_table) (dirs : list string) (b : bool) :
  Forall (allowed_event w) (log_of (get_resources w table dirs b)).
Proof. apply for_each_log. intros. apply get_resources_body_log. Qed.

(** ** The ['paths'] mapping of one resource *)

Lemma fold_paths_snoc (w : World) (args : string) (inp : bool) (ps : list string) (p : string)
    (d : list (string * path_details)) :
  fold_paths w args inp (ps ++ [p]) d
  = dict_set p (details_of w args inp p) (fold_paths w args inp ps d).
Proof. unfold fold_paths. by rewrite foldl_app. Qed.

Lemma first_seen_snoc (ps : list string) (p : string) (ks : list string) :
  first_seen (ps ++ [p]) ks
  = first_seen ps ks ++ (if decide (p ∈ first_seen ps ks) then [] else [p]).
Proof.
  unfold first_seen. rewrite foldl_app. simpl.
  destruct (decide _); [by rewrite app_nil_r|done].
Qed.

Lemma fold_paths_keys (w : World) (args : string) (inp : bool) (ps : list string)
    (d : list (string * path_details)) :
  dict_keys (fold_paths w args inp ps d) = first_seen ps (dict_keys d).
Proof.
  induction ps as [|p ps IH] using rev_ind; [done|].
  by rewrite fold_paths_snoc, first_seen_snoc, dict_keys_set, IH.
Qed.

Lemma first_seen_prefix (ps ks : list string) : ks `prefix_of` first_seen ps ks.
Proof.
  induction ps as [|p ps IH] using rev_ind; [done|].
  rewrite first_seen_snoc. etrans; [exact IH|]. by apply prefix_app_r.
Qed.

Lemma first_seen_elem (ps ks : list string) (p : string) :
  p ∈ first_seen ps ks <-> p ∈ ks \/ p ∈ ps.
Proof.
  revert p. induction ps as [|q ps IH] using rev_ind; intros p.
  - simpl. rewrite elem_of_nil. tauto.
  - rewrite first_seen_snoc, !elem_of_app, IH, list_elem_of_singleton.
    destruct (decide _) as [Hq|Hq].
    + rewrite elem_of_nil. apply IH in Hq. split; [tauto|].
      intros [?|[?|Heq]]; [tauto..|]. subst p. tauto.
    + rewrite list_elem_of_singleton. tauto.
Qed.

Lemma first_seen_NoDup (ps ks : list string) : NoDup ks -> NoDup (first_seen ps ks).
Proof.
  intros Hks. induction ps as [|q ps IH] using rev_ind; [done|].
  rewrite first_seen_snoc. destruct (decide _) as [Hq|Hq]; [by rewrite app_nil_r|].
  apply NoDup_app. split; [done|]. split; [|apply NoDup_singleton].
  by intros x Hx ->%list_elem_of_singleton.
Qed.

Lemma fold_paths_get_in (w : World) (args : string) (inp : bool) (ps : list string)
    (d : list (string * path_details)) (p : string) :
  p ∈ ps -> dict_get p (fold_paths w args inp ps d) = Some (details_of w args inp p).
Proof.
  induction ps as [|q ps IH] using rev_ind; [by intros ?%elem_of_nil|].
  rewrite fold_paths_snoc. destruct (decide (q = p)) as [->|Hne].
  - intros _. apply dict_get_set_eq.
  - rewrite dict_get_set_ne by done.
    intros [?|?%list_elem_of_singleton]%elem_of_app; [by apply IH|congruence].
Qed.

Lemma fold_paths_get_notin (w : World) (args : string) (inp : bool) (ps : list string)
    (d : list (string * path_details)) (p : string) :
  p ∉ ps -> dict_get p (fold_paths w args inp ps d) = dict_get p d.
Proof.
  induction ps as [|q ps IH] using rev_ind; [done|].
  rewrite fold_paths_snoc, not_elem_of_app, list_elem_of_singleton. intros [Hps Hq].
  rewrite dict_get_set_ne by congruence. by apply IH.
Qed.

Lemma fold_paths_elem (w : World) (args : string) (inp : bool) (ps : list string)
    (d : list (string * path_details)) (p : string) (x : path_details) :
  (p, x) ∈ fold_paths w args inp ps d ->
  (p, x) ∈ d \/ (p ∈ ps /\ x = details_of w args inp p).
Proof.
  induction ps as [|q ps IH] using rev_ind; [by left|].
  rewrite fold_paths_snoc. intros [[= -> ->]|Hin]%dict_set_elem.
  - right. split; [|done]. apply elem_of_app. right. by left.
  - destruct (IH Hin) as [?|[? ?]]; [by left|right]. split; [|done].
    apply elem_of_app. by left.
Qed.

Lemma NoDup_keys_get {V} (d : list (string * V)) (k : string) (v : V) :
  NoDup (dict_keys d) -> (k, v) ∈ d -> dict_get k d = Some v.
Proof.
  unfold dict_keys. induction d as [|[k' v'] d IH]; [by intros _ ?%elem_of_nil|].
  csimpl. intros [Hk' Hnd]%NoDup_cons [[= -> ->]|Hin]%elem_of_cons.
  - by rewrite decide_True.
  - rewrite decide_False; [by apply IH|].
    intros ->. apply Hk'. apply list_elem_of_fmap. by exists (k', v).
Qed.

Lemma entry_of_keys (w : World) (args u : string) (lv : json) (ps extra : list string) :
  dict_keys (paths (entry_of w args u lv ps extra)) = first_seen extra (first_seen ps []).
Proof. unfold entry_of. simpl. by rewrite !fold_paths_keys. Qed.

Lemma entry_of_NoDup (w : World) (args u : string) (lv : json) (ps extra : list string) :
  NoDup (dict_keys (paths (entry_of w args u lv ps extra))).
Proof. rewrite entry_of_keys. apply first_seen_NoDup, first_seen_NoDup, NoDup_nil_2. Qed.

Lemma entry_of_elem (w : World) (args u : string) (lv : json) (ps extra : list string)
    (p : string) (x : path_details) :
  (p, x) ∈ paths (entry_of w args u lv ps extra) ->
  exists inp, x = details_of w args inp p.
Proof.
  unfold entry_of. simpl. intros [Hin|[_ ->]]%fold_paths_elem; [|by exists false].
  apply fold_paths_elem in Hin as [?%elem_of_nil|[_ ->]]; [done|by exists true].
Qed.

Lemma entry_of_empty (w : World) (args u : string) (lv : json) (ps extra : list string) :
  paths (entry_of w args u lv ps extra) = [] <-> ps = [] /\ extra = [].
Proof.
  split.
  - intros Hnil.
    assert (forall p, p ∉ first_seen extra (first_seen ps [])) as Hno.
    { intros p. rewrite <- (entry_of_keys w args u lv). rewrite Hnil. apply not_elem_of_nil. }
    split.
    + destruct ps as [|p ps]; [done|]. exfalso. apply (Hno p).
      rewrite !first_seen_elem. left. right. by left.
    + destruct extra as [|p extra]; [done|]. exfalso. apply (Hno p).
      rewrite !first_seen_elem. right. by left.
  - by intros [-> ->].
Qed.

(** ** The hierarchy *)

Lemma dict_get_setdefault_eq (k : string) (f : tree -> tree) (items : list (string * tree)) :
  dict_get k (setdefault_then k f items) = Some (f (default (Node []) (dict_get k items))).
Proof.
  induction items as [|[k' sub] items IH]; simpl.
  - by rewrite decide_True.
  - destruct (decide (k = k')) as [->|Hne]; simpl.
    + by rewrite decide_True.
    + by rewrite decide_False.
Qed.

Lemma dict_get_setdefault_ne (k k' : string) (f : tree -> tree) (items : list (string * tree)) :
  k <> k' -> dict_get k' (setdefault_then k f items) = dict_get k' items.
Proof.
  intros Hne. induction items as [|[k0 sub] items IH]; simpl.
  - by rewrite decide_False.
  - destruct (decide (k = k0)) as [->|Hk]; simpl.
    + by rewrite !decide_False.
    + destruct (decide (k' = k0)); [done|exact IH].
Qed.

Lemma setdefault_nonempty (k : string) (f : tree -> tree) (items : list (string * tree)) :
  setdefault_then k f items <> [].
Proof. destruct items as [|[k' sub] items]; simpl; [done|]. by destruct (decide _). Qed.

Lemma walk_empty_tree (c : list string) (t : tree) :
  walk c (Node []) = Some t -> c = [] /\ t = Node [].
Proof. destruct c; simpl; [by intros [= <-]|done]. Qed.

Lemma walk_insert_parts (parts c : list string) (t : tree) :
  is_Some (walk c (insert_parts parts t)) <-> is_Some (walk c t) \/ c `prefix_of` parts.
Proof.
  revert c t. induction parts as [|p ps IH]; intros c t.
  - simpl. split; [by left|]. intros [?| ->%prefix_nil_inv]; [done|]. by eexists.
  - destruct c as [|k c'].
    + simpl. split; [by left|]. intros _. by eexists.
    + cbn [insert_parts walk items_of]. destruct (decide (p = k)) as [->|Hne].
      * rewrite dict_get_setdefault_eq, IH.
        destruct (dict_get k (items_of t)) as [sub|]; simpl.
        -- split; (intros [?|Hpre]; [by left|right]).
           ++ by apply prefix_cons.
           ++ by apply prefix_cons_inv_2 in Hpre.
        -- split.
           ++ intros [[sub [-> _]%walk_empty_tree]|Hpre]; right.
              ** apply prefix_cons, prefix_nil.
              ** by apply prefix_cons.
           ++ intros [[? ?]|Hpre]; [done|]. right. by apply prefix_cons_inv_2 in Hpre.
      * rewrite dict_get_setdefault_ne by done. split; [by left|].
        intros [?|Hpre]; [done|]. by apply prefix_cons_inv_1 in Hpre.
Qed.

Lemma insert_parts_leaf (parts : list string) (t : tree) :
  insert_parts parts t = Node [] -> parts = [].
Proof.
  destruct parts as [|p ps]; [done|]. simpl. intros [= H].
  by apply setdefault_nonempty in H.
Qed.

Lemma walk_insert_parts_leaf (parts c : list string) (t : tree) :
  walk c (insert_parts parts t) = Some (Node []) ->
  c = parts \/ walk c t = Some (Node []).
Proof.
  revert c t. induction parts as [|p ps IH]; intros c t.
  - simpl. by right.
  - destruct c as [|k c'].
    + simpl. intros [= H]. by apply setdefault_nonempty in H.
    + cbn [insert_parts walk items_of]. destruct (decide (p = k)) as [->|Hne].
      * rewrite dict_get_setdefault_eq.
        destruct (dict_get k (items_of t)) as [sub|]; simpl.
        -- intros [->|?]%IH; [by left|by right].
        -- intros Hw. destruct (IH _ _ Hw) as [->|[-> _]%walk_empty_tree]; [by left|].
           simpl in Hw. injection Hw as Hw. apply insert_parts_leaf in Hw. subst. by left.
      * rewrite dict_get_setdefault_ne by done. by right.
Qed.

Lemma build_hierarchy_snoc (ps : list (string * path_details)) (x : string * path_details) :
  build_hierarchy (ps ++ [x])
  = if bool_decide (InPath x.2 = false)
    then insert_parts (segments x.1) (build_hierarchy ps)
    else build_hierarchy ps.
Proof. unfold build_hierarchy. by rewrite foldl_app. Qed.

Lemma build_hierarchy_walk (ps : list (string * path_details)) (c : list string) :
  is_Some (walk c (build_hierarchy ps))
  <-> c = [] \/ exists p d, (p, d) ∈ ps /\ InPath d = false /\ c `prefix_of` segments p.
Proof.
  induction ps as [|[p d] ps IH] using rev_ind.
  - split.
    + intros [t [-> _]%walk_empty_tree]. by left.
    + intros [->|(p & d & []%elem_of_nil & _)]. by eexists.
  - rewrite build_hierarchy_snoc. simpl. case_bool_decide as Hd.
    + rewrite walk_insert_parts, IH. split.
      * intros [[?|(p' & d' & Hin & ? & ?)]|Hpre]; [by left|right..].
        -- exists p', d'. split; [|done]. apply elem_of_app. by left.
        -- exists p, d. split; [|done]. apply elem_of_app. right. by left.
      * intros [?|(p' & d' & [Hin|[= -> ->]%list_elem_of_singleton]%elem_of_app & ? & ?)].
        -- left. by left.
        -- left. right. by exists p', d'.
        -- by right.
    + rewrite IH. split.
      * intros [?|(p' & d' & Hin & ? & ?)]; [by left|right].
        exists p', d'. split; [|done]. apply elem_of_app. by left.
      * intros [?|(p' & d' & [Hin|[= -> ->]%list_elem_of_singleton]%elem_of_app & ? & ?)];
          [by left| |done].
        right. by exists p', d'.
Qed.

Lemma build_hierarchy_leaf (ps : list (string * path_details)) (c : list string) :
  c <> [] ->
  walk c (build_hierarchy ps) = Some (Node []) ->
  exists p d, (p, d) ∈ ps /\ InPath d = false /\ c = segments p.
Proof.
  intros Hc. induction ps as [|[p d] ps IH] using rev_ind.
  - by intros [? _]%walk_empty_tree.
  - rewrite build_hierarchy_snoc. simpl. case_bool_decide as Hd.
    + intros [->|Hw]%walk_insert_parts_leaf.
      * exists p, d. split; [|done]. apply elem_of_app. right. by left.
      * destruct (IH Hw) as (p' & d' & Hin & ? & ?). exists p', d'.
        split; [|done]. apply elem_of_app. by left.
    + intros Hw. destruct (IH Hw) as (p' & d' & Hin & ? & ?). exists p', d'.
      split; [|done]. apply elem_of_app. by left.
Qed.

Lemma leaf_chain_walk (c : list string) (t : tree) :
  leaf_chain c t = true <-> c <> [] /\ walk c t = Some (Node []).
Proof.
  unfold leaf_chain. destruct c as [|k c']; [by split; [|intros [? _]]|].
  destruct (walk (k :: c') t) as [[[|x items]]|]; simpl; split; try done.
  - by intros [_ [=]].
  - by intros [_ [=]].
Qed.

Lemma has_chain_walk (c : list string) (t : tree) :
  has_chain c t = true <-> is_Some (walk c t).
Proof. unfold has_chain. apply bool_decide_eq_true. Qed.

(** ** Path counts *)

Lemma count_path_bump (path : string) (pc : gmap string Z) :
  count_path path pc = foldl bump pc (prefix_keys path).
Proof.
  unfold count_path, prefix_keys, segments.
  generalize (range1 (length (Py.split Py.backslash path))). intros l. revert pc.
  induction l as [|i l IH]; intros pc; [done|]. simpl. by rewrite IH.
Qed.

Lemma bump_all (keys : list string) (pc : gmap string Z) (s : string) :
  NoDup keys ->
  foldl bump pc keys !! s
  = if decide (s ∈ keys) then Some (default 0 (pc !! s) + 1) else pc !! s.
Proof.
  revert pc. induction keys as [|k keys IH]; intros pc Hnd.
  - cbn [foldl]. case_decide as H; [by apply elem_of_nil in H|done].
  - apply NoDup_cons in Hnd as [Hk Hnd]. cbn [foldl]. rewrite IH by done.
    unfold bump. destruct (decide (s = k)) as [->|Hne].
    + rewrite lookup_insert_eq. repeat case_decide; try done.
      exfalso. auto using list_elem_of_here.
    + rewrite lookup_insert_ne by done.
      repeat case_decide; try done.
      * exfalso. auto using list_elem_of_further.
      * exfalso. by apply elem_of_cons in H0 as [?|?].
Qed.

Lemma segments_nonempty (s : string) : segments s <> [].
Proof. apply split_nonempty. Qed.

Lemma join_segments (s : string) : Py.join "\" (segments s) = s.
Proof. apply (join_split Py.backslash). Qed.

Lemma segments_join_take (path : string) (i : nat) :
  (1 <= i)%nat ->
  segments (Py.join "\" (take i (segments path))) = take i (segments path).
Proof.
  intros Hi. apply (split_join Py.backslash).
  - pose proof (segments_nonempty path). destruct (segments path); [done|].
    destruct i; [lia|done].
  - apply Forall_take, split_no_sep.
Qed.

Lemma prefix_keys_elem (path s : string) :
  s ∈ prefix_keys path <-> segments s `prefix_of` segments path.
Proof.
  unfold prefix_keys, range1. rewrite list_elem_of_fmap. split.
  - intros (i & -> & Hi%elem_of_seq). rewrite segments_join_take by lia.
    apply prefix_take.
  - intros [k Hk]. exists (length (segments s)). split.
    + rewrite Hk, take_app_length. symmetry. apply join_segments.
    + apply elem_of_seq. pose proof (segments_nonempty s).
      rewrite Hk, length_app. destruct (segments s); [done|]. simpl. lia.
Qed.

Lemma prefix_keys_NoDup (path : string) : NoDup (prefix_keys path).
Proof.
  unfold prefix_keys, range1. apply NoDup_fmap_2_strong; [|apply NoDup_seq].
  intros i j Hi%elem_of_seq Hj%elem_of_seq Heq.
  apply (f_equal segments) in Heq. rewrite !segments_join_take in Heq by lia.
  apply (f_equal length) in Heq. rewrite !length_take in Heq. lia.
Qed.

Lemma count_path_lookup (path : string) (pc : gmap string Z) (s : string) :
  count_path path pc !! s
  = if decide (segments s `prefix_of` segments path)
    then Some (default 0 (pc !! s) + 1) else pc !! s.
Proof.
  rewrite count_path_bump, bump_all by apply prefix_keys_NoDup.
  destruct (decide (s ∈ prefix_keys path)) as [Hin|Hin]; rewrite prefix_keys_elem in Hin.
  - by rewrite decide_True.
  - by rewrite decide_False.
Qed.

Lemma build_path_counts_flat (rr : resource_results) :
  build_path_counts rr = foldl (fun pc path => count_path path pc) ∅ (discovered rr).
Proof.
  unfold build_path_counts, discovered. generalize (∅ : gmap string Z).
  induction rr as [|[r det] rr IH]; intros pc; [done|].
  simpl. by rewrite foldl_app, IH.
Qed.

Lemma counts_of_list (l : list string) (s : string) :
  foldl (fun pc path => count_path path pc) ∅ l !! s
  = let n := length (filter (fun p => segments s `prefix_of` segments p) l) in
    if decide (n = 0%nat) then None else Some (Z.of_nat n).
Proof.
  induction l as [|p l IH] using rev_ind; [done|].
  rewrite foldl_app. simpl. rewrite count_path_lookup, IH, filter_app, length_app.
  rewrite filter_cons, filter_nil. simpl.
  destruct (decide (segments s `prefix_of` segments p)); simpl.
  - destruct (decide (length _ = 0%nat)) as [->|Hn]; simpl.
    + done.
    + rewrite decide_False by lia. f_equal. lia.
  - by rewrite Nat.add_0_r.
Qed.




(** C2 (as amended): for a resource whose [InPath = False] paths are
    cut by the platform's path-segment rules exactly where the code cuts
    them (at their backslashes), the tree [generate_report] builds has
    these chains: a non-empty chain runs from the root to a node iff it is
    a prefix of the platform's segments of some path recorded with
    [InPath = False]; so the whole chain of every such path is in the
    tree, and every root-to-leaf chain spells one such path. *)
Theorem hierarchy_chains_on_platform_paths (pl : platform)
    (ps : list (string * path_details)) :
  (forall p d, (p, d) ∈ ps -> InPath d = false -> segments p = platform_segments pl p) ->
  (forall c, c <> [] ->
     (has_chain c (build_hierarchy ps) = true
      <-> exists p d, (p, d) ∈ ps /\ InPath d = false
                      /\ c `prefix_of` platform_segments pl p))
  /\ (forall p d, (p, d) ∈ ps -> InPath d = false ->
        has_chain (platform_segments pl p) (build_hierarchy ps) = true)
  /\ (forall c, leaf_chain c (build_hierarchy ps) = true ->
        exists p d, (p, d) ∈ ps /\ InPath d = false /\ c = platform_segments pl p).
Proof.
  intros Hcut. split; [|split].
  - intros c Hc. rewrite has_chain_walk, build_hierarchy_walk. split.
    + intros [?|(p & d & Hin & Hd & Hpre)]; [done|].
      exists p, d. by rewrite <- (Hcut p d).
    + intros (p & d & Hin & Hd & Hpre). right. exists p, d. by rewrite (Hcut p d).
  - intros p d Hin Hd. rewrite has_chain_walk, build_hierarchy_walk. right.
    exists p, d. by rewrite (Hcut p d).
  - intros c [Hc Hw]%leaf_chain_walk.
    destruct (build_hierarchy_leaf ps c Hc Hw) as (p & d & Hin & Hd & ->).
    exists p, d. by rewrite <- (Hcut p d).
Qed.

Lemma hierarchy_chains_on_platform_paths_witness :
  (forall p d, (p, d) ∈ nested_install -> InPath d = false ->
     segments p = platform_segments Windows p)
  /\ platform_segments Windows "C:\tools\node\node" = ["C:"; "tools"; "node"; "node"]
  /\ has_chain (platform_segments Windows "C:\tools\node\node")
       (build_hierarchy nested_install) = true
  /\ has_chain (platform_segments Windows "C:\tools\node")
       (build_hierarchy nested_install) = true.
Proof.
  assert (forall p d, (p, d) ∈ nested_install -> InPath d = false ->
            segments p = platform_segments Windows p) as Hcut.
  { intros p d Hin _. unfold nested_install in Hin.
    apply elem_of_cons in Hin as [[= -> ->]|Hin]; [reflexivity|].
    apply elem_of_cons in Hin as [[= -> ->]|Hin]; [reflexivity|].
    by apply elem_of_nil in Hin. }
  destruct (hierarchy_chains_on_platform_paths Windows nested_install Hcut) as (_ & H2 & _).
  split; [exact Hcut|]. split; [reflexivity|]. split.
  - apply (H2 _ (found false None false)); [|reflexivity].
    apply list_elem_of_further, list_elem_of_here.
  - apply (H2 _ (found false None false)); [|reflexivity]. apply list_elem_of_here.
Defined.

(** C2, as first stated, fails: a path recorded with [InPath = False]
    that is a segment prefix of another one ends at an inner node, so the
    tree has no root-to-leaf chain that spells it. *)
Lemma discovered_path_not_a_leaf :
  dict_get "C:\tools\node" nested_install = Some (found false None false)
  /\ segments "C:\tools\node" = ["C:"; "tools"; "node"]
  /\ platform_segments Windows "C:\tools\node" = ["C:"; "tools"; "node"]
  /\ has_chain ["C:"; "tools"; "node"] (build_hierarchy nested_install) = true
  /\ leaf_chain ["C:"; "tools"; "node"] (build_hierarchy nested_install) = false
  /\ ~ (leaf_chain (segments "C:\tools\node") (build_hierarchy nested_install) = true
        <-> exists d, ("C:\tools\node", d) ∈ nested_install /\ InPath d = false).
Proof.
  split; [|split; [|split; [|split; [|split]]]]; [vm_compute; reflexivity..|].
  intros [_ Hback].
  assert (leaf_chain (segments "C:\tools\node") (build_hierarchy nested_install) = true) as H.
  { apply Hback. eexists. split; [apply list_elem_of_here|done]. }
  vm_compute in H. discriminate.
Qed.

(** A path written with [/] is one segment for the code: its tree is a
    single node named by the whole path. *)
Example posix_path_is_one_segment :
  build_hierarchy [("/opt/foo/bin/node", found true None false)]
    = Node [("/opt/foo/bin/node", Node [])]
  /\ platform_segments Posix "/opt/foo/bin/node" = ["opt"; "foo"; "bin"; "node"]
  /\ segments "/opt/foo/bin/node" = ["/opt/foo/bin/node"]
  /\ has_chain ["opt"; "foo"; "bin"; "node"]
       (build_hierarchy [("/opt/foo/bin/node", found true None false)]) = false.
Proof. repeat split; vm_compute; reflexivity. Qed.

(** ** Printing the hierarchy *)

Lemma insert_sorted_map {A B} (g : string -> A -> B) (x : string * A) (l : list (string * A)) :
  insert_sorted (x.1, g x.1 x.2) (map (fun e => (e.1, g e.1 e.2)) l)
  = map (fun e => (e.1, g e.1 e.2)) (insert_sorted x l).
Proof.
  induction l as [|y l IH]; [done|].
  simpl. destruct (String.leb x.1 y.1); [done|]. simpl. by rewrite IH.
Qed.

Lemma sorted_items_map {A B} (g : string -> A -> B) (l : list (string * A)) :
  sorted_items (map (fun e => (e.1, g e.1 e.2)) l)
  = map (fun e => (e.1, g e.1 e.2)) (sorted_items l).
Proof.
  induction l as [|x l IH]; [done|].
  simpl. by rewrite IH, insert_sorted_map.
Qed.

(** The loop of [print_hierarchy] as the source writes it: for each
    entry, in sorted key order, its own line and then its subtree two
    columns further in. *)
Lemma print_hierarchy_unfold (items : list (string * tree)) (pc : gmap string Z) (n : nat) :
  print_hierarchy (Node items) pc n
  = flat_map (fun e => hierarchy_line pc n e.1 e.2 :: print_hierarchy e.2 pc (n + 2)%nat)
             (sorted_items items).
Proof.
  cbn [print_hierarchy].
  rewrite (map_ext _ (fun e => (e.1, hierarchy_line pc n e.1 e.2
                                       :: print_hierarchy e.2 pc (n + 2)%nat)))
    by (by intros [k sub]).
  rewrite (sorted_items_map
             (fun k sub => hierarchy_line pc n k sub :: print_hierarchy sub pc (n + 2)%nat)).
  generalize (sorted_items items). intros l.
  induction l as [|[k sub] l IH]; [done|]. csimpl in *. by rewrite IH.
Qed.

Lemma insert_sorted_Permutation {A} (x : string * A) (l : list (string * A)) :
  insert_sorted x l ≡ₚ x :: l.
Proof.
  induction l as [|y l IH]; [done|].
  simpl. destruct (String.leb x.1 y.1); [done|].
  rewrite IH. apply Permutation_swap.
Qed.

Lemma sorted_items_Permutation {A} (l : list (string * A)) : sorted_items l ≡ₚ l.
Proof.
  induction l as [|x l IH]; [done|].
  simpl. by rewrite insert_sorted_Permutation, IH.
Qed.

Lemma insert_sorted_Sorted {A} (x : string * A) (l : list (string * A)) :
  Sorted key_le l -> Sorted key_le (insert_sorted x l).
Proof.
  induction l as [|y l IH]; intros Hl.
  - by repeat constructor.
  - simpl. destruct (String.leb x.1 y.1) eqn:E.
    + constructor; [done|]. by constructor.
    + apply Sorted_inv in Hl as [Hl Hy]. constructor; [by apply IH|].
      destruct l as [|z l]; simpl.
      * constructor. unfold key_le. destruct (String.leb_total x.1 y.1); congruence.
      * destruct (String.leb x.1 z.1).
        -- constructor. unfold key_le. destruct (String.leb_total x.1 y.1); congruence.
        -- constructor. by apply HdRel_inv in Hy.
Qed.

Lemma sorted_items_Sorted {A} (l : list (string * A)) : Sorted key_le (sorted_items l).
Proof.
  induction l as [|x l IH]; [constructor|]. simpl. by apply insert_sorted_Sorted.
Qed.

(** C4 (the code departs from it): for two installations under [C:\a]
    and [C:\b] the prefixes [C:], [C:\a] and [C:\a\node] are counted 2, 1
    and 1, yet every line of the hierarchy is annotated 0: the key looked
    up for a node is its own name joined with the names of its children,
    not its root-to-node prefix.  The order of the lines and their
    indentation are as [print_hierarchy_unfold] says. *)
Theorem hierarchy_annotation_ignores_prefix :
  let pc := build_path_counts two_installs in
  pc !! "C:" = Some 2
  /\ pc !! "C:\a" = Some 1
  /\ pc !! "C:\a\node" = Some 1
  /\ lookup_key "C:" (Node [("a", Node [("node", Node [])]); ("b", Node [("node", Node [])])])
     = "C:\a\b"
  /\ print_hierarchy (build_hierarchy (flat_map (fun item => paths item.2) two_installs)) pc 2
     = [ "  C: (0)\";
         "    a (0)\";
         "      node (0)\";
         "    b (0)\";
         "      node (0)\" ].
Proof. repeat split; vm_compute; reflexivity. Qed.

(** Network failures and refusals are turned into strings. *)
Lemma get_latest_version_network_error (w : World) (u msg : string) :
  http w u = HttpFailed msg ->
  get_latest_version w u = ([HttpGet u], Ok (JStr ("Error fetching data: " +:+ msg))).
Proof. intros H. unfold get_latest_version, requests_get. run_m. by rewrite H. Qed.

Lemma get_latest_version_refused (w : World) (u : string) (r : response) :
  http w u = HttpResponse r -> status_code r <> 200 ->
  get_latest_version w u = ([HttpGet u], Ok (JStr ("Failed to fetch version from " +:+ u))).
Proof.
  intros H Hs. unfold get_latest_version, requests_get. run_m. rewrite H. simpl.
  by rewrite (proj2 (Z.eqb_neq _ _) Hs).
Qed.

(** The only exceptions that leave [get_latest_version] come from reading
    the decoded body in the release-index and registry branches, and from
    building the parse tree in the homepage branch. *)
Lemma get_latest_version_raise (w : World) (u : string) (e : exn) :
  result_of (get_latest_version w u) = Raise e ->
  is_RequestException e = false
  /\ (Py.contains "nodejs" u = true \/ Py.contains "python" u = true
      \/ Py.contains "npmjs" u = true).
Proof.
  unfold get_latest_version, requests_get, response_json, result_of. run_m.
  destruct (http w u) as [r|msg]; simpl; [|done].
  destruct (status_code r =? 200); simpl; [|done].
  destruct (Py.contains "nodejs" u); simpl.
  { destruct (http w _) as [r'|msg']; simpl; [|done].
    destruct (json_body r') as [j|]; simpl; [|done].
    destruct (subscript0 j) as [d|e0]; simpl.
    - destruct (py_get d "version" _) as [v|e0]; simpl.
      + destruct (py_get d "date" _) as [v'|e0]; simpl; [done|].
        destruct (is_RequestException e0) eqn:E; simpl; [done|].
        intros [= <-]. auto.
      + destruct (is_RequestException e0) eqn:E; simpl; [done|]. intros [= <-]. auto.
    - destruct (is_RequestException e0) eqn:E; simpl; [done|]. intros [= <-]. auto. }
  destruct (Py.contains "python" u); simpl.
  { unfold BeautifulSoup. destruct (parse_html w (text r)); simpl; [|done].
    intros [= <-]. auto. }
  destruct (Py.contains "npmjs" u); simpl; [|done].
  destruct (http w _) as [r'|msg']; simpl; [|done].
  destruct (json_body r') as [j|]; simpl; [|done].
  destruct (py_get j "version" _) as [v|e0]; simpl; [done|].
  destruct (is_RequestException e0) eqn:E; simpl; [done|]. intros [= <-]. auto.
Qed.

(** C1 (the code departs from it): when the release index answers 200
    with an empty JSON list, indexing its first entry raises [IndexError],
    which is no [RequestException]: it leaves [get_latest_version] and
    then [get_resources].  When the registry's version field is a number,
    the value handed back is that number, not a string. *)
Theorem get_latest_version_raises_on_empty_index :
  get_latest_version empty_index_host "https://nodejs.org/en/"
    = ([HttpGet "https://nodejs.org/en/"; HttpGet "https://nodejs.org/dist/index.json"],
       Raise (IndexError "list index out of range"))
  /\ result_of (get_resources empty_index_host RESOURCES STANDARD_INSTALL_DIRS false)
     = Raise (IndexError "list index out of range")
  /\ result_of (get_latest_version numeric_registry_host "https://www.npmjs.com/")
     = Ok (JInt 10).
Proof. repeat split; vm_compute; reflexivity. Qed.

(** ** Probes that fail *)

Lemma map_dict_set {A B} (g : A -> B) (k : string) (v : A) (d : list (string * A)) :
  map (fun e => (e.1, g e.2)) (dict_set k v d)
  = dict_set k (g v) (map (fun e => (e.1, g e.2)) d).
Proof.
  induction d as [|[k' v'] d IH]; [done|].
  simpl. destruct (decide (k = k')); [done|]. simpl. by rewrite IH.
Qed.

Lemma fold_paths_shape (w : World) (sp : string -> string -> proc_result) (args : string)
    (inp : bool) (ps : list string) (d d' : list (string * path_details)) :
  let g := fun x : path_details => (Executable x, InPath x) in
  map (fun e => (e.1, g e.2)) d = map (fun e => (e.1, g e.2)) d' ->
  map (fun e => (e.1, g e.2)) (fold_paths (with_spawn w sp) args inp ps d)
  = map (fun e => (e.1, g e.2)) (fold_paths w args inp ps d').
Proof.
  intros g Hd. induction ps as [|p ps IH] using rev_ind; [done|].
  rewrite !fold_paths_snoc, !(map_dict_set g), IH. reflexivity.
Qed.

Lemma shape_dict_set (r : string) (e : resource_details) (rr : resource_results) :
  shape (dict_set r e rr)
  = dict_set r (online e, map (fun x => (x.1, (Executable x.2, InPath x.2))) (paths e))
             (shape rr).
Proof.
  unfold shape.
  apply (map_dict_set
           (fun e => (online e, map (fun x => (x.1, (Executable x.2, InPath x.2))) (paths e)))).
Qed.

Lemma for_each_rel {A S} (R : S -> S -> Prop) (body1 body2 : A -> S -> M S)
    (xs : list A) (s1 s2 : S) :
  (forall x s1 s2, R s1 s2 ->
     (body1 x s1).1 = (body2 x s2).1 /\ ending R (body1 x s1).2 (body2 x s2).2) ->
  R s1 s2 ->
  (for_each xs body1 s1).1 = (for_each xs body2 s2).1
  /\ ending R (for_each xs body1 s1).2 (for_each xs body2 s2).2.
Proof.
  intros Hbody. revert s1 s2. induction xs as [|x xs IH]; intros s1 s2 Hs; [done|].
  rewrite !for_each_cons. destruct (Hbody x s1 s2 Hs) as [Hl He].
  destruct (body1 x s1) as [l1 [a1|e1]], (body2 x s2) as [l2 [a2|e2]];
    simpl in Hl, He; try done; subst.
  rewrite !bind_ok. cbn [fst snd]. destruct (IH a1 a2 He) as [Hl' He'].
  by rewrite Hl'.
Qed.

Lemma get_resources_body_spawn (w : World) (sp : string -> string -> proc_result)
    (dirs : list string) (b : bool) (item : string * (string * string))
    (s1 s2 : resource_results * gset string) :
  same_state s1 s2 ->
  (get_resources_body (with_spawn w sp) dirs b item s1).1
    = (get_resources_body w dirs b item s2).1
  /\ ending same_state (get_resources_body (with_spawn w sp) dirs b item s1).2
                       (get_resources_body w dirs b item s2).2.
Proof.
  destruct s1 as [rr cov], s2 as [rr' cov']. intros [Hrr Hcov]. simpl in Hrr, Hcov. subst cov'.
  destruct item as [r [args u]]. rewrite !get_resources_body_run.
  change (get_latest_version (with_spawn w sp) u) with (get_latest_version w u).
  change (find_executable_paths (with_spawn w sp) r) with (find_executable_paths w r).
  change (extra_found (with_spawn w sp) dirs b r) with (extra_found w dirs b r).
  destruct (get_latest_version w u) as [l1 [lv|e]]; [|done].
  destruct (find_executable_paths w r) as [l2 [ps|e]]; [|done].
  simpl. split; [done|]. split; [|done]. simpl.
  rewrite !shape_dict_set, Hrr. f_equal. f_equal. simpl.
  by apply fold_paths_shape, fold_paths_shape.
Qed.

Lemma get_resources_spawn (w : World) (sp : string -> string -> proc_result)
    (table : resource_table) (dirs : list string) (b : bool) :
  log_of (get_resources (with_spawn w sp) table dirs b) = log_of (get_resources w table dirs b)
  /\ same_ending (result_of (get_resources (with_spawn w sp) table dirs b))
                 (result_of (get_resources w table dirs b)).
Proof.
  unfold get_resources, log_of, result_of, same_ending.
  apply for_each_rel; [|done].
  intros. by apply get_resources_body_spawn.
Qed.

(** C7: a probe that fails in any way (the child exits with another
    status than 0, cannot be started, or prints nothing so that there is no
    first line) makes [get_version] return the string ["Error: ..."]; it
    never raises.  So [get_path_details] always returns, and whatever the
    probed executables do, [get_resources] makes the same calls, ends the
    same way and records the same resources and paths. *)
Theorem probe_failure_is_recorded (w : World) (command version_args : string) :
  get_version w command version_args
    = ([ProcRun [command; version_args]], Ok (version_string w command version_args))
  /\ (forall msg, spawn w command version_args = ExitedNonZero msg ->
        version_string w command version_args = "Error: " +:+ msg)
  /\ (forall e, spawn w command version_args = Failed e ->
        version_string w command version_args = "Error: " +:+ exn_str e)
  /\ (forall output, spawn w command version_args = Exited0 output ->
        Py.splitlines (Py.strip output) = [] ->
        version_string w command version_args = "Error: list index out of range")
  /\ returns (get_path_details w command version_args) = true
  /\ (forall sp table dirs b,
        log_of (get_resources (with_spawn w sp) table dirs b)
          = log_of (get_resources w table dirs b)
        /\ same_ending (result_of (get_resources (with_spawn w sp) table dirs b))
                       (result_of (get_resources w table dirs b))).
Proof.
  split; [apply get_version_run|].
  unfold version_string, probe.
  repeat split.
  - by intros msg ->.
  - by intros e ->.
  - intros output Hs Hl. rewrite Hs. simpl. by rewrite Hl.
  - by rewrite get_path_details_run.
  - apply get_resources_spawn.
  - apply get_resources_spawn.
Qed.

Example failing_probe_on_linux_host :
  get_version linux_host "/usr/local/bin/node" "--version"
  = ([ProcRun ["/usr/local/bin/node"; "--version"]],
     Ok "Error: [Errno 13] Permission denied").
Proof. reflexivity. Qed.

(** ** Paths that are not executable *)

Lemma not_probed (w : World) (path args : string) (l : list event) :
  is_executable w path = false -> Forall (allowed_event w) l -> ProcRun [path; args] ∉ l.
Proof.
  intros Hx Hall Hin. rewrite Forall_forall in Hall.
  specialize (Hall _ Hin). simpl in Hall. congruence.
Qed.

(** C5: for a path whose executability check returns false,
    [get_path_details] gives [(False, None)] without starting anything; no
    run of [get_resources] ever starts the version probe on it; and its
    entry in a result mapping has [Executable = False] and
    [Version = None]. *)
Theorem nonexecutable_path_has_no_version (w : World) (path : string) :
  is_executable w path = false ->
  (forall args, get_path_details w path args = ([], Ok (false, None)))
  /\ (forall table dirs b args,
        ProcRun [path; args] ∉ log_of (get_resources w table dirs b))
  /\ (forall table dirs b l rr cov r det d,
        get_resources w table dirs b = (l, Ok (rr, cov)) ->
        (r, det) ∈ rr -> (path, d) ∈ paths det ->
        Executable d = false /\ Version d = None).
Proof.
  intros Hx. split; [|split].
  - intros args. rewrite get_path_details_run. unfold probe_log. simpl. by rewrite Hx.
  - intros table dirs b args. apply (not_probed w); [done|apply get_resources_log].
  - intros table dirs b l rr cov r det d Hrun Hr Hd.
    destruct (get_resources_entries _ _ _ _ _ _ _ Hrun _ _ Hr)
      as (args & u & lv & l1 & l2 & _ & _ & _ & ->).
    apply entry_of_elem in Hd as [inp ->]. simpl. by rewrite Hx.
Qed.

Lemma nonexecutable_path_has_no_version_witness :
  is_executable linux_host "/usr/local/bin/node" = false
  /\ get_path_details linux_host "/usr/local/bin/node" "--version" = ([], Ok (false, None))
  /\ (ProcRun ["/usr/local/bin/node"; "--version"] ∉ log_of linux_run)
  /\ Executable (found false None true) = false /\ Version (found false None true) = None.
Proof.
  assert (is_executable linux_host "/usr/local/bin/node" = false) as Hx by reflexivity.
  assert (get_resources linux_host RESOURCES STANDARD_INSTALL_DIRS true
          = (linux_run.1, Ok ([("node", linux_node)], covered_of linux_run))) as Hrun
    by (vm_compute; reflexivity).
  destruct (nonexecutable_path_has_no_version linux_host "/usr/local/bin/node" Hx)
    as (H1 & H2 & H3).
  split; [exact Hx|]. split; [apply H1|]. split; [apply H2|].
  apply (H3 RESOURCES STANDARD_INSTALL_DIRS true _ _ _ "node" linux_node _ Hrun).
  - apply list_elem_of_here.
  - apply list_elem_of_further, list_elem_of_here.
Defined.

(** ** The header line of a resource *)

Lemma list_ascii_of_append (a b : string) :
  list_ascii_of_string (a +:+ b) = list_ascii_of_string a ++ list_ascii_of_string b.
Proof. induction a as [|c a IH]; simpl; [done|]. by rewrite IH. Qed.

Lemma bare_header_has_no_suffix (r : string) :
  Py.endswith "No paths found" (r +:+ ": ") = false.
Proof.
  unfold Py.endswith, Py.rev_string. rewrite list_ascii_of_append, rev_app_distr.
  reflexivity.
Qed.

Lemma header_in_report (w : World) (rr : resource_results) (cov : gset string)
    (r : string) (det : resource_details) :
  (r, det) ∈ rr -> header_line r det ∈ generate_report w rr cov.
Proof.
  intros Hin. unfold generate_report. apply elem_of_app. left.
  apply list_elem_of_In, in_flat_map. exists (r, det). split.
  - by apply list_elem_of_In.
  - simpl. by left.
Qed.

(** C8: in a result of [get_resources], a resource for which the locator
    and the standard-directory search both report nothing has an empty path
    mapping and its header line in the report reads
    ["<name>: No paths found"]; a resource with a discovered path has a
    non-empty mapping and its header line is ["<name>: "], without that
    suffix.  The header is the first line of the resource's section. *)
Theorem no_paths_found_line (w : World) (table : resource_table) (dirs : list string)
    (b : bool) (l : list event) (rr : resource_results) (cov : gset string)
    (r : string) (det : resource_details) :
  get_resources w table dirs b = (l, Ok (rr, cov)) ->
  (r, det) ∈ rr ->
  (located w r = [] /\ extra_found w dirs b r = [] ->
     paths det = [] /\ header_line r det = r +:+ ": No paths found")
  /\ (~ (located w r = [] /\ extra_found w dirs b r = []) ->
        paths det <> [] /\ header_line r det = r +:+ ": "
        /\ Py.endswith "No paths found" (header_line r det) = false)
  /\ head (resource_section (build_path_counts rr) (r, det)) = Some (header_line r det)
  /\ header_line r det ∈ generate_report w rr cov.
Proof.
  intros Hrun Hr.
  destruct (get_resources_entries _ _ _ _ _ _ _ Hrun _ _ Hr)
    as (args & u & lv & l1 & l2 & _ & _ & _ & Hdet).
  pose proof (entry_of_empty w args u lv (located w r) (extra_found w dirs b r)) as Hempty.
  rewrite <- Hdet in Hempty. split; [|split; [|split]].
  - intros Hnone. apply Hempty in Hnone. unfold header_line. by rewrite Hnone.
  - intros Hsome. assert (paths det <> []) as Hne by (by rewrite Hempty).
    assert (header_line r det = r +:+ ": ") as Hh.
    { unfold header_line. destruct (paths det); [done|]. reflexivity. }
    split; [done|]. split; [done|]. rewrite Hh. apply bare_header_has_no_suffix.
  - reflexivity.
  - by apply header_in_report.
Qed.

Lemma no_paths_found_line_witness :
  (located bare_host "node" = [] /\ extra_found bare_host STANDARD_INSTALL_DIRS false "node" = [])
  /\ paths bare_node = []
  /\ header_line "node" bare_node = "node: No paths found"
  /\ "node: No paths found" ∈ generate_report bare_host [("node", bare_node)] (covered_of bare_run).
Proof.
  assert (located bare_host "node" = []
          /\ extra_found bare_host STANDARD_INSTALL_DIRS false "node" = []) as Hnone
    by (split; reflexivity).
  assert (get_resources bare_host RESOURCES STANDARD_INSTALL_DIRS false
          = (bare_run.1, Ok ([("node", bare_node)], covered_of bare_run))) as Hrun
    by (vm_compute; reflexivity).
  destruct (no_paths_found_line bare_host RESOURCES STANDARD_INSTALL_DIRS false _ _ _
              "node" bare_node Hrun (list_elem_of_here _ _))
    as (H1 & _ & _ & H4).
  destruct (H1 Hnone) as [Hp Hh].
  split; [exact Hnone|]. split; [exact Hp|]. split; [exact Hh|]. exact H4.
Defined.

Example header_with_paths :
  header_line "node" linux_node = "node: "
  /\ head (generate_report linux_host (results_of linux_run) (covered_of linux_run))
     = Some "node: ".
Proof. split; vm_compute; reflexivity. Qed.

(** ** A path found by both searches *)

(** C9: when the locator and the standard-directory search both report
    the path [p] for a resource, the resource's mapping has one entry for
    [p]; it stands where the locator phase put it (the keys of that phase
    come first, in their order); its attributes are those of the
    standard-directory discovery, so [InPath] is [False]: a ["Path:"]
    block for it ends with ["In-Path Variable: False"], and the chain of
    its segments is in the hierarchy. *)
Theorem path_found_twice_is_one_entry (w : World) (table : resource_table)
    (dirs : list string) (b : bool) (l : list event) (rr : resource_results)
    (cov : gset string) (r : string) (det : resource_details) (p : string) :
  get_resources w table dirs b = (l, Ok (rr, cov)) ->
  (r, det) ∈ rr ->
  p ∈ located w r ->
  p ∈ extra_found w dirs b r ->
  (exists d args u,
      (r, (args, u)) ∈ table
      /\ d = details_of w args false p
      /\ dict_get p (paths det) = Some d
      /\ InPath d = false
      /\ (forall d', (p, d') ∈ paths det -> d' = d)
      /\ (Executable d = true ->
            last (path_lines (p, d))
            = Some (Py.tab +:+ Py.tab +:+ Py.tab +:+ "In-Path Variable: False")))
  /\ NoDup (dict_keys (paths det))
  /\ (exists rest, dict_keys (paths det) = first_seen (located w r) [] ++ rest)
  /\ p ∈ first_seen (located w r) []
  /\ has_chain (segments p) (build_hierarchy (paths det)) = true.
Proof.
  intros Hrun Hr Hloc Hextra.
  destruct (get_resources_entries _ _ _ _ _ _ _ Hrun _ _ Hr)
    as (args & u & lv & l1 & l2 & Htab & _ & _ & Hdet).
  assert (dict_get p (paths det) = Some (details_of w args false p)) as Hget.
  { rewrite Hdet. unfold entry_of. simpl. by apply fold_paths_get_in. }
  assert (NoDup (dict_keys (paths det))) as Hnd by (rewrite Hdet; apply entry_of_NoDup).
  split; [|split; [|split; [|split]]].
  - exists (details_of w args false p), args, u. repeat split; try done.
    + intros d' Hd'. apply (NoDup_keys_get _ _ _ Hnd) in Hd'. congruence.
    + simpl. unfold path_lines. simpl. by intros ->.
  - done.
  - rewrite Hdet, entry_of_keys. apply first_seen_prefix.
  - apply first_seen_elem. by right.
  - apply has_chain_walk, build_hierarchy_walk. right.
    exists p, (details_of w args false p). split; [by apply dict_get_elem|done].
Qed.

Lemma path_found_twice_is_one_entry_witness :
  "/usr/bin/node" ∈ located linux_host "node"
  /\ "/usr/bin/node" ∈ extra_found linux_host STANDARD_INSTALL_DIRS true "node"
  /\ NoDup (dict_keys (paths linux_node))
  /\ "/usr/bin/node" ∈ first_seen (located linux_host "node") []
  /\ has_chain (segments "/usr/bin/node") (build_hierarchy (paths linux_node)) = true.
Proof.
  assert ("/usr/bin/node" ∈ located linux_host "node") as Hloc
    by (vm_compute; apply list_elem_of_here).
  assert ("/usr/bin/node" ∈ extra_found linux_host STANDARD_INSTALL_DIRS true "node") as Hextra
    by (vm_compute; apply list_elem_of_here).
  assert (get_resources linux_host RESOURCES STANDARD_INSTALL_DIRS true
          = (linux_run.1, Ok ([("node", linux_node)], covered_of linux_run))) as Hrun
    by (vm_compute; reflexivity).
  destruct (path_found_twice_is_one_entry linux_host RESOURCES STANDARD_INSTALL_DIRS true
              _ _ _ "node" linux_node "/usr/bin/node" Hrun
              (list_elem_of_here _ _) Hloc Hextra)
    as (_ & Hnd & _ & Hfirst & Hchain).
  split; [exact Hloc|]. split; [exact Hextra|]. split; [exact Hnd|].
  split; [exact Hfirst|exact Hchain].
Defined.

Example found_twice_on_linux_host :
  located linux_host "node" = ["/usr/bin/node"; "/usr/local/bin/node"]
  /\ extra_found linux_host STANDARD_INSTALL_DIRS true "node" = ["/usr/bin/node"]
  /\ dict_keys (paths linux_node) = ["/usr/bin/node"; "/usr/local/bin/node"]
  /\ dict_get "/usr/bin/node" (paths linux_node) = Some (found true (Some "v18.16.0") false)
  /\ flat_map path_lines (paths linux_node)
     = [ Py.tab +:+ "Path: /usr/bin/node";
         Py.tab +:+ Py.tab +:+ Py.tab +:+ "Executable: True";
         Py.tab +:+ Py.tab +:+ Py.tab +:+ "Version: v18.16.0";
         Py.tab +:+ Py.tab +:+ Py.tab +:+ "In-Path Variable: False" ].
Proof. repeat split; vm_compute; reflexivity. Qed.

(** ** Uncovered [PATH] directories *)

Lemma uncovered_filter (covered : gset string) (l : list string) :
  List.filter (fun d => negb (bool_decide (d = "")) && bool_decide (d ∉ covered)) l
  = filter (fun d => d ∉ covered) (filter (fun d => d <> "") l).
Proof.
  induction l as [|d l IH]; [done|].
  simpl. rewrite filter_cons.
  repeat case_bool_decide; case_decide; simpl; rewrite ?filter_cons;
    try case_decide; try done; by rewrite IH.
Qed.

Lemma uncovered_elem (w : World) (covered : gset string) (d : string) :
  d ∈ list_uncovered_path_dirs w covered
  <-> d ∈ path_entries w /\ d <> "" /\ d ∉ covered.
Proof.
  unfold list_uncovered_path_dirs. fold (path_entries w).
  rewrite uncovered_filter, !list_elem_of_filter. tauto.
Qed.

Lemma no_standard_search_covers_nothing (w : World) (table : resource_table)
    (dirs : list string) (l : list event) (rr : resource_results) (cov : gset string) :
  get_resources w table dirs false = (l, Ok (rr, cov)) -> cov = ∅.
Proof.
  unfold get_resources.
  apply (for_each_inv (fun s : resource_results * gset string => s.2 = ∅)); [|done].
  intros [r [args u]] [rr0 cov0] l1 [rr1 cov1] _ Hcov. simpl in Hcov. subst cov0.
  rewrite get_resources_body_run.
  destruct (get_latest_version w u) as [la [lv|e]]; [|done].
  destruct (find_executable_paths w r) as [lb [ps|e]]; [|done].
  by intros [= _ _ <-].
Qed.

(** C6 (as amended): [list_uncovered_path_dirs] returns exactly the
    non-empty live [PATH] entries that are not in the covered-directory
    set, in [PATH] order; with an empty covered set, as after a run
    without the standard-directory search, every non-empty [PATH] entry is
    reported. *)
Theorem uncovered_is_path_minus_covered (w : World) (covered : gset string) :
  list_uncovered_path_dirs w covered
    = filter (fun d => d ∉ covered) (filter (fun d => d <> "") (path_entries w))
  /\ list_uncovered_path_dirs w covered `sublist_of` path_entries w
  /\ list_uncovered_path_dirs w ∅ = filter (fun d => d <> "") (path_entries w)
  /\ (forall table dirs l rr cov,
        get_resources w table dirs false = (l, Ok (rr, cov)) ->
        list_uncovered_path_dirs w cov = filter (fun d => d <> "") (path_entries w)).
Proof.
  assert (list_uncovered_path_dirs w ∅ = filter (fun d => d <> "") (path_entries w)) as E.
  { unfold list_uncovered_path_dirs. fold (path_entries w). rewrite uncovered_filter.
    induction (filter _ (path_entries w)) as [|d l IH]; [done|].
    rewrite filter_cons, decide_True by set_solver. by rewrite IH. }
  unfold list_uncovered_path_dirs at 1 2. fold (path_entries w).
  rewrite !uncovered_filter. split; [done|]. split; [|split; [done|]].
  - etrans; apply sublist_filter.
  - intros table dirs l rr cov ->%no_standard_search_covers_nothing. exact E.
Qed.

(** C6, as first stated, fails: with [PATH=/usr/bin::/usr/local/bin] and
    nothing covered, the entries minus the covered set keep the empty
    entry between the two separators, and the function drops it. *)
Lemma uncovered_drops_empty_entry :
  filter (fun d => d ∉ (∅ : gset string)) (path_entries linux_host)
    = ["/usr/bin"; ""; "/usr/local/bin"]
  /\ list_uncovered_path_dirs linux_host ∅ = ["/usr/bin"; "/usr/local/bin"]
  /\ list_uncovered_path_dirs linux_host ∅
       <> filter (fun d => d ∉ (∅ : gset string)) (path_entries linux_host).
Proof. split; [|split]; [vm_compute; reflexivity .. | vm_compute; discriminate]. Qed.

(** C10: every string [list_uncovered_path_dirs] reports is non-empty,
    whatever the covered set: the empty entries that splitting [PATH]
    yields at a leading, trailing or doubled separator are never
    reported. *)
Theorem uncovered_entries_nonempty (w : World) (covered : gset string) :
  Forall (fun d => d <> "" /\ d ∈ path_entries w) (list_uncovered_path_dirs w covered)
  /\ ~ "" ∈ list_uncovered_path_dirs w covered.
Proof.
  split.
  - apply Forall_forall. intros d Hd%uncovered_elem. tauto.
  - intros Hin%uncovered_elem. tauto.
Qed.

Example uncovered_leading_trailing :
  Py.split ":" ":/bin::/usr/bin:" = [""; "/bin"; ""; "/usr/bin"; ""]
  /\ List.filter (fun d => negb (bool_decide (d = ""))) (Py.split ":" ":/bin::/usr/bin:")
     = ["/bin"; "/usr/bin"].
Proof. split; reflexivity. Qed.

(** What the standard-directory phase adds to the covered set: the
    characters of the directory name, one string each. *)
Example covered_set_on_linux_host :
  os_path_dirname linux_host "/usr/bin/node" = "/usr/bin"
  /\ covered_of linux_run = list_to_set ["/"; "u"; "s"; "r"; "b"; "i"; "n"]
  /\ list_uncovered_path_dirs linux_host (covered_of linux_run)
     = ["/usr/bin"; "/usr/local/bin"].
Proof. repeat split; vm_compute; reflexivity. Qed.

(* ===================================================================== *)
(** * Further properties of the code *)
(* ===================================================================== *)

(** ** Lines read from a child process *)

Lemma is_break_isspace (c : ascii) : is_break c = true -> Py.isspace c = true.
Proof.
  unfold is_break, Py.is_linebreak, Py.isspace. generalize (nat_of_ascii c). intros n.
  rewrite !orb_true_iff, !andb_true_iff, !Nat.eqb_eq, !Nat.leb_le. lia.
Qed.

Lemma not_space_not_break (c : ascii) : Py.isspace c = false -> is_break c = false.
Proof.
  intros Hs. destruct (is_break c) eqn:E; [|done].
  apply is_break_isspace in E. congruence.
Qed.

Lemma single_line_of_list (l : list ascii) :
  Forall (fun c => is_break c = false) l -> single_line (string_of_list_ascii l).
Proof. unfold single_line. by rewrite list_ascii_of_string_of_list_ascii. Qed.

Lemma splitlines_from_step (cur : list ascii) (c : ascii) (s : string) :
  is_break c = false -> Py.splitlines_from cur (String c s) = Py.splitlines_from (c :: cur) s.
Proof.
  unfold is_break. intros [H13 Hlb]%orb_false_iff. simpl. by rewrite H13, Hlb.
Qed.

Lemma splitlines_from_single (n : nat) (cur : list ascii) (s : string) :
  (String.length s <= n)%nat ->
  Forall (fun c => is_break c = false) cur ->
  Forall single_line (Py.splitlines_from cur s).
Proof.
  revert cur s. induction n as [|n IH]; intros cur s Hlen Hcur.
  - destruct s; [|simpl in Hlen; lia]. simpl.
    destruct cur; [constructor|]. constructor; [|constructor].
    by apply single_line_of_list, Forall_rev.
  - destruct s as [|c s]; simpl.
    + destruct cur; [constructor|]. constructor; [|constructor].
      by apply single_line_of_list, Forall_rev.
    + simpl in Hlen. destruct (nat_of_ascii c =? 13)%nat eqn:E13.
      * constructor; [by apply single_line_of_list, Forall_rev|].
        destruct s as [|c' s']; [constructor|].
        destruct (nat_of_ascii c' =? 10)%nat.
        -- apply IH; [simpl in Hlen; lia|constructor].
        -- apply IH; [lia|constructor].
      * destruct (Py.is_linebreak c) eqn:Elb.
        -- constructor; [by apply single_line_of_list, Forall_rev|].
           apply IH; [lia|constructor].
        -- apply IH; [lia|]. constructor; [|done]. unfold is_break. by rewrite E13, Elb.
Qed.

Lemma splitlines_single (s : string) : Forall single_line (Py.splitlines s).
Proof. apply (splitlines_from_single (String.length s)); [lia|constructor]. Qed.

Lemma splitlines_from_head (cur : list ascii) (s : string) :
  cur <> [] ->
  exists line rest more,
    Py.splitlines_from cur s = line :: rest
    /\ list_ascii_of_string line = rev cur ++ more.
Proof.
  revert cur. induction s as [|c s IH]; intros cur Hcur.
  - simpl. destruct cur as [|a cur]; [done|].
    eexists _, [], []. split; [done|].
    by rewrite list_ascii_of_string_of_list_ascii, app_nil_r.
  - simpl. destruct (nat_of_ascii c =? 13)%nat.
    { eexists _, _, []. split; [done|].
      by rewrite list_ascii_of_string_of_list_ascii, app_nil_r. }
    destruct (Py.is_linebreak c).
    { eexists _, _, []. split; [done|].
      by rewrite list_ascii_of_string_of_list_ascii, app_nil_r. }
    destruct (IH (c :: cur)) as (line & rest & more & E & Hl); [done|].
    exists line, rest, (c :: more). split; [done|].
    rewrite Hl. simpl. by rewrite <- app_assoc.
Qed.

Lemma splitlines_head_solid (s : string) :
  starts_solid s ->
  exists line rest, Py.splitlines s = line :: rest /\ starts_solid line.
Proof.
  destruct s as [|c s]; [done|]. simpl. intros Hc.
  unfold Py.splitlines. rewrite splitlines_from_step by by apply not_space_not_break.
  destruct (splitlines_from_head [c] s) as (line & rest & more & E & Hl); [done|].
  exists line, rest. split; [done|].
  destruct line as [|a line]; [done|]. simpl in Hl. injection Hl as -> _. exact Hc.
Qed.

Lemma lstrip_blank (s : string) : blank s <-> Py.lstrip s = "".
Proof.
  unfold blank. induction s as [|c s IH]; simpl.
  - split; [done|constructor].
  - destruct (Py.isspace c) eqn:E.
    + rewrite <- IH. split; [by intros [_ ?]%Forall_cons|by constructor].
    + split; [|done]. intros [? _]%Forall_cons. congruence.
Qed.

Lemma lstrip_solid (s : string) : ~ blank s -> starts_solid (Py.lstrip s).
Proof.
  unfold blank. induction s as [|c s IH]; simpl.
  - intros H. destruct H. constructor.
  - destruct (Py.isspace c) eqn:E; [|done].
    intros H. apply IH. intros Hs. apply H. by constructor.
Qed.

Lemma lstrip_snoc (l : list ascii) (c : ascii) :
  Py.isspace c = false ->
  exists l', Py.lstrip (string_of_list_ascii (l ++ [c])) = string_of_list_ascii (l' ++ [c]).
Proof.
  intros Hc. induction l as [|a l IH]; simpl.
  - exists []. by rewrite Hc.
  - destruct (Py.isspace a); [exact IH|]. by exists (a :: l).
Qed.

Lemma rstrip_solid (s : string) : starts_solid s -> starts_solid (Py.rstrip s).
Proof.
  destruct s as [|c s]; [done|]. simpl. intros Hc.
  unfold Py.rstrip, Py.rev_string. simpl.
  destruct (lstrip_snoc (rev (list_ascii_of_string s)) c Hc) as [l' ->].
  rewrite list_ascii_of_string_of_list_ascii, rev_app_distr. simpl. exact Hc.
Qed.

Lemma strip_blank (s : string) : blank s -> Py.strip s = "".
Proof. intros H%lstrip_blank. unfold Py.strip. by rewrite H. Qed.

Lemma strip_solid (s : string) : ~ blank s -> starts_solid (Py.strip s).
Proof. intros H. by apply rstrip_solid, lstrip_solid. Qed.

Lemma run_command_run (w : World) (cmd : string) :
  run_command w cmd
  = ([ShellRun cmd],
     match shell w cmd with
     | Exited0 output => Ok (Py.splitlines (Py.strip output))
     | ExitedNonZero _ => Ok []
     | Failed e => if is_CalledProcessError e then Ok [] else Raise e
     end).
Proof.
  unfold run_command. run_m. destruct (shell w cmd) as [out|msg|e]; simpl; try done.
  by destruct (is_CalledProcessError e).
Qed.

(** X1: [run_command] (and so [find_executable_paths]) never lets a
    [CalledProcessError] out: the only exceptions that leave it are the
    ones [subprocess] raised for another reason, unchanged, after the one
    shell call. *)
Theorem run_command_raises_only_other_errors (w : World) (cmd : string) (e : exn) :
  result_of (run_command w cmd) = Raise e ->
  is_CalledProcessError e = false
  /\ shell w cmd = Failed e
  /\ run_command w cmd = ([ShellRun cmd], Raise e).
Proof.
  rewrite run_command_run. unfold result_of. simpl.
  destruct (shell w cmd) as [out|msg|e']; [done..|].
  destruct (is_CalledProcessError e') eqn:E; [done|]. by intros [= <-].
Qed.

Lemma run_command_raises_only_other_errors_witness :
  result_of (run_command no_shell_host "which -a node")
    = Raise (OSError "[Errno 12] Cannot allocate memory")
  /\ is_CalledProcessError (OSError "[Errno 12] Cannot allocate memory") = false.
Proof.
  assert (result_of (run_command no_shell_host "which -a node")
          = Raise (OSError "[Errno 12] Cannot allocate memory")) as H by reflexivity.
  split; [exact H|].
  exact (proj1 (run_command_raises_only_other_errors no_shell_host "which -a node" _ H)).
Defined.

(** X2: the locator reports no candidate, and no error, when the search
    command exits with a non-zero status or prints only whitespace; it
    runs exactly one command, [where <name>] on Windows and
    [which -a <name>] elsewhere. *)
Theorem find_executable_paths_absent (w : World) (command : string) :
  let cmd := match SYSTEM_PLATFORM w with
             | Windows => "where " +:+ command
             | Posix => "which -a " +:+ command
             end in
  log_of (find_executable_paths w command) = [ShellRun cmd]
  /\ (forall msg, shell w cmd = ExitedNonZero msg ->
        result_of (find_executable_paths w command) = Ok [])
  /\ (forall output, shell w cmd = Exited0 output -> blank output ->
        result_of (find_executable_paths w command) = Ok []).
Proof.
  intros cmd. unfold find_executable_paths. fold cmd. rewrite run_command_run.
  unfold log_of, result_of. simpl. split; [done|]. split.
  - by intros msg ->.
  - intros output -> Hb. by rewrite strip_blank.
Qed.

(** X3: every candidate the locator returns is one line: it contains no
    line boundary; and the first candidate is not empty and does not begin
    with whitespace. *)
Theorem find_executable_paths_lines (w : World) (command : string) (candidates : list string) :
  result_of (find_executable_paths w command) = Ok candidates ->
  Forall single_line candidates
  /\ (forall first, head candidates = Some first -> starts_solid first).
Proof.
  unfold find_executable_paths. rewrite run_command_run. unfold result_of. simpl.
  destruct (shell w _) as [out|msg|e].
  - intros [= <-]. split; [apply splitlines_single|].
    intros first Hfirst. destruct (decide (blank out)) as [Hb|Hb].
    + rewrite strip_blank in Hfirst by done. done.
    + destruct (splitlines_head_solid _ (strip_solid _ Hb)) as (line & rest & E & Hs).
      rewrite E in Hfirst. by injection Hfirst as <-.
  - intros [= <-]. split; [constructor|done].
  - destruct (is_CalledProcessError e); [|done]. intros [= <-]. split; [constructor|done].
Qed.

Lemma find_executable_paths_lines_witness :
  result_of (find_executable_paths linux_host "node")
    = Ok ["/usr/bin/node"; "/usr/local/bin/node"]
  /\ Forall single_line ["/usr/bin/node"; "/usr/local/bin/node"]
  /\ starts_solid "/usr/bin/node".
Proof.
  assert (result_of (find_executable_paths linux_host "node")
          = Ok ["/usr/bin/node"; "/usr/local/bin/node"]) as H by reflexivity.
  destruct (find_executable_paths_lines linux_host "node" _ H) as [H1 H2].
  split; [exact H|]. split; [exact H1|]. by apply H2.
Defined.

(** ** A successful probe *)

(** X4: when the probed executable exits with status 0 and prints
    something that is not only whitespace, [get_version] returns the first
    line of the stripped output: a non-empty string that begins with no
    whitespace and holds no line boundary. *)
Theorem successful_probe_is_one_line (w : World) (command version_args output : string) :
  spawn w command version_args = Exited0 output ->
  ~ blank output ->
  exists line,
    get_version w command version_args = ([ProcRun [command; version_args]], Ok line)
    /\ head (Py.splitlines (Py.strip output)) = Some line
    /\ starts_solid line
    /\ single_line line.
Proof.
  intros Hsp Hb. rewrite get_version_run. unfold version_string, probe. rewrite Hsp. simpl.
  destruct (splitlines_head_solid _ (strip_solid _ Hb)) as (line & rest & E & Hs).
  pose proof (splitlines_single (Py.strip output)) as Hall.
  rewrite E in *. exists line. repeat split; try done.
  by apply Forall_cons in Hall as [? _].
Qed.

Lemma successful_probe_is_one_line_witness :
  exists line,
    get_version linux_host "/usr/bin/node" "--version"
      = ([ProcRun ["/usr/bin/node"; "--version"]], Ok line)
    /\ head (Py.splitlines (Py.strip ("v18.16.0" +:+ nl))) = Some line
    /\ starts_solid line
    /\ single_line line.
Proof.
  apply (successful_probe_is_one_line linux_host "/usr/bin/node" "--version"
           ("v18.16.0" +:+ nl)); [reflexivity|].
  unfold blank. simpl. intros [H _]%Forall_cons. discriminate.
Defined.

(** ** The upstream version *)

Lemma get_latest_version_run_log (w : World) (u : string) :
  log_of (get_latest_version w u) = HttpGet u :: second_request w u.
Proof.
  unfold get_latest_version, requests_get, response_json, second_request, log_of. run_m.
  destruct (http w u) as [r|msg]; simpl; [|done].
  destruct (status_code r =? 200); simpl; [|done].
  destruct (Py.contains "nodejs" u); simpl.
  { destruct (http w _) as [r'|msg']; simpl; [|done].
    destruct (json_body r') as [j|]; simpl; [|done].
    destruct (subscript0 j) as [d|e]; simpl.
    - destruct (py_get d "version" _) as [v|e]; simpl.
      + destruct (py_get d "date" _) as [v'|e]; simpl; [done|].
        by destruct (is_RequestException e).
      + by destruct (is_RequestException e).
    - by destruct (is_RequestException e). }
  destruct (Py.contains "python" u); simpl.
  { unfold BeautifulSoup. by destruct (parse_html w (text r)). }
  destruct (Py.contains "npmjs" u); simpl; [|done].
  destruct (http w _) as [r'|msg']; simpl; [|done].
  destruct (json_body r') as [j|]; simpl; [|done].
  destruct (py_get j "version" _) as [v|e]; simpl; [done|].
  by destruct (is_RequestException e).
Qed.

(** X5: [get_latest_version] makes one request to the reference URL and
    at most one more: to the release index when the first answer is 200
    and the URL contains ["nodejs"], to the registry when it is 200 and
    the URL contains ["npmjs"] but neither ["nodejs"] nor ["python"];
    never a third, and none after a refusal or a network failure. *)
Theorem get_latest_version_requests (w : World) (u : string) :
  log_of (get_latest_version w u) = HttpGet u :: second_request w u
  /\ (length (log_of (get_latest_version w u)) <= 2)%nat
  /\ (forall r, http w u = HttpResponse r -> status_code r <> 200 ->
        log_of (get_latest_version w u) = [HttpGet u])
  /\ (Py.contains "nodejs" u = false -> Py.contains "python" u = true ->
        log_of (get_latest_version w u) = [HttpGet u]).
Proof.
  rewrite get_latest_version_run_log. unfold second_request. split; [done|].
  split; [|split].
  - destruct (http w u) as [r|msg]; simpl; [|lia].
    destruct (status_code r =? 200); simpl; [|lia].
    repeat (destruct (Py.contains _ u); simpl; try lia).
  - intros r -> Hs. by rewrite (proj2 (Z.eqb_neq _ _) Hs).
  - intros -> ->. destruct (http w u) as [r|msg]; [|done].
    by destruct (status_code r =? 200).
Qed.

Lemma append_cons_s (x : ascii) (a b : string) : String x a +:+ b = String x (a +:+ b).
Proof. reflexivity. Qed.

Lemma append_assoc_s (a b c : string) : (a +:+ b) +:+ c = a +:+ (b +:+ c).
Proof. induction a as [|x a IH]; [done|]. by rewrite !append_cons_s, IH. Qed.

Lemma length_append_s (a b : string) :
  String.length (a +:+ b) = (String.length a + String.length b)%nat.
Proof. induction a as [|x a IH]; [done|]. rewrite append_cons_s. simpl. by rewrite IH. Qed.

Lemma startswith_app (p s : string) : Py.startswith p (p +:+ s) = true.
Proof.
  induction p as [|x p IH]; [done|]. rewrite append_cons_s. simpl.
  by rewrite Ascii.eqb_refl, IH.
Qed.

Lemma find_from_skip (sub a s : string) (pos : Z) :
  Py.find_from sub (a +:+ s) pos (String.length a)
  = Py.find_from sub s (pos + Py.len a) 0.
Proof.
  revert pos. induction a as [|x a IH]; intros pos.
  - unfold Py.len. simpl. by rewrite Z.add_0_r.
  - rewrite append_cons_s. simpl. rewrite IH. f_equal. unfold Py.len. simpl String.length. lia.
Qed.

Lemma find_from_here (sub s : string) (pos : Z) :
  Py.startswith sub s = true -> Py.find_from sub s pos 0 = pos.
Proof. intros H. destruct s; simpl; by rewrite H. Qed.

Lemma find_from_next (sub : string) (x : ascii) (s : string) (pos : Z) :
  Py.startswith sub (String x s) = false ->
  Py.find_from sub (String x s) pos 0 = Py.find_from sub s (pos + 1) 0.
Proof. intros H. cbn [Py.find_from]. by rewrite H. Qed.

Lemma find_from_past (c0 : ascii) (sub' v post : string) (pos : Z) :
  Py.has_char c0 v = false ->
  Py.find_from (String c0 sub') (v +:+ String c0 sub' +:+ post) pos 0 = pos + Py.len v.
Proof.
  revert pos. induction v as [|x v IH]; intros pos Hv.
  - change ("" +:+ String c0 sub' +:+ post) with (String c0 sub' +:+ post).
    rewrite find_from_here by apply startswith_app. unfold Py.len. simpl. lia.
  - simpl in Hv. apply orb_false_iff in Hv as [Hx Hv].
    rewrite append_cons_s, find_from_next.
    + rewrite IH by done. unfold Py.len. simpl String.length. lia.
    + simpl. by rewrite Ascii.eqb_sym, Hx.
Qed.

Lemma find_from_absent (sub s : string) (pos : Z) :
  Py.contains sub s = false -> Py.find_from sub s pos 0 = -1.
Proof.
  revert pos. induction s as [|x s IH]; intros pos; simpl.
  - intros H. apply orb_false_iff in H as [-> _]. done.
  - intros H. apply orb_false_iff in H as [-> Hs]. by apply IH.
Qed.

Lemma substring_middle (p v r : string) :
  String.substring (String.length p) (String.length v) (p +:+ v +:+ r) = v.
Proof.
  induction p as [|x p IH]; [|rewrite append_cons_s; exact IH].
  change ("" +:+ v +:+ r) with (v +:+ r). simpl String.length.
  induction v as [|y v IHv]; [by destruct r|].
  rewrite append_cons_s. simpl. by rewrite IHv.
Qed.

Lemma slice_middle (p v r : string) :
  Py.slice (p +:+ v +:+ r) (Py.len p) (Py.len p + Py.len v) = v.
Proof.
  unfold Py.slice, Py.clamp, Py.len. rewrite !length_append_s.
  set (a := String.length p). set (b := String.length v). set (c := String.length r).
  destruct (Z.ltb_spec (Z.of_nat a) 0); [lia|].
  destruct (Z.ltb_spec (Z.of_nat a + Z.of_nat b) 0); [lia|].
  rewrite !Z.min_r by lia.
  replace (Z.to_nat (Z.of_nat a)) with a by lia.
  replace (Z.to_nat (Z.of_nat a + Z.of_nat b - Z.of_nat a)) with b by lia.
  apply substring_middle.
Qed.

(** X6: every [RequestException] is turned into a string: a failure of
    the first request or of the second one, or a second answer that is not
    JSON, gives ["Error fetching data: <str(e)>"]; a first answer other
    than 200 gives ["Failed to fetch version from <url>"]. *)
Theorem request_failures_become_strings (w : World) (u : string) :
  (forall msg, http w u = HttpFailed msg ->
     get_latest_version w u = ([HttpGet u], Ok (JStr ("Error fetching data: " +:+ msg))))
  /\ (forall r, http w u = HttpResponse r -> status_code r <> 200 ->
        get_latest_version w u
        = ([HttpGet u], Ok (JStr ("Failed to fetch version from " +:+ u))))
  /\ (forall u2 msg, second_request w u = [HttpGet u2] -> http w u2 = HttpFailed msg ->
        get_latest_version w u
        = ([HttpGet u; HttpGet u2], Ok (JStr ("Error fetching data: " +:+ msg))))
  /\ (forall u2 r2 msg, second_request w u = [HttpGet u2] ->
        http w u2 = HttpResponse r2 -> json_body r2 = NotJson msg ->
        get_latest_version w u
        = ([HttpGet u; HttpGet u2], Ok (JStr ("Error fetching data: " +:+ msg)))).
Proof.
  split; [intros; by apply get_latest_version_network_error|].
  split; [intros; by eapply get_latest_version_refused|].
  unfold second_request, get_latest_version, requests_get, response_json. run_m.
  destruct (http w u) as [r|msg0]; simpl; [|by split].
  destruct (status_code r =? 200); simpl; [|by split].
  destruct (Py.contains "nodejs" u); simpl.
  { split.
    - intros u2 msg [= <-] ->. done.
    - intros u2 r2 msg [= <-] -> Hj. simpl. by rewrite Hj. }
  destruct (Py.contains "python" u); simpl; [by split|].
  destruct (Py.contains "npmjs" u); simpl; [|by split].
  split.
  - intros u2 msg [= <-] ->. done.
  - intros u2 r2 msg [= <-] -> Hj. simpl. by rewrite Hj.
Qed.

(** X7: for a URL that contains ["python"] and not ["nodejs"], answered
    with 200 by a page that the HTML parser accepts and in which the first
    release-number marker is followed by a text without [<] and then by
    [</span>], the result is that text stripped, after the one request. *)
Theorem release_number_is_extracted (w : World) (u : string) (r : response)
    (pre v post : string) :
  http w u = HttpResponse r ->
  status_code r = 200 ->
  Py.contains "nodejs" u = false ->
  Py.contains "python" u = true ->
  parse_html w (text r) = None ->
  text r = pre +:+ release_marker +:+ v +:+ "</span>" +:+ post ->
  Py.find release_marker (text r) 0 = Py.len pre ->
  Py.has_char "<" v = false ->
  get_latest_version w u = ([HttpGet u], Ok (JStr (Py.strip v))).
Proof.
  intros Hh Hs Hn Hp Hparse Ht Hf Hv.
  unfold get_latest_version, requests_get, BeautifulSoup. run_m. rewrite Hh. simpl.
  rewrite Hs, Hn, Hp. simpl. rewrite Hparse. simpl. rewrite Hf. do 3 f_equal.
  change (Z.of_nat (String.length release_marker)) with (Py.len release_marker).
  assert (Py.len pre + Py.len release_marker = Py.len (pre +:+ release_marker)) as El.
  { unfold Py.len. rewrite length_append_s. lia. }
  rewrite El.
  assert (text r = (pre +:+ release_marker) +:+ v +:+ "</span>" +:+ post) as Ht'.
  { rewrite Ht. symmetry. apply append_assoc_s. }
  assert (Py.find "</span>" (text r) (Py.len (pre +:+ release_marker))
          = Py.len (pre +:+ release_marker) + Py.len v) as Estop.
  { unfold Py.find. rewrite Ht'. unfold Py.len at 1. rewrite Nat2Z.id.
    rewrite find_from_skip. by rewrite (find_from_past "<" "/span>" v post). }
  rewrite Estop, Ht'. by rewrite slice_middle.
Qed.

Lemma release_number_is_extracted_witness :
  get_latest_version python_host "https://www.python.org/downloads/"
  = ([HttpGet "https://www.python.org/downloads/"], Ok (JStr (Py.strip " Python 3.12.3 "))).
Proof.
  eapply (release_number_is_extracted python_host "https://www.python.org/downloads/" _
            "<p>Latest: " " Python 3.12.3 " "</p>");
    [reflexivity | reflexivity | reflexivity | reflexivity | reflexivity | reflexivity
    | vm_compute; reflexivity | reflexivity].
Defined.

(** X8: a page that the HTML parser accepts but that lacks the
    release-number marker is not noticed: [find] gives -1, the start index
    becomes 28, and the result is whatever lies between index 28 and the
    next [</span>] found from there. *)
Theorem missing_marker_is_not_noticed (w : World) (u : string) (r : response) :
  http w u = HttpResponse r ->
  status_code r = 200 ->
  Py.contains "nodejs" u = false ->
  Py.contains "python" u = true ->
  parse_html w (text r) = None ->
  Py.contains release_marker (text r) = false ->
  get_latest_version w u
  = ([HttpGet u],
     Ok (JStr (Py.strip (Py.slice (text r) 28 (Py.find "</span>" (text r) 28))))).
Proof.
  intros Hh Hs Hn Hp Hparse Hm.
  assert (Py.find release_marker (text r) 0 = -1) as Hf
    by (unfold Py.find; simpl Z.to_nat; by apply find_from_absent).
  unfold get_latest_version, requests_get, BeautifulSoup. run_m. rewrite Hh. simpl.
  rewrite Hs, Hn, Hp. simpl. rewrite Hparse. simpl. by rewrite Hf.
Qed.

Lemma missing_marker_is_not_noticed_witness :
  get_latest_version python_host "https://www.python.org/about/"
  = ([HttpGet "https://www.python.org/about/"], Ok (JStr "ml")).
Proof.
  rewrite (missing_marker_is_not_noticed python_host "https://www.python.org/about/" _
             eq_refl eq_refl eq_refl eq_refl eq_refl eq_refl).
  reflexivity.
Defined.





(** X10: for a URL that contains ["nodejs"], answered with 200, the
    result is built from the first entry of the release index whatever
    the status of that second answer: ["<version> (<date>)"], with
    ["Unknown version"] in the place of a field the entry lacks. *)
Theorem release_index_entry_is_formatted (w : World) (u : string) (r r2 : response)
    (entries : list (string * json)) (others : list json) :
  http w u = HttpResponse r ->
  status_code r = 200 ->
  Py.contains "nodejs" u = true ->
  http w "https://nodejs.org/dist/index.json" = HttpResponse r2 ->
  json_body r2 = Decoded (JList (JDict entries :: others)) ->
  get_latest_version w u
  = ([HttpGet u; HttpGet "https://nodejs.org/dist/index.json"],
     Ok (JStr (py_str (default (JStr "Unknown version") (dict_get "version" entries))
               +:+ " ("
               +:+ py_str (default (JStr "Unknown version") (dict_get "date" entries))
               +:+ ")"))).
Proof.
  intros Hh Hs Hn Hh2 Hj.
  unfold get_latest_version, requests_get, response_json. run_m.
  rewrite Hh. simpl. rewrite Hs, Hn. simpl. rewrite Hh2. simpl. by rewrite Hj.
Qed.

Lemma release_index_entry_is_formatted_witness :
  get_latest_version python_host "https://nodejs.org/en/"
  = ([HttpGet "https://nodejs.org/en/"; HttpGet "https://nodejs.org/dist/index.json"],
     Ok (JStr "Unknown version (2024-04-24)")).
Proof.
  exact (release_index_entry_is_formatted python_host "https://nodejs.org/en/" _ _
           [("date", JStr "2024-04-24")] [] eq_refl eq_refl eq_refl eq_refl eq_refl).
Defined.

(** ** Results of [get_resources] *)

(** X11: in a result of [get_resources] an entry is marked executable
    exactly when the executability check of its path passes, and it
    carries a version exactly when it is marked executable: the string
    [get_version] gave for the resource's version flag, error strings
    included. *)
Theorem executable_entries_have_versions (w : World) (table : resource_table)
    (dirs : list string) (b : bool) (l : list event) (rr : resource_results)
    (cov : gset string) (r p : string) (det : resource_details) (d : path_details) :
  get_resources w table dirs b = (l, Ok (rr, cov)) ->
  (r, det) ∈ rr ->
  (p, d) ∈ paths det ->
  Executable d = is_executable w p
  /\ (Executable d = true <-> is_Some (Version d))
  /\ exists args u,
       (r, (args, u)) ∈ table
       /\ (Executable d = true -> Version d = Some (version_string w p args)).
Proof.
  intros Hrun Hr Hd.
  destruct (get_resources_entries _ _ _ _ _ _ _ Hrun _ _ Hr)
    as (args & u & lv & l1 & l2 & Htab & _ & _ & ->).
  apply entry_of_elem in Hd as [inp ->]. simpl. split; [done|]. split.
  - destruct (is_executable w p); split; done.
  - exists args, u. split; [done|]. by intros ->.
Qed.

Lemma executable_entries_have_versions_witness :
  Executable (found true (Some "v18.16.0") false) = is_executable linux_host "/usr/bin/node"
  /\ (Executable (found true (Some "v18.16.0") false) = true
      <-> is_Some (Version (found true (Some "v18.16.0") false))).
Proof.
  assert (get_resources linux_host RESOURCES STANDARD_INSTALL_DIRS true
          = (linux_run.1, Ok ([("node", linux_node)], covered_of linux_run))) as Hrun
    by (vm_compute; reflexivity).
  destruct (executable_entries_have_versions linux_host RESOURCES STANDARD_INSTALL_DIRS true
              _ _ _ "node" "/usr/bin/node" linux_node _ Hrun
              (list_elem_of_here _ _) (list_elem_of_here _ _)) as (H1 & H2 & _).
  split; [exact H1|exact H2].
Defined.

Lemma first_seen_cons (p : string) (ps ks : list string) :
  first_seen (p :: ps) ks = first_seen ps (ks ++ (if decide (p ∈ ks) then [] else [p])).
Proof. unfold first_seen. simpl. case_decide; [by rewrite app_nil_r|done]. Qed.

Lemma for_each_keys (w : World) (dirs : list string) (b : bool) (table : resource_table)
    (rr0 rr : resource_results) (cov0 cov : gset string) (l : list event) :
  for_each table (get_resources_body w dirs b) (rr0, cov0) = (l, Ok (rr, cov)) ->
  dict_keys rr = first_seen table.*1 (dict_keys rr0).
Proof.
  revert rr0 cov0 l. induction table as [|[r [args u]] table IH]; intros rr0 cov0 l.
  - by intros [= _ <- _].
  - rewrite for_each_cons, get_resources_body_run.
    destruct (get_latest_version w u) as [la [lv|e]]; [|done].
    destruct (find_executable_paths w r) as [lb [ps|e]]; [|done].
    rewrite bind_ok. cbn [fst snd].
    destruct (for_each table _ _) as [l' o] eqn:E. simpl. intros [= _ ->].
    apply IH in E. rewrite E, dict_keys_set.
    change (list_fmap _ _ fst table) with (table.*1).
    case_decide; [by rewrite app_nil_r|done].
Qed.

(** X12: a result of [get_resources] has one entry per resource name of
    the table, in the order in which the names first appear there, and the
    URL recorded in an entry is one the table gives for that name. *)
Theorem results_follow_table (w : World) (table : resource_table) (dirs : list string)
    (b : bool) (l : list event) (rr : resource_results) (cov : gset string) :
  get_resources w table dirs b = (l, Ok (rr, cov)) ->
  dict_keys rr = first_seen table.*1 []
  /\ NoDup (dict_keys rr)
  /\ (forall r, r ∈ dict_keys rr <-> r ∈ table.*1)
  /\ (forall r det, (r, det) ∈ rr ->
        exists args, (r, (args, url (online det))) ∈ table).
Proof.
  intros Hrun. pose proof (for_each_keys _ _ _ _ _ _ _ _ _ Hrun) as Hk. simpl in Hk.
  split; [done|]. split; [|split].
  - rewrite Hk. apply first_seen_NoDup, NoDup_nil_2.
  - intros r. rewrite Hk, first_seen_elem, elem_of_nil. tauto.
  - intros r det Hr.
    destruct (get_resources_entries _ _ _ _ _ _ _ Hrun _ _ Hr)
      as (args & u & lv & l1 & l2 & Htab & _ & _ & ->).
    by exists args.
Qed.

Lemma results_follow_table_witness :
  dict_keys [("node", linux_node)] = first_seen RESOURCES.*1 []
  /\ NoDup (dict_keys [("node", linux_node)]).
Proof.
  assert (get_resources linux_host RESOURCES STANDARD_INSTALL_DIRS true
          = (linux_run.1, Ok ([("node", linux_node)], covered_of linux_run))) as Hrun
    by (vm_compute; reflexivity).
  destruct (results_follow_table linux_host RESOURCES STANDARD_INSTALL_DIRS true _ _ _ Hrun)
    as (H1 & H2 & _).
  split; [exact H1|exact H2].
Defined.

Lemma build_hierarchy_in_path_only (ps : list (string * path_details)) :
  Forall (fun e => InPath e.2 = true) ps -> build_hierarchy ps = Node [].
Proof.
  induction ps as [|x ps IH] using rev_ind; [done|].
  intros [Hps Hx]%Forall_app. apply Forall_cons in Hx as [Hx _].
  rewrite build_hierarchy_snoc, bool_decide_eq_false_2 by congruence. by apply IH.
Qed.

(** X13: a run without the standard-directory search (the default of
    [get_resources], the one [main] makes) records every path as found
    on [PATH], covers no directory, and gives every resource an empty
    hierarchy: its section of the report has no hierarchy line. *)
Theorem plain_run_has_no_hierarchy (w : World) (table : resource_table)
    (dirs : list string) (l : list event) (rr : resource_results) (cov : gset string) :
  get_resources w table dirs false = (l, Ok (rr, cov)) ->
  cov = ∅
  /\ forall r det, (r, det) ∈ rr ->
       Forall (fun e => InPath e.2 = true) (paths det)
       /\ build_hierarchy (paths det) = Node []
       /\ forall pc, resource_section pc (r, det)
            = [ header_line r det;
                Py.tab +:+ "Latest Available Version: "
                  +:+ py_str (latest_version (online det)) +:+ "  -  " +:+ url (online det) ]
              ++ flat_map path_lines (paths det) ++ [ "" ].
Proof.
  intros Hrun. split; [by eapply no_standard_search_covers_nothing|].
  intros r det Hr.
  destruct (get_resources_entries _ _ _ _ _ _ _ Hrun _ _ Hr)
    as (args & u & lv & l1 & l2 & _ & _ & _ & Hdet).
  assert (Forall (fun e => InPath e.2 = true) (paths det)) as Hall.
  { apply Forall_forall. intros [p d] Hd. rewrite Hdet in Hd. unfold entry_of in Hd.
    simpl in Hd. apply fold_paths_elem in Hd as [?%elem_of_nil|[_ ->]]; done. }
  split; [done|]. split; [by apply build_hierarchy_in_path_only|].
  intros pc. unfold resource_section. by rewrite build_hierarchy_in_path_only.
Qed.

Lemma plain_run_has_no_hierarchy_witness :
  covered_of linux_plain_run = ∅
  /\ paths linux_plain_node
     = [ ("/usr/bin/node", found true (Some "v18.16.0") true);
         ("/usr/local/bin/node", found false None true) ]
  /\ Forall (fun e => InPath e.2 = true) (paths linux_plain_node)
  /\ build_hierarchy (paths linux_plain_node) = Node []
  /\ resource_section ∅ ("node", linux_plain_node)
     = [ "node: ";
         Py.tab +:+ "Latest Available Version: v22.1.0 (2024-04-24)  -  https://nodejs.org/en/";
         Py.tab +:+ "Path: /usr/bin/node";
         Py.tab +:+ Py.tab +:+ Py.tab +:+ "Executable: True";
         Py.tab +:+ Py.tab +:+ Py.tab +:+ "Version: v18.16.0";
         Py.tab +:+ Py.tab +:+ Py.tab +:+ "In-Path Variable: True";
         "" ].
Proof.
  assert (get_resources linux_host RESOURCES STANDARD_INSTALL_DIRS false
          = (linux_plain_run.1, Ok ([("node", linux_plain_node)], covered_of linux_plain_run)))
    as Hrun by (vm_compute; reflexivity).
  destruct (plain_run_has_no_hierarchy linux_host RESOURCES STANDARD_INSTALL_DIRS _ _ _ Hrun)
    as [H1 H2].
  destruct (H2 "node" linux_plain_node (list_elem_of_here _ _)) as (H3 & H4 & H5).
  split; [exact H1|]. split; [reflexivity|]. split; [exact H3|]. split; [exact H4|].
  rewrite H5. reflexivity.
Defined.

Lemma chars_length (s d : string) : d ∈ chars s -> String.length d = 1%nat.
Proof. unfold chars. intros (c & -> & _)%list_elem_of_fmap. reflexivity. Qed.

Lemma covered_by_characters (w : World) (extra : list string) (cov : gset string) :
  (forall d, d ∈ cov -> String.length d = 1%nat) ->
  forall d, d ∈ covered_by w extra cov -> String.length d = 1%nat.
Proof.
  unfold covered_by. revert cov. induction extra as [|p extra IH]; intros cov Hcov; [done|].
  simpl. apply IH. intros d. unfold set_update.
  rewrite elem_of_union, elem_of_list_to_set. intros [?|?]; [by apply Hcov|].
  by eapply chars_length.
Qed.

(** X14: every member of the covered set that [get_resources] returns is
    a string of one character (the directory name is added character by
    character), so a [PATH] entry of two characters or more is reported
    uncovered whatever was found. *)
Theorem covered_set_holds_characters (w : World) (table : resource_table)
    (dirs : list string) (b : bool) (l : list event) (rr : resource_results)
    (cov : gset string) :
  get_resources w table dirs b = (l, Ok (rr, cov)) ->
  (forall d, d ∈ cov -> String.length d = 1%nat)
  /\ (forall d, d ∈ path_entries w -> (2 <= String.length d)%nat ->
        d ∈ list_uncovered_path_dirs w cov).
Proof.
  intros Hrun.
  assert (forall d, d ∈ cov -> String.length d = 1%nat) as Hone.
  { revert Hrun. unfold get_resources.
    apply (for_each_inv
             (fun s : resource_results * gset string =>
                forall d, d ∈ s.2 -> String.length d = 1%nat)).
    - intros [r [args u]] [rr0 cov0] l1 [rr1 cov1] _ Hinv. rewrite get_resources_body_run.
      destruct (get_latest_version w u) as [la [lv|e]]; [|done].
      destruct (find_executable_paths w r) as [lb [ps|e]]; [|done].
      intros [= _ _ <-]. simpl. by apply covered_by_characters.
    - simpl. intros d Hd. by apply elem_of_empty in Hd. }
  split; [done|]. intros d Hd Hlen. apply uncovered_elem. split; [done|]. split.
  - intros ->. simpl in Hlen. lia.
  - intros Hc. apply Hone in Hc. lia.
Qed.

Lemma covered_set_holds_characters_witness :
  (forall d, d ∈ covered_of linux_run -> String.length d = 1%nat)
  /\ "/usr/bin" ∈ list_uncovered_path_dirs linux_host (covered_of linux_run).
Proof.
  assert (get_resources linux_host RESOURCES STANDARD_INSTALL_DIRS true
          = (linux_run.1, Ok ([("node", linux_node)], covered_of linux_run))) as Hrun
    by (vm_compute; reflexivity).
  destruct (covered_set_holds_characters linux_host RESOURCES STANDARD_INSTALL_DIRS true
              _ _ _ Hrun) as [H1 H2].
  split; [exact H1|]. apply H2; [|simpl; lia].
  vm_compute. apply list_elem_of_here.
Defined.

Lemma search_in_standard_dirs_elem (w : World) (dirs : list string) (resource p : string) :
  p ∈ search_in_standard_dirs w dirs resource
  <-> exists dir_pattern,
        dir_pattern ∈ dirs
        /\ p ∈ glob_recursive w dir_pattern resource
        /\ os_access_X_OK w p = true.
Proof.
  unfold search_in_standard_dirs. rewrite list_elem_of_In, in_flat_map. split.
  - intros (d & Hd & Hp). apply filter_In in Hp as [Hp Hx].
    exists d. by rewrite !list_elem_of_In.
  - intros (d & Hd & Hp & Hx). exists d. rewrite filter_In, <- !list_elem_of_In. done.
Qed.

(** X15: on a host that is not Windows, a path recorded with
    [InPath = False] came from the standard-directory search, matched one
    of the directory patterns and passed [os.access]; so it is marked
    executable and carries a version string. *)
Theorem standard_dir_entries_are_executable (w : World) (table : resource_table)
    (dirs : list string) (b : bool) (l : list event) (rr : resource_results)
    (cov : gset string) (r p : string) (det : resource_details) (d : path_details) :
  SYSTEM_PLATFORM w = Posix ->
  get_resources w table dirs b = (l, Ok (rr, cov)) ->
  (r, det) ∈ rr ->
  (p, d) ∈ paths det ->
  InPath d = false ->
  b = true
  /\ (exists dir_pattern, dir_pattern ∈ dirs /\ p ∈ glob_recursive w dir_pattern r)
  /\ Executable d = true
  /\ is_Some (Version d).
Proof.
  intros Hposix Hrun Hr Hd Hin.
  destruct (get_resources_entries _ _ _ _ _ _ _ Hrun _ _ Hr)
    as (args & u & lv & l1 & l2 & _ & _ & _ & ->).
  unfold entry_of in Hd. simpl in Hd. apply fold_paths_elem in Hd as [Hd|[Hp ->]].
  { apply fold_paths_elem in Hd as [?%elem_of_nil|[_ ->]]; done. }
  unfold extra_found in Hp. destruct b; [|by apply elem_of_nil in Hp].
  apply search_in_standard_dirs_elem in Hp as (dp & Hdp & Hg & Hx).
  assert (is_executable w p = true) as Hex by (unfold is_executable; by rewrite Hposix).
  split; [done|]. split; [by exists dp|]. simpl. rewrite Hex. split; [done|by eexists].
Qed.

Lemma standard_dir_entries_are_executable_witness :
  Executable (found true (Some "v18.16.0") false) = true
  /\ is_Some (Version (found true (Some "v18.16.0") false)).
Proof.
  assert (get_resources linux_host RESOURCES STANDARD_INSTALL_DIRS true
          = (linux_run.1, Ok ([("node", linux_node)], covered_of linux_run))) as Hrun
    by (vm_compute; reflexivity).
  destruct (standard_dir_entries_are_executable linux_host RESOURCES STANDARD_INSTALL_DIRS
              true _ _ _ "node" "/usr/bin/node" linux_node _ eq_refl Hrun
              (list_elem_of_here _ _) (list_elem_of_here _ _) eq_refl)
    as (_ & _ & H3 & H4).
  split; [exact H3|exact H4].
Defined.

Lemma for_each_log_in {A S} (P : event -> Prop) (body : A -> S -> M S) (xs : list A) (s : S) :
  (forall x s, x ∈ xs -> Forall P (log_of (body x s))) ->
  Forall P (log_of (for_each xs body s)).
Proof.
  revert s. induction xs as [|x xs IH]; intros s Hbody; [constructor|].
  rewrite for_each_cons. pose proof (Hbody x s (list_elem_of_here _ _)) as Hx.
  unfold log_of in *. destruct (body x s) as [l [s'|e]]; [|done].
  rewrite bind_ok. simpl. apply Forall_app. split; [done|].
  apply IH. intros y s0 Hy. apply Hbody. by right.
Qed.

Lemma probe_log_elem (w : World) (args : string) (ps : list string) (ev : event) :
  ev ∈ probe_log w args ps ->
  exists p, p ∈ ps /\ is_executable w p = true /\ ev = ProcRun [p; args].
Proof.
  unfold probe_log. rewrite list_elem_of_In, in_flat_map.
  intros (p & Hp%list_elem_of_In & Hev). exists p.
  destruct (is_executable w p); [|done]. destruct Hev as [<-|[]]. done.
Qed.

(** X16: [get_resources] starts a child process only for a path that one
    of the two searches reported for a resource of the table and that
    passed the executability check, and always with that resource's
    version flag as the single argument. *)
Theorem every_probe_is_accounted (w : World) (table : resource_table) (dirs : list string)
    (b : bool) :
  Forall (accounted_event w table dirs b) (log_of (get_resources w table dirs b)).
Proof.
  unfold get_resources. apply for_each_log_in.
  intros [r [args u]] [rr cov] Hin. rewrite get_resources_body_run.
  pose proof (get_latest_version_log w u) as H1.
  pose proof (run_command_log w
                (match SYSTEM_PLATFORM w with
                 | Windows => "where " +:+ r
                 | Posix => "which -a " +:+ r
                 end)) as H2.
  fold (find_executable_paths w r) in H2. unfold log_of in *.
  assert (Forall (accounted_event w table dirs b) (get_latest_version w u).1) as H1'.
  { eapply Forall_impl; [exact H1|]. by intros [| |]. }
  destruct (get_latest_version w u) as [l1 [lv|e]]; [|done].
  destruct (find_executable_paths w r) as [l2 [ps|e]] eqn:Ef; simpl in *; subst l2.
  - assert (located w r = ps) as Hloc by (unfold located, result_of; by rewrite Ef).
    rewrite !Forall_app. repeat split; try done.
    + by repeat constructor.
    + apply Forall_forall. intros ev (p & Hp & Hx & ->)%probe_log_elem.
      exists r, args, u, p. rewrite Hloc. auto.
    + apply Forall_forall. intros ev (p & Hp & Hx & ->)%probe_log_elem.
      exists r, args, u, p. auto.
  - rewrite !Forall_app. split; [done|]. by repeat constructor.
Qed.

(** ** More on the path counts *)

Lemma filter_length_le {A} (P Q : A -> Prop) `{!forall x, Decision (P x)}
    `{!forall x, Decision (Q x)} (l : list A) :
  (forall x, P x -> Q x) -> (length (filter P l) <= length (filter Q l))%nat.
Proof.
  intros HPQ. induction l as [|x l IH]; [done|].
  rewrite !filter_cons. destruct (decide (P x)) as [HP|HP].
  - rewrite decide_True by auto. simpl. lia.
  - destruct (decide (Q x)); simpl; lia.
Qed.

Lemma build_path_counts_lookup (rr : resource_results) (s : string) :
  default 0 (build_path_counts rr !! s) = Z.of_nat (prefix_count s rr).
Proof.
  rewrite build_path_counts_flat, counts_of_list. unfold prefix_count. simpl.
  by destruct (decide _) as [->|?].
Qed.

(** X17: the count of a prefix is at least the count of any longer
    prefix that extends it segment by segment, and every discovered path
    is itself a key with a count of at least 1. *)
Theorem parent_count_dominates (rr : resource_results) (s1 s2 : string) :
  segments s1 `prefix_of` segments s2 ->
  default 0 (build_path_counts rr !! s2) <= default 0 (build_path_counts rr !! s1)
  /\ (s2 ∈ discovered rr ->
        1 <= default 0 (build_path_counts rr !! s2)
        /\ 1 <= default 0 (build_path_counts rr !! s1)).
Proof.
  intros Hpre. rewrite !build_path_counts_lookup.
  assert (prefix_count s2 rr <= prefix_count s1 rr)%nat as Hle.
  { unfold prefix_count. apply filter_length_le. intros p Hp. by etrans. }
  split; [lia|]. intros Hin.
  assert (1 <= prefix_count s2 rr)%nat as H1.
  { unfold prefix_count.
    assert (s2 ∈ filter (fun p => segments s2 `prefix_of` segments p) (discovered rr)) as Hf
      by (by apply list_elem_of_filter).
    destruct (filter _ _); [by apply elem_of_nil in Hf|simpl; lia]. }
  lia.
Qed.

Lemma parent_count_dominates_witness :
  default 0 (build_path_counts two_installs !! "C:\a")
    <= default 0 (build_path_counts two_installs !! "C:").
Proof.
  assert (segments "C:" `prefix_of` segments "C:\a") as H by (exists ["a"]; reflexivity).
  exact (proj1 (parent_count_dominates two_installs "C:" "C:\a" H)).
Defined.

(** X18: the counts depend only on which paths were discovered and how
    often, not on the order of the resources or of their paths, nor on
    which resource holds a path. *)
Theorem counts_ignore_order (rr rr' : resource_results) :
  discovered rr ≡ₚ discovered rr' -> build_path_counts rr = build_path_counts rr'.
Proof.
  intros Hperm. apply map_eq. intros s.
  rewrite !build_path_counts_flat, !counts_of_list. simpl.
  assert (length (filter (fun p => segments s `prefix_of` segments p) (discovered rr))
          = length (filter (fun p => segments s `prefix_of` segments p) (discovered rr')))
    as -> by (by apply Permutation_length, filter_Permutation).
  done.
Qed.

Lemma counts_ignore_order_witness :
  build_path_counts two_installs
  = build_path_counts
      [ ("node", {| online := no_details;
                    paths := [ ("C:\b\node", found false None false) ] |});
        ("nodejs", {| online := no_details;
                      paths := [ ("C:\a\node", found false None false) ] |}) ].
Proof.
  apply counts_ignore_order. vm_compute. apply Permutation_swap.
Defined.

(** ** More on the hierarchy *)

Lemma tree_ind_items (P : tree -> Prop) :
  (forall items, Forall (fun kv => P kv.2) items -> P (Node items)) ->
  forall t, P t.
Proof.
  intros H. fix IH 1. intros [items]. apply H.
  induction items as [|[k sub] items IHi]; constructor; [apply IH|exact IHi].
Qed.

Lemma setdefault_then_present (k : string) (f : tree -> tree) (items : list (string * tree))
    (sub : tree) :
  dict_get k items = Some sub -> f sub = sub -> setdefault_then k f items = items.
Proof.
  intros Hget Hf. induction items as [|[k' sub'] items IH]; [done|].
  simpl in *. destruct (decide (k = k')) as [->|Hne].
  - injection Hget as ->. by rewrite Hf.
  - by rewrite IH.
Qed.

Lemma insert_parts_present (parts : list string) (t : tree) :
  is_Some (walk parts t) -> insert_parts parts t = t.
Proof.
  revert t. induction parts as [|p ps IH]; intros [items]; [done|].
  simpl. destruct (dict_get p items) as [sub|] eqn:E; [|by intros [? ?]].
  intros Hsub. f_equal. eapply setdefault_then_present; [exact E|by apply IH].
Qed.

(** Re-entering a path, or entering a prefix of a path entered before,
    is the case of a chain that is already there. *)
Corollary insert_parts_prefix_again (c parts : list string) (t : tree) :
  c `prefix_of` parts -> insert_parts c (insert_parts parts t) = insert_parts parts t.
Proof. intros Hc. apply insert_parts_present, walk_insert_parts. by right. Qed.

(** X19: entering a path whose chain of segments is already in the
    hierarchy (the path itself was entered before, or it is a prefix of one
    that was) changes nothing: neither the nodes nor the order of the
    siblings. *)
Theorem present_path_changes_nothing (parts : list string) (t : tree) :
  has_chain parts t = true -> insert_parts parts t = t.
Proof. intros H%has_chain_walk. by apply insert_parts_present. Qed.

Lemma present_path_changes_nothing_witness :
  has_chain ["C:"; "tools"; "node"]
    (Node [("C:", Node [("bin", Node []);
                        ("tools", Node [("node", Node [("node", Node [])])])])]) = true
  /\ insert_parts (segments "C:\tools\node")
       (insert_parts (segments "C:\tools\node\node")
          (insert_parts (segments "C:\bin") (Node [])))
     = Node [("C:", Node [("bin", Node []);
                          ("tools", Node [("node", Node [("node", Node [])])])])].
Proof.
  assert (has_chain ["C:"; "tools"; "node"]
            (Node [("C:", Node [("bin", Node []);
                                ("tools", Node [("node", Node [("node", Node [])])])])])
          = true) as H by reflexivity.
  split; [exact H|].
  change (insert_parts (segments "C:\tools\node\node")
            (insert_parts (segments "C:\bin") (Node [])))
    with (Node [("C:", Node [("bin", Node []);
                             ("tools", Node [("node", Node [("node", Node [])])])])]).
  exact (present_path_changes_nothing _ _ H).
Defined.

Lemma sum_insert_sorted {A} (f : string * A -> nat) (x : string * A) (l : list (string * A)) :
  sum_list (map f (insert_sorted x l)) = (f x + sum_list (map f l))%nat.
Proof.
  induction l as [|y l IH]; [done|].
  simpl. destruct (String.leb x.1 y.1); simpl; [done|]. rewrite IH. lia.
Qed.

Lemma sum_sorted_items {A} (f : string * A -> nat) (l : list (string * A)) :
  sum_list (map f (sorted_items l)) = sum_list (map f l).
Proof.
  induction l as [|x l IH]; [done|]. simpl. by rewrite sum_insert_sorted, IH.
Qed.

Lemma length_flat_map {A B} (f : A -> list B) (l : list A) :
  length (flat_map f l) = sum_list (map (fun x => length (f x)) l).
Proof. induction l as [|x l IH]; [done|]. simpl. by rewrite length_app, IH. Qed.

Lemma spaces_add (n m : nat) : Py.spaces (n + m) = Py.spaces n +:+ Py.spaces m.
Proof. induction n as [|n IH]; [done|]. simpl. by rewrite IH. Qed.

Lemma startswith_app_l (a b s : string) :
  Py.startswith (a +:+ b) s = true -> Py.startswith a s = true.
Proof.
  revert s. induction a as [|x a IH]; intros s; [done|].
  rewrite append_cons_s. destruct s as [|y s]; simpl; [done|].
  intros [-> H]%andb_true_iff. simpl. by apply IH.
Qed.

Lemma print_hierarchy_lines (t : tree) (pc : gmap string Z) (n : nat) :
  length (print_hierarchy t pc n) = tree_size t
  /\ Forall (fun line => Py.startswith (Py.spaces n) line = true) (print_hierarchy t pc n).
Proof.
  revert n. induction t as [items IH] using tree_ind_items. intros n.
  rewrite print_hierarchy_unfold. split.
  - rewrite length_flat_map, sum_sorted_items. simpl. f_equal.
    induction items as [|[k sub] items IHi]; [done|].
    apply Forall_cons in IH as [Hsub IH]. simpl in *.
    rewrite (proj1 (Hsub _)). f_equal. by apply IHi.
  - apply Forall_forall. intros line Hline.
    apply list_elem_of_In, in_flat_map in Hline as ([k sub] & Hin & Hline).
    apply list_elem_of_In in Hin. rewrite sorted_items_Permutation in Hin.
    rewrite Forall_forall in IH. specialize (IH _ Hin). simpl in *.
    destruct Hline as [<-|Hline].
    + unfold hierarchy_line. apply startswith_app.
    + apply list_elem_of_In in Hline.
      destruct (IH (n + 2)%nat) as [_ Hall]. rewrite Forall_forall in Hall.
      specialize (Hall _ Hline). rewrite spaces_add in Hall.
      by apply startswith_app_l in Hall.
Qed.

(** X20: [print_hierarchy] appends exactly one line per node of the
    hierarchy, and every line begins with at least the indentation it was
    called with. *)
Theorem print_hierarchy_one_line_per_node (t : tree) (pc : gmap string Z) (n : nat) :
  length (print_hierarchy t pc n) = tree_size t
  /\ Forall (fun line => Py.startswith (Py.spaces n) line = true) (print_hierarchy t pc n).
Proof. apply print_hierarchy_lines. Qed.

Lemma setdefault_leaf (p : string) (keys : list string) :
  setdefault_then p (fun t => t) (leaves keys)
  = leaves (keys ++ (if decide (p ∈ keys) then [] else [p])).
Proof.
  unfold leaves. induction keys as [|k keys IH].
  - destruct (decide (p ∈ [])) as [Hin|Hin]; [by apply elem_of_nil in Hin|done].
  - destruct (decide (p ∈ k :: keys)) as [Hin|Hin]; csimpl.
    + destruct (decide (p = k)) as [->|Hne]; [by rewrite app_nil_r|].
      apply elem_of_cons in Hin as [?|Hin]; [done|].
      rewrite IH, decide_True by done. done.
    + apply not_elem_of_cons in Hin as [Hne Hin].
      rewrite decide_False by done. rewrite IH, decide_False by done. done.
Qed.

Lemma build_hierarchy_flat (ps : list (string * path_details)) :
  Forall (fun e => InPath e.2 = false -> Py.has_char Py.backslash e.1 = false) ps ->
  build_hierarchy ps = Node (leaves (hierarchy_paths ps)).
Proof.
  unfold hierarchy_paths. induction ps as [|[p d] ps IH] using rev_ind; [done|].
  intros [Hps Hp]%Forall_app. apply Forall_cons in Hp as [Hp _]. simpl in Hp.
  rewrite build_hierarchy_snoc, filter_app, filter_cons, filter_nil. simpl.
  rewrite (IH Hps). case_bool_decide as Hd.
  - rewrite decide_True by done. rewrite fmap_app. csimpl. rewrite first_seen_snoc.
    unfold segments. rewrite split_sep_free by auto. simpl.
    by rewrite setdefault_leaf.
  - rewrite decide_False by done. by rewrite app_nil_r.
Qed.

Lemma print_leaves (l : list (string * tree)) (pc : gmap string Z) (n : nat) :
  Forall (fun e => e.2 = Node []) l ->
  flat_map (fun e => hierarchy_line pc n e.1 e.2 :: print_hierarchy e.2 pc (n + 2)%nat) l
  = (fun e => leaf_line pc n e.1) <$> l.
Proof.
  induction l as [|[k sub] l IH]; [done|].
  intros [Hk Hl]%Forall_cons. simpl in Hk. subst sub. csimpl. by rewrite IH.
Qed.

(** X21: when no path recorded with [InPath = False] contains a
    backslash (whatever the paths found on [PATH] look like), the
    hierarchy is flat: one leaf per such path, printed in sorted order,
    each line annotated with the count the table holds for that very
    path. *)
Theorem flat_hierarchy_has_true_counts (ps : list (string * path_details))
    (pc : gmap string Z) (n : nat) :
  Forall (fun e => InPath e.2 = false -> Py.has_char Py.backslash e.1 = false) ps ->
  build_hierarchy ps = Node (leaves (hierarchy_paths ps))
  /\ print_hierarchy (build_hierarchy ps) pc n
     = (fun e => leaf_line pc n e.1) <$> sorted_items (leaves (hierarchy_paths ps)).
Proof.
  intros Hps. rewrite build_hierarchy_flat by done. split; [done|].
  rewrite print_hierarchy_unfold. apply print_leaves.
  apply Forall_forall. intros e He. rewrite sorted_items_Permutation in He.
  unfold leaves in He. by apply list_elem_of_fmap in He as (k & -> & _).
Qed.

Lemma flat_hierarchy_has_true_counts_witness :
  let ps := [ ("C:\Program Files\nodejs\node.exe", found true (Some "v18.16.0") true);
              ("/usr/local/bin/node", found true (Some "v20.1.0") false);
              ("/opt/node/bin/node", found true (Some "v18.16.0") false) ] in
  let pc := build_path_counts [("node", {| online := no_details; paths := ps |})] in
  build_hierarchy ps = Node [("/usr/local/bin/node", Node []); ("/opt/node/bin/node", Node [])]
  /\ print_hierarchy (build_hierarchy ps) pc 2
     = [ "  /opt/node/bin/node (1)\"; "  /usr/local/bin/node (1)\" ].
Proof.
  intros ps pc.
  destruct (flat_hierarchy_has_true_counts ps pc 2) as [H1 H2].
  { repeat constructor; simpl; intros; first [discriminate | reflexivity]. }
  split.
  - rewrite H1. reflexivity.
  - rewrite H2. vm_compute. reflexivity.
Defined.

Example flat_hierarchy_on_linux_host :
  print_hierarchy (build_hierarchy (paths linux_node))
                  (build_path_counts [("node", linux_node)]) 2
  = [ "  /usr/bin/node (1)\" ].
Proof. vm_compute. reflexivity. Qed.

(** ** More on the report *)

Lemma path_line_shape (p : string) :
  Py.tab +:+ "Path: " +:+ p
  = String (Py.chr 9) (String "P" (String "a" (String "t" (String "h"
      (String ":" (String " " p)))))).
Proof. reflexivity. Qed.

Lemma detail_line_shape (s : string) :
  Py.tab +:+ Py.tab +:+ Py.tab +:+ s = String (Py.chr 9) (String (Py.chr 9) (String (Py.chr 9) s)).
Proof. reflexivity. Qed.

(** X22: among the path lines of a resource's section there is a
    ["Path: p"] line exactly when [p] is recorded as executable; a path
    that is not executable gets no block at all. *)
Theorem path_block_iff_executable (ps : list (string * path_details)) (p : string) :
  (Py.tab +:+ "Path: " +:+ p ∈ flat_map path_lines ps
   <-> exists d, (p, d) ∈ ps /\ Executable d = true)
  /\ (forall d, Executable d = false -> path_lines (p, d) = []).
Proof.
  split.
  - rewrite list_elem_of_In, in_flat_map. split.
    + intros ([q d] & Hin%list_elem_of_In & Hline). unfold path_lines in Hline. simpl in Hline.
      case_bool_decide as Hx; [|done].
      rewrite !detail_line_shape, !path_line_shape in Hline.
      destruct Hline as [Heq|[Heq|[Heq|[Heq|[]]]]]; try discriminate.
      injection Heq as ->. by exists d.
    + intros (d & Hin & Hx). exists (p, d). split; [by apply list_elem_of_In|].
      unfold path_lines. simpl. rewrite bool_decide_eq_true_2 by done. by left.
  - intros d Hx. unfold path_lines. simpl. by rewrite bool_decide_eq_false_2 by congruence.
Qed.

Lemma rev_string_app (a b : string) :
  Py.rev_string (a +:+ b) = Py.rev_string b +:+ Py.rev_string a.
Proof.
  unfold Py.rev_string. rewrite list_ascii_of_append, rev_app_distr.
  generalize (rev (list_ascii_of_string b)) (rev (list_ascii_of_string a)).
  intros x y. induction x as [|c x IH]; [done|]. simpl. by rewrite IH.
Qed.

Lemma header_line_no_colon_end (r : string) (det : resource_details) :
  Py.endswith ":" (header_line r det) = false.
Proof.
  unfold header_line, Py.endswith. rewrite rev_string_app.
  by destruct (bool_decide _).
Qed.

Lemma section_lines (pc : gmap string Z) (item : string * resource_details) (line : string) :
  line ∈ resource_section pc item ->
  Py.endswith ":" line = false
  \/ Py.startswith Py.tab line = true
  \/ Py.startswith " " line = true
  \/ line = "".
Proof.
  destruct item as [r det]. unfold resource_section.
  rewrite !elem_of_app, !elem_of_cons. intros [[->|[->|[]%elem_of_nil]]|[H|[H|H]]].
  - left. apply header_line_no_colon_end.
  - right. left. reflexivity.
  - right. left. apply list_elem_of_In, in_flat_map in H as (e & _ & H).
    unfold path_lines in H. case_bool_decide; [|done].
    destruct H as [<-|[<-|[<-|[<-|[]]]]]; reflexivity.
  - right. right. left.
    destruct (print_hierarchy_lines (build_hierarchy (paths det)) pc 2) as [_ Hall].
    rewrite Forall_forall in Hall. specialize (Hall _ H).
    by apply (startswith_app_l " " " ") in Hall.
  - destruct H as [->|[]%elem_of_nil]. auto.
Qed.

(** X23: the report has the line ["Uncovered PATH Directories:"] exactly
    when some [PATH] directory is uncovered, and then every uncovered
    directory has its own line, indented by two spaces. *)
Theorem uncovered_section_iff (w : World) (rr : resource_results) (cov : gset string) :
  ("Uncovered PATH Directories:" ∈ generate_report w rr cov
   <-> list_uncovered_path_dirs w cov <> [])
  /\ (forall d, d ∈ list_uncovered_path_dirs w cov ->
        "  " +:+ d ∈ generate_report w rr cov).
Proof.
  unfold generate_report. set (un := list_uncovered_path_dirs w cov). split.
  - split.
    + rewrite !elem_of_app. intros [H|[H|[H|[H|H]]]].
      * apply list_elem_of_In, in_flat_map in H as (item & _ & H).
        apply list_elem_of_In, section_lines in H as [H|[H|[H|H]]]; discriminate.
      * case_bool_decide as Hu; [by apply elem_of_nil in H|done].
      * by apply list_elem_of_singleton in H.
      * by apply list_elem_of_singleton in H.
      * apply list_elem_of_fmap in H as (kv & H & _).
        change ("  " +:+ kv.1 +:+ ": " +:+ kv.2)
          with (String " " (" " +:+ kv.1 +:+ ": " +:+ kv.2)) in H. discriminate.
    + intros Hu. rewrite elem_of_app. right. rewrite elem_of_app. left.
      rewrite bool_decide_eq_false_2 by done. by left.
  - intros d Hd. rewrite elem_of_app. right. rewrite elem_of_app. left.
    case_bool_decide as Hu; [rewrite Hu in Hd; by apply elem_of_nil in Hd|].
    right. apply list_elem_of_fmap. by exists d.
Qed.

(** ** The single-file version *)

Lemma for_each_ext {A S} (body1 body2 : A -> S -> M S) (xs : list A) (s : S) :
  (forall x s, body1 x s = body2 x s) -> for_each xs body1 s = for_each xs body2 s.
Proof.
  intros Hb. revert s. induction xs as [|x xs IH]; intros s; [done|].
  rewrite !for_each_cons, Hb. destruct (body2 x s) as [l [s'|e]]; [|done].
  by rewrite !bind_ok, IH.
Qed.

(** X24: the [get_resources] of [resource_checker.py] is the one of
    [main.py] run without the standard-directory search, whatever the
    directory patterns: same calls, same outcome. *)
Theorem single_file_get_resources_is_plain_run (w : World) (table : resource_table)
    (dirs : list string) :
  ResourceChecker.get_resources w table = get_resources w table dirs false.
Proof.
  unfold ResourceChecker.get_resources, get_resources. apply for_each_ext.
  by intros [r [args u]] [rr cov].
Qed.

Lemma flat_map_ext_elem {A B} (f g : A -> list B) (l : list A) :
  (forall x, x ∈ l -> f x = g x) -> flat_map f l = flat_map g l.
Proof.
  induction l as [|x l IH]; [done|]. intros H. simpl.
  rewrite (H x) by left. rewrite IH; [done|]. intros y Hy. apply H. by right.
Qed.

(** X25: the report of [resource_checker.py] has a ["Path:"] block for
    every recorded path, executable or not; and the two versions produce
    the same report for results in which every path is executable and was
    found on [PATH]. *)
Theorem single_file_report (w : World) (rr : resource_results) (cov : gset string) :
  (forall r det p d, (r, det) ∈ rr -> (p, d) ∈ paths det ->
     Py.tab +:+ "Path: " +:+ p ∈ ResourceChecker.generate_report w rr cov)
  /\ ((forall r det, (r, det) ∈ rr ->
         Forall (fun e => Executable e.2 = true /\ InPath e.2 = true) (paths det)) ->
      generate_report w rr cov = ResourceChecker.generate_report w rr cov).
Proof.
  split.
  - intros r det p d Hr Hd. unfold ResourceChecker.generate_report.
    apply elem_of_app. left. apply list_elem_of_In, in_flat_map.
    exists (r, det). split; [by apply list_elem_of_In|].
    apply list_elem_of_In. unfold ResourceChecker.resource_section.
    apply elem_of_app. right. apply elem_of_app. left.
    apply list_elem_of_In, in_flat_map. exists (p, d).
    split; [by apply list_elem_of_In|by left].
  - intros Hall. unfold generate_report, ResourceChecker.generate_report. f_equal.
    apply flat_map_ext_elem. intros [r det] Hr. specialize (Hall _ _ Hr).
    unfold resource_section, ResourceChecker.resource_section. f_equal.
    rewrite build_hierarchy_in_path_only
      by (eapply Forall_impl; [exact Hall|by intros ? [_ ?]]).
    simpl. f_equal. apply flat_map_ext_elem. intros e He.
    rewrite Forall_forall in Hall. destruct (Hall _ He) as [Hx _].
    unfold path_lines, ResourceChecker.path_block. by rewrite bool_decide_eq_true_2.
Qed.

Example single_file_report_agrees :
  generate_report bare_host shared_path ∅ = ResourceChecker.generate_report bare_host shared_path ∅.
Proof. reflexivity. Qed.

(** ** The entry point *)

Lemma uncovered_lines_in_report (w : World) (rr : resource_results) (cov : gset string)
    (d : string) :
  d ∈ list_uncovered_path_dirs w cov -> "  " +:+ d ∈ generate_report w rr cov.
Proof.
  intros Hd. unfold generate_report. rewrite elem_of_app. right. rewrite elem_of_app. left.
  case_bool_decide as Hu; [rewrite Hu in Hd; by apply elem_of_nil in Hd|].
  right. apply list_elem_of_fmap. by exists d.
Qed.

Lemma in_path_line_not_false (pc : gmap string Z) (det : resource_details) :
  Forall (fun e => InPath e.2 = true) (paths det) ->
  build_hierarchy (paths det) = Node [] ->
  (Py.tab +:+ Py.tab +:+ Py.tab +:+ "In-Path Variable: False") ∉ resource_section pc ("node", det).
Proof.
  intros Hin Hflat. unfold resource_section. rewrite Hflat, print_hierarchy_unfold. simpl.
  rewrite !not_elem_of_cons, !not_elem_of_app. unfold header_line, Py.tab.
  rewrite !append_cons_s. repeat split; try discriminate.
  - intros (e & He & Hl)%list_elem_of_In%in_flat_map. apply list_elem_of_In in He.
    rewrite Forall_forall in Hin. specialize (Hin e He). rename Hl into H.
    unfold path_lines in H. case_bool_decide; [|done]. rewrite Hin in H.
    unfold Py.tab in H. rewrite !append_cons_s in H.
    simpl in H. destruct H as [H|[H|[H|[H|[]]]]]; discriminate.
  - rewrite not_elem_of_cons. split; [discriminate|apply not_elem_of_nil].
Qed.

(** X26: when the run of [main] returns, its report is the report of the
    very result [get_resources] returned for the table without the
    standard-directory search: one resource, ["node"], whose recorded
    paths are all marked as found on [PATH] and whose hierarchy is empty.
    The report starts with that resource's header, contains no line
    ["In-Path Variable: False"], and lists every non-empty [PATH] entry
    as uncovered. *)
Theorem main_report_lists_all_of_path (w : World) (l : list event) (report : list string) :
  main_report w = (l, Ok report) ->
  (exists det,
      get_resources w RESOURCES STANDARD_INSTALL_DIRS false = (l, Ok ([("node", det)], ∅))
      /\ report = generate_report w [("node", det)] ∅
      /\ head report = Some (header_line "node" det)
      /\ Forall (fun e => InPath e.2 = true) (paths det)
      /\ build_hierarchy (paths det) = Node [])
  /\ ((Py.tab +:+ Py.tab +:+ Py.tab +:+ "In-Path Variable: False") ∉ report)
  /\ (forall d, d ∈ path_entries w -> d <> "" -> "  " +:+ d ∈ report).
Proof.
  unfold main_report.
  destruct (get_resources w RESOURCES STANDARD_INSTALL_DIRS false) as [l0 [[rr cov]|e]] eqn:E;
    [|done].
  rewrite bind_ok. simpl. rewrite app_nil_r. intros [= <- <-].
  pose proof (no_standard_search_covers_nothing _ _ _ _ _ _ E) as ->.
  pose proof (for_each_keys _ _ _ _ _ _ _ _ _ E) as Hk. simpl in Hk.
  destruct rr as [|[r det] [|? ?]]; try done. injection Hk as ->.
  assert (Forall (fun e => InPath e.2 = true) (paths det)) as Hin.
  { destruct (get_resources_entries _ _ _ _ _ _ _ E "node" det (list_elem_of_here _ _))
      as (args & u & lv & l1 & l2 & _ & _ & _ & Hdet).
    apply Forall_forall. intros [p d] Hd. rewrite Hdet in Hd. unfold entry_of in Hd.
    simpl in Hd. apply fold_paths_elem in Hd as [?%elem_of_nil|[_ ->]]; done. }
  assert (build_hierarchy (paths det) = Node []) as Hflat
    by (by apply build_hierarchy_in_path_only).
  split; [|split].
  - by exists det.
  - unfold generate_report. cbn [flat_map]. rewrite app_nil_r.
    rewrite !not_elem_of_app. split; [by apply in_path_line_not_false|].
    split; [|split; [|split]].
    + case_bool_decide; [apply not_elem_of_nil|]. rewrite not_elem_of_cons.
      split; [discriminate|]. intros (d & Hd & _)%list_elem_of_fmap.
      unfold Py.tab in Hd. rewrite !append_cons_s in Hd. discriminate.
    + rewrite not_elem_of_cons. split; [discriminate|apply not_elem_of_nil].
    + rewrite not_elem_of_cons. split; [discriminate|apply not_elem_of_nil].
    + intros (kv & Hkv & _)%list_elem_of_fmap.
      unfold Py.tab in Hkv. rewrite !append_cons_s in Hkv. discriminate.
  - intros d Hd Hne. apply uncovered_lines_in_report, uncovered_elem.
    split; [done|]. split; [done|]. apply not_elem_of_empty.
Qed.

Lemma main_report_lists_all_of_path_witness :
  exists report det,
    main_report linux_host = ((main_report linux_host).1, Ok report)
    /\ get_resources linux_host RESOURCES STANDARD_INSTALL_DIRS false
       = ((main_report linux_host).1, Ok ([("node", det)], ∅))
    /\ paths det = [ ("/usr/bin/node", found true (Some "v18.16.0") true);
                     ("/usr/local/bin/node", found false None true) ]
    /\ report = generate_report linux_host [("node", det)] ∅
    /\ ((Py.tab +:+ Py.tab +:+ Py.tab +:+ "In-Path Variable: False") ∉ report)
    /\ "  /usr/local/bin" ∈ report.
Proof.
  assert (main_report linux_host
          = ((main_report linux_host).1, Ok (generate_report linux_host [("node", linux_plain_node)] ∅)))
    as Hrun by (vm_compute; reflexivity).
  destruct (main_report_lists_all_of_path linux_host _ _ Hrun) as ((det & H1 & H2 & _) & H3 & H4).
  exists (generate_report linux_host [("node", linux_plain_node)] ∅), linux_plain_node.
  split; [exact Hrun|]. split; [vm_compute; reflexivity|]. split; [reflexivity|].
  split; [reflexivity|]. split; [exact H3|].
  apply H4; [|discriminate].
  vm_compute. apply list_elem_of_further, list_elem_of_further, list_elem_of_here.
Defined.

Lemma generate_report_nonempty (w : World) (rr : resource_results) (cov : gset string) :
  generate_report w rr cov <> [].
Proof.
  unfold generate_report. intros H. apply (f_equal length) in H.
  rewrite !length_app in H. simpl in H. lia.
Qed.

(** X27: the text [save_report] writes for a report of [generate_report]
    gives back the lines of the report when it is split at the newlines,
    provided no line of the report holds a newline itself. *)
Theorem saved_report_round_trip (w : World) (rr : resource_results) (cov : gset string) :
  Forall (fun line => Py.has_char (Py.chr 10) line = false) (generate_report w rr cov) ->
  Py.split (Py.chr 10) (save_report_text (generate_report w rr cov))
  = generate_report w rr cov.
Proof.
  intros Hall. unfold save_report_text.
  apply (split_join (Py.chr 10)); [apply generate_report_nonempty|done].
Qed.

Lemma saved_report_round_trip_witness :
  Py.split (Py.chr 10)
    (save_report_text (generate_report linux_host [("node", linux_node)] ∅))
  = generate_report linux_host [("node", linux_node)] ∅.
Proof.
  apply saved_report_round_trip. vm_compute. repeat constructor.
Defined.

(** ** The update prompt *)

Lemma lower_char_y (c : ascii) : lower_char c = "y"%char -> c = "y"%char \/ c = "Y"%char.
Proof.
  destruct c as [[] [] [] [] [] [] [] []]; vm_compute; intros H;
    first [discriminate H | by left | by right].
Qed.

Lemma py_lower_y (answer : string) :
  py_lower answer = "y" <-> answer = "y" \/ answer = "Y".
Proof.
  split.
  - destruct answer as [|c [|c' rest]]; simpl; try done.
    intros [= H]. apply lower_char_y in H as [->| ->]; auto.
  - by intros [->| ->].
Qed.

(** X28: unless the answer is exactly [y] or [Y], [prompt_for_update]
    runs no command: it asks, prints ["<name> update skipped."] and
    returns. *)
Theorem no_update_without_yes (answer : string) (run : list string -> proc_result)
    (resource_name : string) :
  answer <> "y" -> answer <> "Y" ->
  prompt_for_update answer run resource_name
  = ([ Asked ("Would you like to update " +:+ resource_name +:+ "? (y/n): ");
       Printed (resource_name +:+ " update skipped.") ], Ok tt).
Proof.
  intros Hy HY. unfold prompt_for_update.
  destruct (String.eqb_spec (py_lower answer) "y") as [H|H]; [|done].
  apply py_lower_y in H as [?|?]; done.
Qed.

Lemma no_update_without_yes_witness :
  prompt_for_update "yes" failing_run "node"
  = ([ Asked ("Would you like to update " +:+ "node" +:+ "? (y/n): ");
       Printed ("node" +:+ " update skipped.") ], Ok tt).
Proof. apply no_update_without_yes; discriminate. Defined.

(** X29: after the answer [y] or [Y], a resource whose lower-cased name is
    none of [node], [python], [git] and [npm] has no update command:
    nothing is run, and ["<name> has been updated successfully."] is
    printed all the same. *)
Theorem unknown_resource_is_reported_updated (answer : string)
    (run : list string -> proc_result) (resource_name : string) :
  answer = "y" \/ answer = "Y" ->
  update_command resource_name = None ->
  prompt_for_update answer run resource_name
  = ([ Asked ("Would you like to update " +:+ resource_name +:+ "? (y/n): ");
       Printed (resource_name +:+ " has been updated successfully.") ], Ok tt).
Proof.
  intros Ha%py_lower_y Hc. unfold prompt_for_update. by rewrite Ha, Hc.
Qed.

Lemma unknown_resource_is_reported_updated_witness :
  prompt_for_update "Y" failing_run "Java"
  = ([ Asked ("Would you like to update " +:+ "Java" +:+ "? (y/n): ");
       Printed ("Java" +:+ " has been updated successfully.") ], Ok tt).
Proof. apply unknown_resource_is_reported_updated; [by right|reflexivity]. Defined.
